(** * A React test generator: analysis, synthesis, verification and repair

    Shallow embedding of
    - [src/component-analyzer.ts]  ([ComponentAnalyzer], and the server class
      [TestGeneratorServer] with [generateTests], [runTests], [fixTestErrors],
      [handleRequest], [handleToolCall] and the line framing of [run]),
    - [src/test-generator.ts]      ([TestGenerator]; the file that the server
      imports under this name).

    JavaScript strings are modelled by [string]: a character of the model is
    one code unit.  On ASCII text the model and the program agree; the case
    conversions and the white-space class of the model are the ASCII ones.

    What the program takes from its environment is a parameter of the model:
    the syntax tree that the TypeScript parser returns, the events of the
    spawned commands, the text that the host prints for a built-in function.
    The model covers the runs without an exception; the one pattern that the
    repairer builds from a text of the diagnostics is covered for the texts
    that are plain characters ([namedImportOf]). *)

From Stdlib Require Import Strings.String Strings.Ascii Lists.List Bool Arith Lia.
From Stdlib Require Import Numbers.DecimalString.
From Stdlib Require Import BinInt.
Import ListNotations.
Open Scope list_scope.
Open Scope string_scope.

(** ** JavaScript string primitives *)

Module JS.

Definition dq : string := String "034"%char EmptyString.
Definition sq : string := String "039"%char EmptyString.
Definition nl : string := String "010"%char EmptyString.

(** A double-quoted literal inside generated text. *)
Definition q (s : string) : string := dq ++ s ++ dq.

(** Text laid out line by line, as a template literal is in the source. *)
Definition lines (l : list string) : string := String.concat nl l.

(** [s.startsWith(p)] *)
Definition startsWith (s p : string) : bool := String.prefix p s.

(** [s.includes(t)] *)
Fixpoint includes (s t : string) : bool :=
  String.prefix t s ||
  match s with
  | EmptyString => false
  | String _ s' => includes s' t
  end.

(** [s.slice(n)] for [0 <= n] *)
Fixpoint slice_from (n : nat) (s : string) : string :=
  match n, s with
  | O, _ => s
  | S _, EmptyString => EmptyString
  | S n', String _ s' => slice_from n' s'
  end.

(** [s.slice(0, n)] for [0 <= n] *)
Fixpoint slice_to (n : nat) (s : string) : string :=
  match n, s with
  | O, _ => EmptyString
  | S _, EmptyString => EmptyString
  | S n', String c s' => String c (slice_to n' s')
  end.

(** [s.endsWith(p)] *)
Definition endsWith (s p : string) : bool :=
  Nat.leb (String.length p) (String.length s) &&
  String.eqb (slice_from (String.length s - String.length p) s) p.

(** [s.split(c)] for a separator of one character: never the empty list. *)
Fixpoint split (c : ascii) (s : string) : list string :=
  match s with
  | EmptyString => [EmptyString]
  | String a s' =>
      if Ascii.eqb a c then EmptyString :: split c s'
      else match split c s' with
           | [] => [String a EmptyString]
           | w :: ws => String a w :: ws
           end
  end.

(** [l.join(sep)] *)
Definition join (sep : string) (l : list string) : string := String.concat sep l.

Definition is_upper (c : ascii) : bool :=
  let n := nat_of_ascii c in Nat.leb 65 n && Nat.leb n 90.
Definition is_lower (c : ascii) : bool :=
  let n := nat_of_ascii c in Nat.leb 97 n && Nat.leb n 122.

Definition lower_char (c : ascii) : ascii :=
  if is_upper c then ascii_of_nat (nat_of_ascii c + 32) else c.
Definition upper_char (c : ascii) : ascii :=
  if is_lower c then ascii_of_nat (nat_of_ascii c - 32) else c.

Fixpoint map_chars (f : ascii -> ascii) (s : string) : string :=
  match s with
  | EmptyString => EmptyString
  | String c s' => String (f c) (map_chars f s')
  end.

(** [s.toLowerCase()], [s.toUpperCase()] on ASCII text: a letter outside
    ASCII is left as it is, so a statement that rests on these two is about
    ASCII text. *)
Definition toLowerCase : string -> string := map_chars lower_char.
Definition toUpperCase : string -> string := map_chars upper_char.

(** White space: tab, line feed, vertical tab, form feed, carriage return,
    space. *)
Definition is_space (c : ascii) : bool :=
  let n := nat_of_ascii c in (Nat.leb 9 n && Nat.leb n 13) || Nat.eqb n 32.

Fixpoint trimStart (s : string) : string :=
  match s with
  | EmptyString => EmptyString
  | String c s' => if is_space c then trimStart s' else s
  end.

(** Drops the white space at the end: a character stays when it is not a
    space or when something stays after it. *)
Fixpoint trimEnd (s : string) : string :=
  match s with
  | EmptyString => EmptyString
  | String c s' =>
      match trimEnd s' with
      | EmptyString => if is_space c then EmptyString else String c EmptyString
      | t => String c t
      end
  end.

(** [s.trim()] *)
Definition trim (s : string) : string := trimEnd (trimStart s).

(** [arr.push(...items)]: the array after the call *)
Definition push {A : Type} (arr items : list A) : list A := (arr ++ items)%list.

(** [l.includes(x)] on arrays of strings *)
Definition array_includes (l : list string) (x : string) : bool :=
  existsb (String.eqb x) l.

End JS.

(** ** Regular expressions

    The program rewrites text with JavaScript regular expressions.  The
    matcher below is the backtracking matcher of the language definition in
    continuation-passing style: alternatives are tried left to right, a
    quantifier is greedy and gives characters back on failure, and an
    iteration of a quantifier that consumes nothing is refused.  No capture
    group of the program sits under a quantifier, so groups are never reset. *)

Module Regex.
Import JS.

Inductive class_item : Type :=
| CChar (c : ascii)                (* one character *)
| CRange (lo hi : ascii)           (* [lo-hi] *)
| CSpace.                          (* \s *)

Inductive regex : Type :=
| Empty                                            (* the empty pattern *)
| Lit (c : ascii)                                  (* a pattern character *)
| Class (negated : bool) (items : list class_item) (* [...] and [^...] *)
| AnyChar                                          (* . *)
| Seq (r1 r2 : regex)
| Alt (r1 r2 : regex)                              (* r1|r2 *)
| Star (r : regex)                                 (* r* *)
| Group (n : nat) (r : regex)                      (* the n-th (...) *)
| AssertStart                                      (* ^ *)
| AssertEnd.                                       (* $ *)

Definition Plus (r : regex) : regex := Seq r (Star r).   (* r+ *)
Definition Opt (r : regex) : regex := Alt r Empty.        (* r? *)

(** A run of pattern characters. *)
Fixpoint lit (s : string) : regex :=
  match s with
  | EmptyString => Empty
  | String c s' => Seq (Lit c) (lit s')
  end.

(** Concatenation of a list of patterns. *)
Fixpoint seq (l : list regex) : regex :=
  match l with
  | [] => Empty
  | r :: l' => Seq r (seq l')
  end.

Definition item_matches (c : ascii) (i : class_item) : bool :=
  match i with
  | CChar d => Ascii.eqb c d
  | CRange lo hi =>
      Nat.leb (nat_of_ascii lo) (nat_of_ascii c) &&
      Nat.leb (nat_of_ascii c) (nat_of_ascii hi)
  | CSpace => is_space c
  end.

Definition class_matches (negated : bool) (items : list class_item) (c : ascii) : bool :=
  xorb negated (existsb (item_matches c) items).

(** Line terminators, which [.] does not match. *)
Definition is_line_terminator (c : ascii) : bool :=
  Ascii.eqb c "010"%char || Ascii.eqb c "013"%char.

(** The number of capture groups of a pattern. *)
Fixpoint ngroups (r : regex) : nat :=
  match r with
  | Seq a b | Alt a b => Nat.max (ngroups a) (ngroups b)
  | Star a => ngroups a
  | Group n a => Nat.max n (ngroups a)
  | _ => 0
  end.

(** A state of the matcher: the index reached, the text from there on, and
    the captures so far (the latest binding of a group first). *)
Record mstate : Type := MState {
  pos : nat;
  rest : string;
  caps : list (nat * string)
}.

Definition cont : Type := mstate -> option mstate.

Definition step_char (p : ascii -> bool) (k : cont) (st : mstate) : option mstate :=
  match rest st with
  | String c s' => if p c then k (MState (S (pos st)) s' (caps st)) else None
  | EmptyString => None
  end.

Fixpoint m (r : regex) (k : cont) (st : mstate) {struct r} : option mstate :=
  match r with
  | Empty => k st
  | Lit c => step_char (Ascii.eqb c) k st
  | Class neg items => step_char (class_matches neg items) k st
  | AnyChar => step_char (fun c => negb (is_line_terminator c)) k st
  | Seq a b => m a (m b k) st
  | Alt a b =>
      match m a k st with
      | Some r => Some r
      | None => m b k st
      end
  | Star a =>
      (fix loop (fuel : nat) (st : mstate) {struct fuel} : option mstate :=
         match fuel with
         | O => k st
         | S fuel' =>
             match m a (fun st' => if Nat.eqb (pos st') (pos st) then None
                                   else loop fuel' st') st with
             | Some r => Some r
             | None => k st
             end
         end) (S (String.length (rest st))) st
  | Group n a =>
      m a (fun st' =>
             k (MState (pos st') (rest st')
                  ((n, slice_to (pos st' - pos st) (rest st)) :: caps st'))) st
  | AssertStart => if Nat.eqb (pos st) 0 then k st else None
  | AssertEnd => match rest st with EmptyString => k st | _ => None end
  end.

(** The result of a successful match, as [RegExp.prototype.exec] gives it:
    where it starts, the matched text, the captures, the text after it. *)
Record match_result : Type := MatchResult {
  index : nat;
  matched : string;
  groups : list (nat * string);
  after : string
}.

(** The first match at or after the current position, scanning to the right. *)
Fixpoint search (r : regex) (p : nat) (s : string) : option match_result :=
  match m r Some (MState p s []) with
  | Some st => Some (MatchResult p (slice_to (pos st - p) s) (caps st) (rest st))
  | None =>
      match s with
      | EmptyString => None
      | String _ s' => search r (S p) s'
      end
  end.

(** [re.test(s)] *)
Definition test (r : regex) (s : string) : bool :=
  match search r 0 s with Some _ => true | None => false end.

(** The text of capture group [n]; a group that took no part is empty in a
    replacement. *)
Fixpoint group (n : nat) (cs : list (nat * string)) : option string :=
  match cs with
  | [] => None
  | (i, s) :: cs' => if Nat.eqb i n then Some s else group n cs'
  end.

Definition digit_value (c : ascii) : option nat :=
  let n := nat_of_ascii c in
  if Nat.leb 48 n && Nat.leb n 57 then Some (n - 48) else None.

Definition capture_text (n : nat) (cs : list (nat * string)) : string :=
  match group n cs with Some s => s | None => EmptyString end.

(** The replacement text of one match (the abstract operation
    GetSubstitution): [$$], [$&], [$`], [$'], [$n] and [$nn].  [ng] is the
    number of groups of the pattern, [before] the text in front of the match. *)
Fixpoint substitution (tpl : string) (ng : nat) (before : string)
         (mr : match_result) : string :=
  match tpl with
  | EmptyString => EmptyString
  | String c t =>
      if negb (Ascii.eqb c "$") then String c (substitution t ng before mr)
      else
        match t with
        | EmptyString => String c EmptyString
        | String d1 t1 =>
            if Ascii.eqb d1 "$" then String "$" (substitution t1 ng before mr)
            else if Ascii.eqb d1 "&" then matched mr ++ substitution t1 ng before mr
            else if Ascii.eqb d1 "`" then before ++ substitution t1 ng before mr
            else if Ascii.eqb d1 "'" then after mr ++ substitution t1 ng before mr
            else
              match digit_value d1 with
              | None => String "$" (substitution t ng before mr)
              | Some n1 =>
                  let one_digit :=
                    if Nat.leb 1 n1 && Nat.leb n1 ng
                    then capture_text n1 (groups mr) ++ substitution t1 ng before mr
                    else String "$" (String d1 (substitution t1 ng before mr)) in
                  match t1 with
                  | EmptyString => one_digit
                  | String d2 t2 =>
                      match digit_value d2 with
                      | None => one_digit
                      | Some n2 =>
                          let nn := 10 * n1 + n2 in
                          if Nat.ltb ng nn then one_digit
                          else if Nat.leb 1 nn
                               then capture_text nn (groups mr)
                                    ++ substitution t2 ng before mr
                               else String "$" (String d1 (String d2
                                      (substitution t2 ng before mr)))
                      end
                  end
              end
        end
  end.

(** [s.replace(re, tpl)] for a pattern without the [g] flag: the first match
    only. *)
Definition replace (r : regex) (tpl s : string) : string :=
  match search r 0 s with
  | None => s
  | Some mr =>
      let before := slice_to (index mr) s in
      before ++ substitution tpl (ngroups r) before mr ++ after mr
  end.

(** [s.replace(pattern, tpl)] for a pattern that is a string: its first
    occurrence, with the same replacement patterns and no groups. *)
Definition replace_string (pattern tpl s : string) : string :=
  replace (lit pattern) tpl s.

(** The loop of a global replacement from index [p], where [s] is the text
    from [p] on and [done] the text in front of it.  After an empty match
    the next search starts one character further. *)
Fixpoint replace_loop (fuel : nat) (r : regex) (tpl : string)
         (done : string) (p : nat) (s : string) : string :=
  match fuel with
  | O => s
  | S fuel' =>
      match search r p s with
      | None => s
      | Some mr =>
          let pre := slice_to (index mr - p) s in
          let out := pre ++ substitution tpl (ngroups r) (done ++ pre) mr in
          match matched mr with
          | EmptyString =>
              match after mr with
              | EmptyString => out
              | String c s' =>
                  out ++ String c
                    (replace_loop fuel' r tpl (done ++ pre ++ String c EmptyString)
                       (S (index mr)) s')
              end
          | _ =>
              out ++ replace_loop fuel' r tpl (done ++ pre ++ matched mr)
                       (index mr + String.length (matched mr)) (after mr)
          end
      end
  end.

(** [s.replace(re, tpl)] for a pattern with the [g] flag: every match, left
    to right, without overlap. *)
Definition replace_all (r : regex) (tpl s : string) : string :=
  replace_loop (S (String.length s)) r tpl EmptyString 0 s.

Fixpoint match_loop (fuel : nat) (r : regex) (p : nat) (s : string) : list string :=
  match fuel with
  | O => []
  | S fuel' =>
      match search r p s with
      | None => []
      | Some mr =>
          match matched mr with
          | EmptyString =>
              match after mr with
              | EmptyString => [EmptyString]
              | String c s' => EmptyString :: match_loop fuel' r (S (index mr)) s'
              end
          | w => w :: match_loop fuel' r (index mr + String.length w) (after mr)
          end
      end
  end.

(** [s.match(re)] for a pattern with the [g] flag: the matched texts.  The
    program only asks whether the result is null, which is the empty list
    here, and iterates over it. *)
Definition match_all (r : regex) (s : string) : list string :=
  match_loop (S (String.length s)) r 0 s.

(** [s.match(re)] for a pattern without the [g] flag. *)
Definition exec (r : regex) (s : string) : option match_result := search r 0 s.

End Regex.

(** ** The data model ([src/component-analyzer.ts], lines 3-25) *)

Import JS Regex.

Module PropDefinition.
Record t : Type := Build {
  name : string;
  type : string;
  optional : bool;
  defaultValue : option string;
  description : option string
}.
End PropDefinition.

Module ImportInfo.
Record t : Type := Build {
  source : string;
  imports : list string;
  isDefault : bool
}.
End ImportInfo.

Inductive ComponentType : Type := functional | class.

Module ComponentAnalysis.
Record t : Type := Build {
  componentName : string;
  componentType : ComponentType;
  props : list PropDefinition.t;
  exports : list string;
  imports : list ImportInfo.t;
  hasDefaultExport : bool;
  filePath : string
}.
End ComponentAnalysis.

Module TestCase.
Record t : Type := Build {
  name : string;
  description : string;
  code : string
}.
End TestCase.

(** ** The test synthesizer ([src/test-generator.ts], class [TestGenerator]) *)

Module TestGenerator.
Import ComponentAnalysis.

(** The names that a lookup [overrides[key]] finds on every plain object,
    inherited from [Object.prototype]. *)
Definition objectPrototypeKeys : list string :=
  [ "constructor"; "hasOwnProperty"; "isPrototypeOf"; "propertyIsEnumerable";
    "toLocaleString"; "toString"; "valueOf"; "__proto__";
    "__defineGetter__"; "__defineSetter__"; "__lookupGetter__"; "__lookupSetter__" ].

Section Generator.

(** The text that a template literal gives for an inherited member.  For a
    built-in function it is its source text, which the language leaves to
    the host. *)
Variable inheritedText : string -> string.

(** [overrides[key]], as far as [||] can tell: an own entry that is not the
    empty string, or else an inherited member, which is never falsy. *)
Definition lookupOverride (overrides : list (string * string)) (key : string)
  : option string :=
  match find (fun kv => String.eqb (fst kv) key) overrides with
  | Some (_, v) => if String.eqb v EmptyString then None else Some v
  | None =>
      if array_includes objectPrototypeKeys key then Some (inheritedText key)
      else None
  end.

Definition callbackType : string := "() => void".
Definition blank : string := "        ".

(** lines 13-24 *)
Definition extensionRegex : regex :=           (* /\.(tsx?|jsx?)$/ *)
  seq [ Lit "."; Group 1 (Alt (Seq (lit "ts") (Opt (Lit "x")))
                              (Seq (lit "js") (Opt (Lit "x")))); AssertEnd ].

Definition getImportPath (filePath : string) : string :=
  let pathParts := split "/" filePath in
  let fileName := last pathParts EmptyString in
  let fileNameWithoutExt := replace extensionRegex EmptyString fileName in
  "../" ++ fileNameWithoutExt.

(** lines 341-352 *)
Definition getExpectedRole (analysis : t) : string :=
  let componentName := toLowerCase (componentName analysis) in
  if includes componentName "button" then "button"
  else if includes componentName "input" then "textbox"
  else if includes componentName "select" then "combobox"
  else if includes componentName "checkbox" then "checkbox"
  else if includes componentName "radio" then "radio"
  else if includes componentName "link" then "link"
  else "button".

(** lines 354-356 *)
Definition upperRegex : regex := Group 1 (Class false [CRange "A" "Z"]).   (* /([A-Z])/g *)

Definition getExpectedClassName (name : string) : string :=
  toLowerCase (replace_all upperRegex "-$1" name).

(** lines 358-360 *)
Definition capitalize (str : string) : string :=
  toUpperCase (slice_to 1 str) ++ slice_from 1 str.

(** The class of the two quote characters, replaced everywhere. *)
Definition quoteRegex : regex := Class false [CChar "'"; CChar "034"].

(** lines 314-339 *)
Definition getDefaultPropValue (prop : PropDefinition.t) (inline : bool) : string :=
  let prefix := if inline then PropDefinition.name prop ++ "=" else EmptyString in
  if String.eqb (PropDefinition.type prop) "string" then
    if String.eqb (PropDefinition.name prop) "label" then prefix ++ q "Test Label"
    else if String.eqb (PropDefinition.name prop) "text" then prefix ++ q "Test Text"
    else prefix ++ q ("test-" ++ PropDefinition.name prop)
  else if String.eqb (PropDefinition.type prop) "boolean" then
    if inline then PropDefinition.name prop else "true"
  else if String.eqb (PropDefinition.type prop) "number" then
    prefix ++ "{0}"
  else if includes (PropDefinition.type prop) callbackType then
    if inline then PropDefinition.name prop ++ "={() => {}}" else "() => {}"
  else if includes (PropDefinition.type prop) "|" then
    let firstValue :=
      replace_all quoteRegex EmptyString
        (trim (hd EmptyString (split "|" (PropDefinition.type prop)))) in
    prefix ++ q firstValue
  else prefix ++ q ("test-" ++ PropDefinition.name prop).

(** lines 290-312 *)
Definition getRequiredPropsObject (analysis : t) (overrides : list (string * string))
  : string :=
  let requiredProps :=
    filter (fun prop => negb (PropDefinition.optional prop)) (props analysis) in
  match requiredProps with
  | [] => "{}"
  | _ =>
      let props :=
        map (fun prop =>
               let name := PropDefinition.name prop in
               let type := PropDefinition.type prop in
               let value :=
                 match lookupOverride overrides name with
                 | Some v => v
                 | None => getDefaultPropValue prop false
                 end in
               if includes type callbackType then name ++ ": () => {}"
               else if String.eqb type "boolean" then name ++ ": true"
               else if String.eqb type "number" then name ++ ": 0"
               else name ++ ": " ++ value)
            requiredProps in
      "{ " ++ join ", " props ++ " }"
  end.

(** lines 55-76 *)
Definition createBasicRenderTest (analysis : t) : TestCase.t :=
  let requiredProps :=
    join " "
      (map (fun prop =>
              if includes (PropDefinition.type prop) callbackType
              then PropDefinition.name prop ++ "={() => {}}"
              else getDefaultPropValue prop true)
           (filter (fun prop => negb (PropDefinition.optional prop)) (props analysis))) in
  TestCase.Build
    ("should render " ++ componentName analysis ++ " component")
    ("Test that the " ++ componentName analysis ++ " component renders without crashing")
    (lines
       [ EmptyString;
         "    it(" ++ q ("should render " ++ componentName analysis ++ " component")
           ++ ", () => {";
         "        render(<" ++ componentName analysis ++ " " ++ requiredProps ++ " />);";
         blank;
         "        expect(screen.getByRole(" ++ q (getExpectedRole analysis)
           ++ ")).toBeInTheDocument();";
         "    });" ]).

(** lines 83-96: the test of a boolean prop *)
Definition booleanPropTest (prop : PropDefinition.t) (analysis : t) : TestCase.t :=
  TestCase.Build
    ("should handle " ++ PropDefinition.name prop ++ " prop")
    ("Test that the " ++ PropDefinition.name prop ++ " boolean prop works correctly")
    (lines
       [ EmptyString;
         "    it(" ++ q ("should handle " ++ PropDefinition.name prop ++ " prop")
           ++ ", () => {";
         "        const requiredProps = " ++ getRequiredPropsObject analysis [] ++ ";";
         blank;
         "        render(<" ++ componentName analysis ++ " {...requiredProps} "
           ++ PropDefinition.name prop ++ " />);";
         blank;
         "        const element = screen.getByRole(" ++ q (getExpectedRole analysis) ++ ");";
         "        expect(element).toHaveClass("
           ++ q (getExpectedClassName (PropDefinition.name prop)) ++ ");";
         "    });" ]).

(** lines 99-113: the test of a string prop *)
Definition stringPropTest (prop : PropDefinition.t) (analysis : t) : TestCase.t :=
  let name := PropDefinition.name prop in
  TestCase.Build
    ("should display correct " ++ name)
    ("Test that the " ++ name ++ " string prop displays correctly")
    (lines
       [ EmptyString;
         "    it(" ++ q ("should display correct " ++ name) ++ ", () => {";
         "        const test" ++ capitalize name ++ " = " ++ q ("Test " ++ name) ++ ";";
         "        const requiredProps = " ++ getRequiredPropsObject analysis [] ++ ";";
         blank;
         "        render(<" ++ componentName analysis ++ " {...requiredProps} "
           ++ name ++ "={test" ++ capitalize name ++ "} />);";
         blank;
         "        expect(screen.getByText(test" ++ capitalize name
           ++ ")).toBeInTheDocument();";
         "    });" ]).

(** lines 119-131: the test of one alternative of a union type *)
Definition unionValueTest (prop : PropDefinition.t) (analysis : t) (value : string)
  : TestCase.t :=
  let name := PropDefinition.name prop in
  TestCase.Build
    ("should handle " ++ name ++ " as " ++ value)
    ("Test that the " ++ name ++ " prop works with " ++ value ++ " value")
    (lines
       [ EmptyString;
         "    it(" ++ q ("should handle " ++ name ++ " as " ++ value) ++ ", () => {";
         "        const requiredProps = " ++ getRequiredPropsObject analysis [] ++ ";";
         blank;
         "        render(<" ++ componentName analysis ++ " {...requiredProps} "
           ++ name ++ "=" ++ q value ++ " />);";
         blank;
         "        const element = screen.getByRole(" ++ q (getExpectedRole analysis) ++ ");";
         "        expect(element).toHaveClass("
           ++ q (getExpectedClassName (name ++ "--" ++ value)) ++ ");";
         "    });" ]).

(** line 117: the alternatives of a union type, split at the bars, trimmed
    and without quotes *)
Definition unionValues (type : string) : list string :=
  map (fun v => replace_all quoteRegex EmptyString (trim v)) (split "|" type).

(** lines 78-136 *)
Definition createPropTests (prop : PropDefinition.t) (analysis : t) : list TestCase.t :=
  let tests := [] in
  let tests :=
    if String.eqb (PropDefinition.type prop) "boolean"
    then push tests [booleanPropTest prop analysis] else tests in
  let tests :=
    if String.eqb (PropDefinition.type prop) "string"
    then push tests [stringPropTest prop analysis] else tests in
  let tests :=
    if includes (PropDefinition.type prop) "|"
    then fold_left (fun tests value => push tests [unionValueTest prop analysis value])
           (unionValues (PropDefinition.type prop)) tests
    else tests in
  tests.

Definition hasProp (analysis : t) (name : string) : bool :=
  existsb (fun p => String.eqb (PropDefinition.name p) name) (props analysis).

Definition clickOverrides : list (string * string) := [("onClick", "handleClick")].

(** lines 142-157 *)
Definition onClickTest (analysis : t) : TestCase.t :=
  TestCase.Build
    "should call onClick handler when clicked"
    "Test that the onClick handler is called when the component is clicked"
    (lines
       [ EmptyString;
         "    it(" ++ q "should call onClick handler when clicked" ++ ", () => {";
         "        const handleClick = jest.fn();";
         "        const requiredProps = "
           ++ getRequiredPropsObject analysis clickOverrides ++ ";";
         blank;
         "        render(<" ++ componentName analysis
           ++ " {...requiredProps} onClick={handleClick} />);";
         blank;
         "        const element = screen.getByRole(" ++ q (getExpectedRole analysis) ++ ");";
         "        fireEvent.click(element);";
         blank;
         "        expect(handleClick).toHaveBeenCalledTimes(1);";
         "    });" ]).

(** lines 162-177 *)
Definition onClickDisabledTest (analysis : t) : TestCase.t :=
  TestCase.Build
    "should not call onClick when disabled"
    "Test that the onClick handler is not called when the component is disabled"
    (lines
       [ EmptyString;
         "    it(" ++ q "should not call onClick when disabled" ++ ", () => {";
         "        const handleClick = jest.fn();";
         "        const requiredProps = "
           ++ getRequiredPropsObject analysis clickOverrides ++ ";";
         blank;
         "        render(<" ++ componentName analysis
           ++ " {...requiredProps} onClick={handleClick} disabled />);";
         blank;
         "        const element = screen.getByRole(" ++ q (getExpectedRole analysis) ++ ");";
         "        fireEvent.click(element);";
         blank;
         "        expect(handleClick).not.toHaveBeenCalled();";
         "    });" ]).

(** lines 138-182 *)
Definition createEventTests (prop : PropDefinition.t) (analysis : t) : list TestCase.t :=
  let tests := [] in
  if String.eqb (PropDefinition.name prop) "onClick" then
    let tests := push tests [onClickTest analysis] in
    let hasDisabled := hasProp analysis "disabled" in
    if hasDisabled then push tests [onClickDisabledTest analysis] else tests
  else tests.

(** lines 190-201 *)
Definition loadingTest (analysis : t) : TestCase.t :=
  TestCase.Build
    "should show loading state"
    "Test that the loading state is displayed correctly"
    (lines
       [ EmptyString;
         "    it(" ++ q "should show loading state" ++ ", () => {";
         "        const requiredProps = " ++ getRequiredPropsObject analysis [] ++ ";";
         blank;
         "        render(<" ++ componentName analysis ++ " {...requiredProps} loading />);";
         blank;
         "        expect(screen.getByRole(" ++ q "status"
           ++ ", { hidden: true })).toBeInTheDocument();";
         "    });" ]).

(** lines 207-219 *)
Definition iconTest (analysis : t) : TestCase.t :=
  TestCase.Build
    "should render with icon"
    "Test that the icon is rendered when provided"
    (lines
       [ EmptyString;
         "    it(" ++ q "should render with icon" ++ ", () => {";
         "        const requiredProps = " ++ getRequiredPropsObject analysis [] ++ ";";
         blank;
         "        render(<" ++ componentName analysis ++ " {...requiredProps} icon="
           ++ q "test-icon" ++ " />);";
         blank;
         "        const iconElement = screen.getByRole(" ++ q "img"
           ++ ", { hidden: true }) || screen.getByTestId(" ++ q "icon" ++ ");";
         "        expect(iconElement).toBeInTheDocument();";
         "    });" ]).

(** lines 184-223 *)
Definition createConditionalRenderingTests (analysis : t) : list TestCase.t :=
  let tests := [] in
  let hasLoading := hasProp analysis "loading" in
  let tests := if hasLoading then push tests [loadingTest analysis] else tests in
  let hasIcon := hasProp analysis "icon" in
  let tests := if hasIcon then push tests [iconTest analysis] else tests in
  tests.

(** lines 229-241 *)
Definition keyboardTest (analysis : t) : TestCase.t :=
  TestCase.Build
    "should be accessible via keyboard"
    "Test that the component supports keyboard navigation"
    (lines
       [ EmptyString;
         "    it(" ++ q "should be accessible via keyboard" ++ ", () => {";
         "        const requiredProps = " ++ getRequiredPropsObject analysis [] ++ ";";
         blank;
         "        render(<" ++ componentName analysis ++ " {...requiredProps} />);";
         blank;
         "        const element = screen.getByRole(" ++ q (getExpectedRole analysis) ++ ");";
         "        expect(element).not.toHaveAttribute(" ++ q "tabIndex" ++ ", "
           ++ q "-1" ++ ");";
         "    });" ]).

(** lines 246-258 *)
Definition ariaDisabledTest (analysis : t) : TestCase.t :=
  TestCase.Build
    "should have correct aria-disabled when disabled"
    "Test that aria-disabled is set correctly when disabled"
    (lines
       [ EmptyString;
         "    it(" ++ q "should have correct aria-disabled when disabled" ++ ", () => {";
         "        const requiredProps = " ++ getRequiredPropsObject analysis [] ++ ";";
         blank;
         "        render(<" ++ componentName analysis ++ " {...requiredProps} disabled />);";
         blank;
         "        const element = screen.getByRole(" ++ q (getExpectedRole analysis) ++ ");";
         "        expect(element).toBeDisabled();";
         "    });" ]).

(** lines 225-262 *)
Definition createAccessibilityTests (analysis : t) : list TestCase.t :=
  let tests := [] in
  let tests := push tests [keyboardTest analysis] in
  let hasDisabled := hasProp analysis "disabled" in
  if hasDisabled then push tests [ariaDisabledTest analysis] else tests.

(** lines 26-53.  The array [testCases] is threaded through the pushes. *)
Definition isEventProp (prop : PropDefinition.t) : bool :=
  startsWith (PropDefinition.name prop) "on"
  || includes (PropDefinition.type prop) callbackType.

Definition generateTestCases (analysis : t) : list TestCase.t :=
  let testCases := [] in
  let testCases := push testCases [createBasicRenderTest analysis] in
  let testCases :=
    fold_left (fun testCases prop => push testCases (createPropTests prop analysis))
      (props analysis) testCases in
  let eventProps := filter isEventProp (props analysis) in
  let testCases :=
    fold_left (fun testCases prop => push testCases (createEventTests prop analysis))
      eventProps testCases in
  let testCases := push testCases (createConditionalRenderingTests analysis) in
  let testCases := push testCases (createAccessibilityTests analysis) in
  testCases.

(** lines 283-288 *)
Definition generateImports (importPath componentName : string) : string :=
  lines
    [ "import React from " ++ q "react" ++ ";";
      "import { render, screen, fireEvent } from " ++ q "@testing-library/react" ++ ";";
      "import " ++ q "@testing-library/jest-dom" ++ ";";
      "import { " ++ componentName ++ " } from " ++ q importPath ++ ";" ].

(** lines 264-281 *)
Definition buildTestFile (componentName importPath : string)
           (testCases : list TestCase.t) (analysis : t) : string :=
  let imports := generateImports importPath componentName in
  let testSuite := join nl (map TestCase.code testCases) in
  lines
    [ imports;
      EmptyString;
      "/**";
      " * Test suite for the " ++ componentName ++ " component.";
      " */";
      "describe(" ++ q (componentName ++ " Component") ++ ", () => {" ++ testSuite;
      "});";
      EmptyString ].

(** lines 4-11 *)
Definition generate (analysis : t) (filePath : string) : string :=
  let componentName := componentName analysis in
  let importPath := getImportPath filePath in
  let testCases := generateTestCases analysis in
  buildTestFile componentName importPath testCases analysis.

End Generator.
End TestGenerator.

(** ** The source analyzer ([src/component-analyzer.ts], class [ComponentAnalyzer])

    The parser [ts.createSourceFile] belongs to the TypeScript library.  The
    model starts from its result: a tree whose nodes carry the fields that
    the analyzer reads, and the children that [ts.forEachChild] enumerates,
    in its order. *)

Module ComponentAnalyzer.
Import ComponentAnalysis.

(** The bindings of an import clause: [{ a, b }] or [* as ns]. *)
Inductive NamedBindings : Type :=
| NamedImports (elements : list string)
| NamespaceImport (name : string).

Record ImportClause : Type := {
  clause_name : option string;                 (* the default import *)
  namedBindings : option NamedBindings
}.

(** A documentation comment attached to a node, with its [comment] field. *)
Record JSDoc : Type := { comment : option string }.

(** The members of an interface or of a type literal. *)
Inductive TypeElement : Type :=
| PropertySignature (name : string)            (* member.name.getText() *)
                    (questionToken : bool)
                    (type : option string)     (* member.type.getText() *)
                    (jsDoc : list JSDoc)
| OtherTypeElement.      (* method, call, construct and index signatures, accessors *)

(** The type of a type alias. *)
Inductive TypeNode : Type :=
| TypeLiteral (members : list TypeElement)
| OtherType.

(** The left-hand side of a variable declaration. *)
Inductive BindingName : Type :=
| Identifier (text : string)
| BindingPattern.

(** The kinds of expression that the analyzer tells apart. *)
Inductive ExpressionKind : Type :=
| ArrowFunctionKind | FunctionExpressionKind | IdentifierKind (text : string)
| OtherExpressionKind.

Inductive SyntaxKind : Type :=
| ImportDeclaration (moduleSpecifier : string) (importClause : option ImportClause)
| InterfaceDeclaration (name : string) (members : list TypeElement)
| TypeAliasDeclaration (name : string) (type : TypeNode)
| FunctionDeclaration (name : option string)
| ArrowFunction
| FunctionExpression
| VariableDeclaration (name : BindingName) (initializer : option ExpressionKind)
| ExportAssignment (expression : ExpressionKind)
| OtherKind.                                   (* every other kind of node *)

#[local] Set Warnings "-register-all".
Inductive Node : Type :=
| MkNode (kind : SyntaxKind) (children : list Node).

Definition kind (n : Node) : SyntaxKind := match n with MkNode k _ => k end.
Definition children (n : Node) : list Node := match n with MkNode _ c => c end.

(** Updates of the analysis, which the source mutates in place. *)
Definition set_componentName (a : t) (n : string) : t :=
  Build n functional (props a) (exports a) (imports a) (hasDefaultExport a) (filePath a).
Definition push_export (a : t) (n : string) : t :=
  Build (componentName a) (componentType a) (props a) (push (exports a) [n])
        (imports a) (hasDefaultExport a) (filePath a).
Definition push_prop (a : t) (p : PropDefinition.t) : t :=
  Build (componentName a) (componentType a) (push (props a) [p]) (exports a)
        (imports a) (hasDefaultExport a) (filePath a).
Definition push_import (a : t) (i : ImportInfo.t) : t :=
  Build (componentName a) (componentType a) (props a) (exports a)
        (push (imports a) [i]) (hasDefaultExport a) (filePath a).
Definition set_hasDefaultExport (a : t) : t :=
  Build (componentName a) (componentType a) (props a) (exports a) (imports a)
        true (filePath a).

(** [if (!analysis.exports.includes(n)) analysis.exports.push(n)] *)
Definition add_export (a : t) (n : string) : t :=
  if array_includes (exports a) n then a else push_export a n.

(** lines 83-110 *)
Definition analyzeImport (moduleSpecifier : string) (importClause : option ImportClause)
           (analysis : t) : t :=
  let '(imports, isDefault) :=
    match importClause with
    | None => ([], false)
    | Some clause =>
        let '(imports, isDefault) :=
          match clause_name clause with
          | Some n => ([n], true)
          | None => ([], false)
          end in
        match namedBindings clause with
        | Some (NamedImports elements) => (push imports elements, isDefault)
        | Some (NamespaceImport n) => (push imports [n], isDefault)
        | None => (imports, isDefault)
        end
    end in
  push_import analysis (ImportInfo.Build moduleSpecifier imports isDefault).

(** lines 202-208 *)
Definition getJSDocDescription (jsDoc : list JSDoc) : option string :=
  match jsDoc with
  | d :: _ => comment d
  | [] => None
  end.

(** The body of the two [members.forEach] loops, lines 117-128 and 137-148. *)
Definition analyzeMember (analysis : t) (member : TypeElement) : t :=
  match member with
  | PropertySignature propName questionToken type jsDoc =>
      let optional := questionToken in
      let type := match type with Some text => text | None => "any" end in
      push_prop analysis
        (PropDefinition.Build propName type optional None (getJSDocDescription jsDoc))
  | OtherTypeElement => analysis
  end.

(** lines 112-131 *)
Definition analyzeInterface (interfaceName : string) (members : list TypeElement)
           (analysis : t) : t :=
  if endsWith interfaceName "Props"
  then fold_left analyzeMember members analysis
  else analysis.

(** lines 133-151 *)
Definition analyzeTypeAlias (name : string) (type : TypeNode) (analysis : t) : t :=
  match type with
  | TypeLiteral members =>
      if endsWith name "Props"
      then fold_left analyzeMember members analysis
      else analysis
  | OtherType => analysis
  end.

Definition upperStartRegex : regex := Seq AssertStart (Class false [CRange "A" "Z"]).

(** lines 153-171.  [parent] is [node.parent]. *)
Definition analyzeFunction (parent node : SyntaxKind) (analysis : t) : t :=
  let functionName :=
    match node, parent with
    | FunctionDeclaration (Some name), _ => name
    | _, VariableDeclaration (Identifier text) _ => text
    | _, _ => EmptyString
    end in
  if negb (String.eqb functionName EmptyString) && test upperStartRegex functionName
  then add_export (set_componentName analysis functionName) functionName
  else analysis.

(** lines 173-189 *)
Definition analyzeVariableDeclaration (name : BindingName)
           (initializer : option ExpressionKind) (analysis : t) : t :=
  match name with
  | Identifier name =>
      match initializer with
      | Some init =>
          if test upperStartRegex name then
            match init with
            | ArrowFunctionKind | FunctionExpressionKind =>
                add_export (set_componentName analysis name) name
            | _ => analysis
            end
          else analysis
      | None => analysis
      end
  | BindingPattern => analysis
  end.

(** lines 191-200 *)
Definition analyzeExportAssignment (expression : ExpressionKind) (analysis : t) : t :=
  match expression with
  | IdentifierKind exportName => add_export (set_hasDefaultExport analysis) exportName
  | _ => analysis
  end.

(** The [switch] of [visit], lines 52-78. *)
Definition visitNode (parent node : SyntaxKind) (analysis : t) : t :=
  match node with
  | ImportDeclaration moduleSpecifier importClause =>
      analyzeImport moduleSpecifier importClause analysis
  | InterfaceDeclaration name members => analyzeInterface name members analysis
  | TypeAliasDeclaration name type => analyzeTypeAlias name type analysis
  | FunctionDeclaration _ | ArrowFunction | FunctionExpression =>
      analyzeFunction parent node analysis
  | VariableDeclaration name initializer =>
      analyzeVariableDeclaration name initializer analysis
  | ExportAssignment expression => analyzeExportAssignment expression analysis
  | OtherKind => analysis
  end.

(** lines 51-81: the node itself, then its children from left to right. *)
Fixpoint visit (parent : SyntaxKind) (node : Node) (analysis : t) {struct node} : t :=
  match node with
  | MkNode k cs =>
      fold_left (fun analysis child => visit k child analysis) cs
        (visitNode parent k analysis)
  end.

(** lines 28-49.  The root of the tree is the source file, a node of another
    kind with the statements of the file as its children. *)
Definition analyze (statements : list Node) (filePath : string) : t :=
  let sourceFile := MkNode OtherKind statements in
  let analysis := Build EmptyString functional [] [] [] false filePath in
  visit OtherKind sourceFile analysis.

End ComponentAnalyzer.

(** ** The server ([src/component-analyzer.ts] from line 210 on, class
    [TestGeneratorServer]) *)

Module TestGeneratorServer.
Import ComponentAnalysis.

(** *** The verifier: [runTests], lines 470-542

    The promise of [runTests] is settled by the handlers of the events of
    the children that it spawns.  Every child has both handlers, the one of
    [close] (line 511) and the one of [error] (line 533); the handlers of all
    the children share the counter [commandIndex]; and the first call of
    [resolve] settles the promise, the later ones have no effect.  The
    events come from the runtime and are a parameter of the model: a list,
    in the order in which the handlers run.  For a child that does not start
    the runtime emits [error] and then [close] as well, with a negative code
    and without output. *)

Record TestResult : Type := {
  success : bool;
  errors : string;
  output : string
}.

(** An event of the child with the number [child] in the order of the
    spawns, from zero.  A [close] event comes with the exit code, or null
    after a signal, and with what the [data] handlers of lines 503-509 have
    collected until then. *)
Inductive ChildEvent : Type :=
| ErrorEvent (child : nat)
| CloseEvent (child : nat) (code : option Z) (stdout stderr : string).

Definition testCommands (testFilePath : string) : list (list string) :=
  [ ["npx"; "jest"; testFilePath; "--no-coverage"; "--verbose"];
    ["npm"; "test"; "--"; testFilePath];
    ["npx"; "vitest"; "run"; testFilePath];
    ["yarn"; "test"; testFilePath] ].

Definition noRunnerMessage : string :=
  "No suitable test runner found. Please ensure Jest, Vitest, or npm test is available.".

(** The variables of a call of [runTests]: the counter, the commands
    spawned so far, and the value of the promise once it is settled. *)
Record Verifier : Type := {
  commandIndex : nat;
  spawned : list (list string);
  settled : option TestResult
}.

(** [resolve(value)] *)
Definition resolve (value : TestResult) (st : Verifier) : Verifier :=
  match settled st with
  | Some _ => st
  | None => Build_Verifier (commandIndex st) (spawned st) (Some value)
  end.

Section Verifier.

Variable testFilePath : string.

(** lines 482-538, up to the registration of the handlers *)
Definition tryNextCommand (st : Verifier) : Verifier :=
  match nth_error (testCommands testFilePath) (commandIndex st) with
  | None => resolve (Build_TestResult false noRunnerMessage EmptyString) st
  | Some command =>
      Build_Verifier (commandIndex st) (push (spawned st) [command]) (settled st)
  end.

(** [commandIndex++; tryNextCommand();] *)
Definition nextCommand (st : Verifier) : Verifier :=
  tryNextCommand (Build_Verifier (S (commandIndex st)) (spawned st) (settled st)).

(** lines 511-531: the handler of [close] *)
Definition onClose (code : option Z) (stdout stderr : string) (st : Verifier) : Verifier :=
  let output := stdout ++ stderr in
  match code with
  | Some Z0 => resolve (Build_TestResult true EmptyString output) st
  | _ =>
      if includes output "command not found" || includes output "is not recognized"
      then nextCommand st
      else resolve (Build_TestResult false output output) st
  end.

(** lines 533-537: the handler of [error] *)
Definition onError (st : Verifier) : Verifier := nextCommand st.

Definition handle (st : Verifier) (event : ChildEvent) : Verifier :=
  match event with
  | ErrorEvent _ => onError st
  | CloseEvent _ code stdout stderr => onClose code stdout stderr st
  end.

(** The call: the first command is tried (line 540), then the handlers run.
    The value that the caller awaits is [settled]; it is [None] as long as
    the promise is pending. *)
Definition runTests (events : list ChildEvent) : Verifier :=
  fold_left handle events (tryNextCommand (Build_Verifier 0 [] None)).

End Verifier.

(** *** The repairer: [fixTestErrors], lines 544-674 *)

(** lines 676-696 *)
Definition getDefaultPropValue (propName : string) : string :=
  if String.eqb propName "onClick" || String.eqb propName "onSubmit"
     || String.eqb propName "onChange" then "{() => {}}"
  else if String.eqb propName "children" then "{" ++ q "Test Content" ++ "}"
  else if String.eqb propName "label" || String.eqb propName "title"
          || String.eqb propName "text" then q ("Test " ++ propName)
  else if String.eqb propName "disabled" || String.eqb propName "loading"
          || String.eqb propName "visible" then EmptyString
  else if startsWith propName "on" then "{() => {}}"
  else q ("test-" ++ propName).

Definition notQuote : regex := Class true [CChar "'"].
Definition anyQuote : regex := Class false [CChar "'"; CChar "034"].
Definition noQuote : regex := Class true [CChar "'"; CChar "034"].
Definition notDq : regex := Class true [CChar "034"].
Definition notGt : regex := Class true [CChar ">"].
Definition space : regex := Class false [CSpace].

(** line 565: an attribute value in both kinds of quotes *)
Definition doubleQuotedValue : regex :=
  seq [ Lit "="; Lit "034"; Lit "'"; Group 1 (Plus notQuote); Lit "'"; Lit "034" ].

(** lines 572-575.  In these three patterns the parentheses are an empty
    group and the braces are pattern characters. *)
Definition arrowPattern1 : regex := seq [ lit "onClick={"; Group 1 Empty; lit " => {}}" ].
Definition arrowPattern2 : regex := seq [ lit "onClick={, "; Group 1 Empty; lit " => {}}" ].
Definition arrowPattern3 : regex := seq [ lit "onClick={"; Group 1 Empty; lit " => ,}" ].

(** lines 580, 583, 587 *)
Definition cannotFindModule : regex :=
  seq [ lit "Cannot find module"; Star AnyChar; anyQuote; Group 1 (Plus noQuote); anyQuote ].
Definition quotedText : regex := seq [ anyQuote; Group 1 (Plus noQuote); anyQuote ].
Definition importStatement : regex :=
  seq [ lit "import"; Star AnyChar; lit "from "; anyQuote; Group 1 (Plus noQuote); anyQuote ].

(** lines 597, 600 *)
Definition exportNotFound : regex :=
  seq [ lit "export '"; Group 1 (Plus notQuote); lit "' (imported as '";
        Group 2 (Plus notQuote); lit "') was not found" ].

(** The characters with a meaning in the syntax of patterns. *)
Definition syntaxCharacters : string := "\^$.*+?()[]{}|".

Fixpoint isPlain (s : string) : bool :=
  match s with
  | EmptyString => true
  | String c s' =>
      negb (includes syntaxCharacters (String c EmptyString)) && isPlain s'
  end.

(** line 603: the pattern built from the text [import\s*{[^}]*NAME[^}]*}\s*from]
    where NAME is the imported name.  The name is spliced in as pattern
    source: the model covers the names without a syntax character, which
    stand for themselves. *)
Definition namedImportOf (importName : string) : option regex :=
  if isPlain importName
  then Some (seq [ lit "import"; Star space; Lit "{"; Star (Class true [CChar "}"]);
                   lit importName; Star (Class true [CChar "}"]); Lit "}";
                   Star space; lit "from" ])
  else None.

(** lines 612, 615 *)
Definition roleNotFound : regex :=
  seq [ lit "Unable to find an element with the role "; Lit "034";
        Group 1 (Plus notDq); Lit "034" ].
Definition doubleQuotedText : regex := seq [ Lit "034"; Group 1 (Plus notDq); Lit "034" ].

(** lines 628, 631, 634 *)
Definition propertyMissing : regex :=
  seq [ lit "Property '"; Group 1 (Plus notQuote); lit "' is missing in type" ].
Definition renderSelfClosing : regex :=
  seq [ lit "render(<"; Plus notGt; Plus space; Group 1 (Star notGt); Star space;
        Opt (Lit "/"); Lit ">" ].
Definition renderWithChildren : regex :=
  seq [ lit "render(<"; Plus notGt; Plus space; Group 1 (Star notGt); Star space;
        Lit ">"; Star (Class true [CChar "<"]); lit "</"; Plus notGt; Lit ">" ].

(** lines 649-654 *)
Definition classExpectation (family : string) : regex :=
  seq [ lit ("expect(element).toHaveClass(" ++ dq ++ family ++ "--");
        Group 1 (Plus notDq); lit (dq ++ ");") ].

(** line 660 *)
Definition textQuery : regex :=
  seq [ lit "screen.getByText(test";
        Group 1 (Seq (Class false [CRange "A" "Z"]) (Plus (Class false [CRange "a" "z"])));
        Lit ")" ].

(** lines 579-593 *)
Definition fixMissingImports (errors : string) (analysis : t) (filePath : string)
           (fixedCode : string) : string :=
  if includes errors "Cannot find module" then
    fold_left
      (fun fixedCode match_ =>
         match exec quotedText match_ with
         | Some moduleNameMatch =>
             if startsWith (capture_text 1 (groups moduleNameMatch)) "."
             then
               let correctImport := TestGenerator.getImportPath filePath in
               replace importStatement
                 ("import { " ++ componentName analysis ++ " } from " ++ q correctImport)
                 fixedCode
             else fixedCode
         | None => fixedCode
         end)
      (match_all cannotFindModule errors) fixedCode
  else fixedCode.

(** lines 596-608: the names outside the model make the result [None]. *)
Definition fixExportNotFound (errors : string) (fixedCode : string) : option string :=
  if includes errors "was not found" then
    fold_left
      (fun fixedCode match_ =>
         match fixedCode, exec exportNotFound match_ with
         | Some fixedCode, Some parts =>
             let importName := capture_text 2 (groups parts) in
             match namedImportOf importName with
             | Some importRegex =>
                 Some (replace_all importRegex ("import " ++ importName ++ " from") fixedCode)
             | None => None
             end
         | other, _ => other
         end)
      (match_all exportNotFound errors) (Some fixedCode)
  else Some fixedCode.

(** lines 611-624.  Every syntax character of the query is escaped before
    the pattern is built, so the pattern is the query itself. *)
Definition fixRoleNotFound (errors : string) (fixedCode : string) : string :=
  if includes errors "Unable to find an element with the role" then
    fold_left
      (fun fixedCode match_ =>
         match exec doubleQuotedText match_ with
         | Some roleMatch =>
             let role := capture_text 1 (groups roleMatch) in
             let roleQuery := "screen.getByRole(" ++ q role ++ ")" in
             let testIdQuery := "screen.getByTestId(" ++ q "button" ++ ")" in
             replace_all (lit roleQuery) testIdQuery fixedCode
         | None => fixedCode
         end)
      (match_all roleNotFound errors) fixedCode
  else fixedCode.

(** lines 627-644 *)
Definition fixMissingProps (errors : string) (fixedCode : string) : string :=
  if includes errors "Property" && includes errors "is missing in type" then
    fold_left
      (fun fixedCode match_ =>
         match exec propertyMissing match_ with
         | Some propMatch =>
             let propName := capture_text 1 (groups propMatch) in
             let propsMatch :=
               match exec renderSelfClosing fixedCode with
               | Some r => Some r
               | None => exec renderWithChildren fixedCode
               end in
             match propsMatch with
             | Some propsMatch =>
                 let existingProps := capture_text 1 (groups propsMatch) in
                 if negb (includes existingProps propName) then
                   let defaultValue := getDefaultPropValue propName in
                   let newProps :=
                     if String.eqb existingProps EmptyString
                     then propName ++ "=" ++ defaultValue
                     else existingProps ++ " " ++ propName ++ "=" ++ defaultValue in
                   replace_string existingProps newProps fixedCode
                 else fixedCode
             | None => fixedCode
             end
         | None => fixedCode
         end)
      (match_all propertyMissing errors) fixedCode
  else fixedCode.

(** lines 647-655 *)
Definition fixClassExpectations (errors : string) (fixedCode : string) : string :=
  if includes errors "toHaveClass" && includes errors "Expected" then
    let fixedCode :=
      replace_all (lit ("expect(element).toHaveClass(" ++ q "disabled" ++ ");"))
        "expect(element).toBeDisabled();" fixedCode in
    let fixedCode :=
      replace_all (lit ("expect(element).toHaveClass(" ++ q "loading" ++ ");"))
        ("expect(element).toHaveAttribute(" ++ q "aria-disabled" ++ ", "
           ++ q "true" ++ ");") fixedCode in
    let fixedCode :=
      replace_all (classExpectation "size")
        ("expect(element).toHaveClass(" ++ q "btn--$1" ++ ");") fixedCode in
    replace_all (classExpectation "variant")
      ("expect(element).toHaveClass(" ++ q "btn--$1" ++ ");") fixedCode
  else fixedCode.

(** lines 544-674 *)
Definition fixTestErrors (testCode errors : string) (analysis : t) (filePath : string)
  : option string :=
  let fixedCode := testCode in
  if includes errors ("Unknown option " ++ q "moduleNameMapping")
     || includes errors "jest-environment-jsdom cannot be found"
  then Some fixedCode
  else if includes errors "--jsx" && includes errors "is not set"
  then Some fixedCode
  else
    let fixedCode :=
      if includes errors "is not assignable to type" && includes errors "Did you mean"
      then replace_all doubleQuotedValue ("=" ++ q "$1") fixedCode
      else fixedCode in
    let fixedCode :=
      if includes errors "Identifier expected" && includes errors "onClick={() => {}}"
      then
        let fixedCode := replace_all arrowPattern1 "onClick={() => {}}" fixedCode in
        let fixedCode := replace_all arrowPattern2 "onClick={() => {}}" fixedCode in
        replace_all arrowPattern3 "onClick={() => {}}" fixedCode
      else fixedCode in
    let fixedCode := fixMissingImports errors analysis filePath fixedCode in
    match fixExportNotFound errors fixedCode with
    | None => None
    | Some fixedCode =>
        let fixedCode := fixRoleNotFound errors fixedCode in
        let fixedCode := fixMissingProps errors fixedCode in
        let fixedCode := fixClassExpectations errors fixedCode in
        let fixedCode :=
          if includes errors "Unable to find an element with the text"
          then replace_all textQuery
                 ("screen.getByTestId(" ++ q "$1" ++ ".toLowerCase())") fixedCode
          else fixedCode in
        let fixedCode :=
          if includes errors ("Unable to find an element with the role " ++ q "status")
          then replace_all
                 (lit ("screen.getByRole(" ++ q "status" ++ ", { hidden: true })"))
                 ("screen.getByTestId(" ++ q "loading-spinner" ++ ")") fixedCode
          else fixedCode in
        let fixedCode :=
          if includes errors ("Unable to find an element with the role " ++ q "img")
          then replace_all
                 (lit ("screen.getByRole(" ++ q "img"
                         ++ ", { hidden: true }) || screen.getByTestId(" ++ q "icon" ++ ")"))
                 ("screen.getByTestId(" ++ q "icon" ++ ")") fixedCode
          else fixedCode in
        Some fixedCode
    end.

(** *** The orchestrator: the loop of [generateTests], lines 419-458

    The verifier and the repairer are the two collaborators of the loop.  The
    verifier is an external process: its answer is a function of the
    iteration and of the text just written to the test file.  The repairer is
    called with the analysis and the path of the request, which do not change
    during the loop.  Both are taken to return: an exception thrown inside
    one of them leaves the loop and [handleRequest] answers with an error
    (lines 328-337).  Messages on the standard error stream are left out.
    Characters outside ASCII in the messages are their UTF-8 bytes. *)

Definition checkMark : string :=
  String "226" (String "156" (String "133" EmptyString)).
Definition warningSign : string :=
  String "226" (String "154" (String "160"
    (String "239" (String "184" (String "143" EmptyString))))).
Definition folderSign : string :=
  String "240" (String "159" (String "147" (String "129" EmptyString))).

(** The text of a number in a template literal. *)
Definition numberText (n : nat) : string := NilEmpty.string_of_uint (Nat.to_uint n).

Inductive Effect : Type :=
| WriteFile (path content : string)        (* fs.writeFileSync *)
| RunTests (path : string).                (* this.runTests *)

(** The variables of the loop, and the effects so far, oldest first. *)
Record LoopState : Type := {
  iteration : nat;
  testCode : string;
  allTestsPassed : bool;
  finalResult : string;
  effects : list Effect
}.

Inductive Terminal : Type := PASSED | STALLED | EXHAUSTED.

Definition maxIterations : nat := 5.

Section Orchestrator.

Variable runTests : nat -> string -> TestResult.
Variable fixTestErrors : string -> string -> string.
Variable testFilePath : string.

Definition passedMessage (iteration : nat) (testCode : string) : string :=
  checkMark ++ " All tests passed on iteration " ++ numberText iteration ++ "!"
    ++ nl ++ nl ++ testCode.

Definition stalledMessage (iteration : nat) (errors testCode : string) : string :=
  warningSign ++ " Could not automatically fix test errors after "
    ++ numberText iteration ++ " iterations." ++ nl ++ nl ++ "Last errors:" ++ nl
    ++ errors ++ nl ++ nl ++ testCode.

Definition exhaustedMessage (testCode : string) : string :=
  warningSign ++ " Maximum iterations (" ++ numberText maxIterations
    ++ ") reached. Some tests may still have issues." ++ nl ++ nl ++ testCode.

(** lines 425-450: one pass through the body; the flag tells a [break]. *)
Definition loopBody (st : LoopState) : LoopState * bool :=
  let effects := push (effects st) [WriteFile testFilePath (testCode st)] in
  let testResult := runTests (iteration st) (testCode st) in
  let effects := push effects [RunTests testFilePath] in
  if success testResult then
    (Build_LoopState (iteration st) (testCode st) true
       (passedMessage (iteration st) (testCode st)) effects, false)
  else
    let fixedCode := fixTestErrors (testCode st) (errors testResult) in
    if String.eqb fixedCode (testCode st) then
      (Build_LoopState (iteration st) (testCode st) (allTestsPassed st)
         (stalledMessage (iteration st) (errors testResult) (testCode st)) effects,
       true)
    else
      (Build_LoopState (S (iteration st)) fixedCode (allTestsPassed st)
         (finalResult st) effects, false).

(** line 424: the condition of the loop *)
Definition loopCondition (st : LoopState) : bool :=
  negb (allTestsPassed st) && Nat.leb (iteration st) maxIterations.

(** The [while] loop with a bound on the number of passes: [None] when the
    bound is reached before the loop ends. *)
Fixpoint while (fuel : nat) (st : LoopState) : option (LoopState * bool) :=
  match fuel with
  | O => None
  | S fuel' =>
      if loopCondition st then
        let '(st', broke) := loopBody st in
        if broke then Some (st', true) else while fuel' st'
      else Some (st, false)
  end.

(** lines 419-422 *)
Definition initialState (testCode : string) : LoopState :=
  Build_LoopState 1 testCode false EmptyString [].

(** The state in which the loop ended. *)
Definition terminal (st : LoopState) (broke : bool) : Terminal :=
  if allTestsPassed st then PASSED
  else if broke then STALLED
  else EXHAUSTED.

(** What a request leaves behind. *)
Record Outcome : Type := {
  final : LoopState;                 (* the variables after line 458 *)
  state : Terminal;
  text : string                      (* the text of the response, line 464 *)
}.

(** lines 419-467, from the first test code on *)
Definition generateTestsLoop (fuel : nat) (generated : string) : option Outcome :=
  match while fuel (initialState generated) with
  | None => None
  | Some (st, broke) =>
      let finalResult :=
        if negb (allTestsPassed st) && Nat.ltb maxIterations (iteration st)
        then exhaustedMessage (testCode st)
        else finalResult st in
      let effects := push (effects st) [WriteFile testFilePath (testCode st)] in
      Some (Build_Outcome
              (Build_LoopState (iteration st) (testCode st) (allTestsPassed st)
                 finalResult effects)
              (terminal st broke)
              (folderSign ++ " Test file generated at: " ++ testFilePath ++ nl ++ nl
                 ++ finalResult))
  end.

End Orchestrator.

(** *** The protocol: [handleRequest] and [handleToolCall], lines 244-375

    A request is the value that [JSON.parse] returned.  The model covers the
    requests whose method is a string and whose params, when they are there,
    are an object with a string as the name of the tool.  The three tools
    are parameters: each one stands for the reading of its arguments
    ([args.filePath], ...) and the call, which return the content of the
    result or throw. *)

Module Protocol.

(** An entry of the list of tools: its name, its description, and the
    properties of its input, each one a string with a description. *)
Record ToolDescription : Type := {
  tool_name : string;
  tool_description : string;
  properties : list (string * string);
  required : list string
}.

(** lines 252-311 *)
Definition tools : list ToolDescription :=
  [ Build_ToolDescription "analyze_component"
      "Analyze a React component file to extract its structure and props"
      [ ("filePath",
         "Path to the component file (e.g., src/components/common/button/index.tsx)");
        ("projectRoot", "Root directory of the project") ]
      ["filePath"; "projectRoot"];
    Build_ToolDescription "generate_tests"
      "Generate comprehensive test cases for a React component"
      [ ("filePath", "Path to the component file");
        ("projectRoot", "Root directory of the project");
        ("outputPath", "Optional custom output path for the test file") ]
      ["filePath"; "projectRoot"];
    Build_ToolDescription "read_component"
      "Read and display the content of a component file"
      [ ("filePath", "Path to the component file");
        ("projectRoot", "Root directory of the project") ]
      ["filePath"; "projectRoot"] ].

(** How the evaluation of a call ends: with a value, or with an exception,
    of which the handler reads the message. *)
Inductive Completion (A : Type) : Type :=
| Returned (value : A)
| Thrown (message : string).

Arguments Returned {A} value.
Arguments Thrown {A} message.

Section Server.

(** The identifier of a request, the arguments of a tool call and the
    content that a tool returns are copied, not inspected. *)
Variables Id Args Content : Type.

Record ToolCall : Type := { name : string; arguments : Args }.

Record MCPRequest : Type := {
  request_id : Id;
  method : string;
  params : option ToolCall
}.

Inductive Result : Type :=
| ToolList (tools : list ToolDescription)
| ToolResult (content : Content).

Record MCPError : Type := { code : Z; message : string }.

Record MCPResponse : Type := {
  jsonrpc : string;
  id : Id;
  result : option Result;
  error : option MCPError
}.

Variables analyzeComponent generateTests readComponent : Args -> Completion Content.

(** The message of the exception for a request without params, which the
    language leaves to the host. *)
Variable noParamsMessage : string.

(** The response around the result of a tool, when it returns. *)
Definition resultOf (request : MCPRequest) (c : Completion Content)
  : Completion MCPResponse :=
  match c with
  | Returned content =>
      Returned (Build_MCPResponse "2.0" (request_id request)
                  (Some (ToolResult content)) None)
  | Thrown message => Thrown message
  end.

(** lines 340-375 *)
Definition handleToolCall (request : MCPRequest) : Completion MCPResponse :=
  match params request with
  | None => Thrown noParamsMessage
  | Some call =>
      let args := arguments call in
      if String.eqb (name call) "analyze_component" then
        resultOf request (analyzeComponent args)
      else if String.eqb (name call) "generate_tests" then
        resultOf request (generateTests args)
      else if String.eqb (name call) "read_component" then
        resultOf request (readComponent args)
      else
        Returned (Build_MCPResponse "2.0" (request_id request) None
                    (Some (Build_MCPError (-32601) ("Unknown tool: " ++ name call))))
  end.

(** lines 244-338 *)
Definition handleRequest (request : MCPRequest) : MCPResponse :=
  let attempt :=
    if String.eqb (method request) "tools/list" then
      Returned (Build_MCPResponse "2.0" (request_id request) (Some (ToolList tools)) None)
    else if String.eqb (method request) "tools/call" then
      handleToolCall request
    else
      Returned (Build_MCPResponse "2.0" (request_id request) None
                  (Some (Build_MCPError (-32601)
                           ("Method not found: " ++ method request)))) in
  match attempt with
  | Returned response => response
  | Thrown message =>
      Build_MCPResponse "2.0" (request_id request) None
        (Some (Build_MCPError (-32603) ("Internal error: " ++ message)))
  end.

End Server.

Arguments Build_ToolCall {Args} name arguments.
Arguments name {Args} t.
Arguments arguments {Args} t.
Arguments Build_MCPRequest {Id Args} request_id method params.
Arguments request_id {Id Args} m.
Arguments method {Id Args} m.
Arguments params {Id Args} m.
Arguments ToolList {Content} tools.
Arguments ToolResult {Content} content.
Arguments Build_MCPResponse {Id Content} jsonrpc id result error.
Arguments jsonrpc {Id Content} m.
Arguments id {Id Content} m.
Arguments result {Id Content} m.
Arguments error {Id Content} m.
Arguments resultOf {Id Args Content} request c.
Arguments handleToolCall {Id Args Content}
  analyzeComponent generateTests readComponent noParamsMessage request.
Arguments handleRequest {Id Args Content}
  analyzeComponent generateTests readComponent noParamsMessage request.

End Protocol.

(** *** The transport: [run], lines 735-765

    The handler of the [data] event changes the buffer and takes the lines
    of a chunk before its first [await], so the buffer and the lines taken
    do not depend on how the handlings of several chunks interleave.  The
    model gives the lines that are taken for [JSON.parse] and
    [handleRequest], chunk by chunk; the moment at which the handling of a
    line starts and the order in which the responses are written are not
    part of it. *)

Module Transport.

(** lines 743-749: the chunk is added to the buffer, the text after the
    last line feed stays in the buffer, and the lines in front of it that
    are not blank are taken. *)
Definition onData (buffer chunk : string) : string * list string :=
  let buffer := buffer ++ chunk in
  let lines := split "010" buffer in
  let buffer := last lines EmptyString in          (* lines.pop() || '' *)
  let lines := removelast lines in
  (buffer, filter (fun line => negb (String.eqb (trim line) EmptyString)) lines).

(** The buffer and the lines taken after the chunks of an input, from the
    empty buffer of line 740. *)
Definition run (chunks : list string) : string * list string :=
  fold_left (fun st chunk =>
               let '(buffer, lines) := onData (fst st) chunk in
               (buffer, push (snd st) lines))
    chunks (EmptyString, []).

End Transport.

End TestGeneratorServer.

(** * Vocabulary of the statements *)

(** ** Strings *)

(** The number of occurrences of a character. *)
Fixpoint countChar (c : ascii) (s : string) : nat :=
  match s with
  | EmptyString => 0
  | String a s' => (if Ascii.eqb a c then 1 else 0) + countChar c s'
  end.

(** A name starts with an upper-case letter. *)
Definition startsUpper (s : string) : bool :=
  match s with
  | String c _ => is_upper c
  | EmptyString => false
  end.

(** ** Models of components *)

Definition mkProp (name type : string) (optional : bool) : PropDefinition.t :=
  PropDefinition.Build name type optional None None.

(** A host in which the inherited members print as the empty text.  None of
    the examples below has a prop with the name of such a member. *)
Definition plainHost : string -> string := fun _ => EmptyString.

(** Scenario A: a required label, a required click handler without
    arguments, an optional flag. *)
Definition labelProp : PropDefinition.t := mkProp "label" "string" false.
Definition onClickProp : PropDefinition.t := mkProp "onClick" "() => void" false.
Definition disabledProp : PropDefinition.t := mkProp "disabled" "boolean" true.

Definition scenarioA (name : string) (exports : list string)
           (imports : list ImportInfo.t) (hasDefaultExport : bool) (filePath : string)
  : ComponentAnalysis.t :=
  ComponentAnalysis.Build name functional [labelProp; onClickProp; disabledProp]
    exports imports hasDefaultExport filePath.

(** Scenario A without the optional flag. *)
Definition scenarioAEnabled (name : string) (exports : list string)
           (imports : list ImportInfo.t) (hasDefaultExport : bool) (filePath : string)
  : ComponentAnalysis.t :=
  ComponentAnalysis.Build name functional [labelProp; onClickProp]
    exports imports hasDefaultExport filePath.






(** A form with a required submit handler without arguments. *)
Definition onSubmitProp : PropDefinition.t := mkProp "onSubmit" "() => void" false.
Definition formModel : ComponentAnalysis.t :=
  ComponentAnalysis.Build "Form" functional [onSubmitProp] ["Form"] [] false "src/Form.tsx".

(** The model of a file in which the analyzer finds nothing. *)
Definition emptyModel : ComponentAnalysis.t :=
  ComponentAnalysis.Build EmptyString functional [] [] [] false EmptyString.

Definition buttonModel : ComponentAnalysis.t :=
  ComponentAnalysis.Build "Button" functional [] ["Button"] [] false "src/Button.tsx".

(** ** The traversal of the analyzer *)

Module Traversal.
Import ComponentAnalyzer.

(** The nodes of a tree in pre-order, each with the kind of its parent. *)
Fixpoint preorder (parent : SyntaxKind) (n : Node) : list (SyntaxKind * SyntaxKind) :=
  match n with
  | MkNode k cs => (parent, k) :: flat_map (preorder k) cs
  end.

(** The nodes of a source file, from its statements. *)
Definition nodesOf (statements : list Node) : list (SyntaxKind * SyntaxKind) :=
  preorder OtherKind (MkNode OtherKind statements).

Definition visitAll (l : list (SyntaxKind * SyntaxKind)) (analysis : ComponentAnalysis.t)
  : ComponentAnalysis.t :=
  fold_left (fun analysis pk => visitNode (fst pk) (snd pk) analysis) l analysis.

Definition upperName (name : string) : option string :=
  if startsUpper name then Some name else None.

(** The name that a node declares for the component, if it does: a function
    declaration by its own name, an arrow function or a function expression
    by the identifier it is bound to, a variable declaration by its
    identifier when it is bound to one of these; upper case first. *)
Definition declaredName (parent node : SyntaxKind) : option string :=
  match node with
  | FunctionDeclaration (Some name) => upperName name
  | FunctionDeclaration None | ArrowFunction | FunctionExpression =>
      match parent with
      | VariableDeclaration (Identifier name) _ => upperName name
      | _ => None
      end
  | VariableDeclaration (Identifier name) (Some ArrowFunctionKind)
  | VariableDeclaration (Identifier name) (Some FunctionExpressionKind) =>
      upperName name
  | _ => None
  end.

Definition declaredNames (l : list (SyntaxKind * SyntaxKind)) : list string :=
  flat_map (fun pk => match declaredName (fst pk) (snd pk) with
                      | Some n => [n]
                      | None => []
                      end) l.

(** The names declared by the statements themselves, the top level of the
    file. *)
Definition topLevelNames (statements : list Node) : list string :=
  declaredNames (map (fun n => (OtherKind, kind n)) statements).

(** The prop of a member: a property signature gives one, with its name, its
    question mark and the text of its type, or any when it has none. *)
Definition memberProps (member : TypeElement) : list PropDefinition.t :=
  match member with
  | PropertySignature name questionToken type jsDoc =>
      [ PropDefinition.Build name
          (match type with Some text => text | None => "any" end)
          questionToken None (getJSDocDescription jsDoc) ]
  | OtherTypeElement => []
  end.

Definition isPropertySignature (member : TypeElement) : bool :=
  match member with
  | PropertySignature _ _ _ _ => true
  | OtherTypeElement => false
  end.

(** The props of a declaration: those of the members of an interface, or of
    a type alias of a type literal, whose name ends with Props. *)
Definition contractProps (node : SyntaxKind) : list PropDefinition.t :=
  match node with
  | InterfaceDeclaration name members
  | TypeAliasDeclaration name (TypeLiteral members) =>
      if endsWith name "Props" then flat_map memberProps members else []
  | _ => []
  end.

(** The file
      function Alpha() {}
      function Beta() { function Inner() {} }
    Each declaration has its name, its parameters and its body as children. *)
Definition leaf : Node := MkNode OtherKind [].
Definition nestedDeclarations : list Node :=
  [ MkNode (FunctionDeclaration (Some "Alpha")) [leaf; MkNode OtherKind []];
    MkNode (FunctionDeclaration (Some "Beta"))
      [ leaf;
        MkNode OtherKind
          [ MkNode (FunctionDeclaration (Some "Inner")) [leaf; MkNode OtherKind []] ] ] ].

(** The file
      interface ButtonProps { label: string; onClick(): void }
      type CardProps = BaseProps & { title: string }
    whose first declaration has a method signature as its second member and
    whose second one is not a type literal. *)
Definition buttonPropsMembers : list TypeElement :=
  [ PropertySignature "label" false (Some "string") []; OtherTypeElement ].
Definition contractDeclarations : list Node :=
  [ MkNode (InterfaceDeclaration "ButtonProps" buttonPropsMembers) [leaf; leaf; leaf];
    MkNode (TypeAliasDeclaration "CardProps" OtherType) [leaf; leaf] ].

(** The example of the README:
      interface ButtonProps {
        label: string; onClick: () => void; disabled?: boolean;
      }
      export const Button: React.FC<ButtonProps> = ({ ... }) => ( ... );
    The variable declaration is inside a declaration list inside a
    statement; its children are the name, the type and the arrow function. *)
Definition readmeExample : list Node :=
  [ MkNode
      (InterfaceDeclaration "ButtonProps"
         [ PropertySignature "label" false (Some "string") [];
           PropertySignature "onClick" false (Some "() => void") [];
           PropertySignature "disabled" true (Some "boolean") [] ])
      [leaf; leaf; leaf; leaf];
    MkNode OtherKind
      [ leaf;
        MkNode OtherKind
          [ MkNode (VariableDeclaration (Identifier "Button") (Some ArrowFunctionKind))
              [ leaf; leaf; MkNode ArrowFunction [leaf; leaf; leaf] ] ] ] ].

End Traversal.

(** ** The verifier *)

Module Runner.
Import TestGeneratorServer.

(** An event whose handler goes on to the next candidate: an [error], or a
    [close] with a code other than zero and the complaint of a shell that
    does not know the command. *)
Definition isSkip (event : ChildEvent) : bool :=
  match event with
  | ErrorEvent _ => true
  | CloseEvent _ (Some Z0) _ _ => false
  | CloseEvent _ _ stdout stderr =>
      includes (stdout ++ stderr) "command not found"
      || includes (stdout ++ stderr) "is not recognized"
  end.

(** The result that the handler of a [close] resolves with, when it does. *)
Definition closeResult (code : option Z) (stdout stderr : string) : TestResult :=
  match code with
  | Some Z0 => Build_TestResult true EmptyString (stdout ++ stderr)
  | _ => Build_TestResult false (stdout ++ stderr) (stdout ++ stderr)
  end.

Definition noRunner : TestResult := Build_TestResult false noRunnerMessage EmptyString.

(** The value of the promise after the events, when [left] candidates are
    left, the running one included: the first [close] that does not go on to
    the next candidate decides, unless the last candidate was passed over
    before it; [None] while the promise is pending. *)
Fixpoint decision (left : nat) (events : list ChildEvent) : option TestResult :=
  match left, events with
  | O, _ => None
  | _, [] => None
  | S left', event :: later =>
      if isSkip event then
        match left' with
        | O => Some noRunner
        | _ => decision left' later
        end
      else
        match event with
        | CloseEvent _ code stdout stderr => Some (closeResult code stdout stderr)
        | ErrorEvent _ => None
        end
  end.

(** The [close] of a child that did not start: the code is the negated
    error number of the system, here the one of a file that is not there. *)
Definition closeOfFailedStart (child : nat) : ChildEvent :=
  CloseEvent child (Some (-2)%Z) EmptyString EmptyString.

(** No command starts: the four [error] events run first, each one from
    the spawn in the handler of the one before, and the [close] events of
    the four children follow. *)
Definition nothingStarts : list ChildEvent :=
  [ ErrorEvent 0; ErrorEvent 1; ErrorEvent 2; ErrorEvent 3;
    closeOfFailedStart 0; closeOfFailedStart 1; closeOfFailedStart 2;
    closeOfFailedStart 3 ].

(** A shell that knows none of the commands: every child starts and ends
    with the complaint. *)
Definition unknownCommands : list ChildEvent :=
  [ CloseEvent 0 (Some 127%Z) EmptyString "sh: 1: npx: command not found";
    CloseEvent 1 (Some 127%Z) EmptyString "sh: 1: npm: command not found";
    CloseEvent 2 (Some 127%Z) EmptyString "sh: 1: npx: command not found";
    CloseEvent 3 (Some 127%Z) EmptyString "sh: 1: yarn: command not found" ].

(** A system without npx, in which the tests run by npm pass: the first
    child does not start, the second one is spawned from the handler of its
    [error], the [close] of the first child follows, and the second child
    ends with the code zero. *)
Definition passed : string := "PASS src/__tests__/Button.test.tsx".
Definition npxMissing : list ChildEvent :=
  [ ErrorEvent 0; closeOfFailedStart 0; CloseEvent 1 (Some 0%Z) passed EmptyString ].

(** The same system if the failed child had no [close] event. *)
Definition npxMissingWithoutClose : list ChildEvent :=
  [ ErrorEvent 0; CloseEvent 1 (Some 0%Z) passed EmptyString ].

End Runner.

(** ** The loop *)

Module Loop.
Import TestGeneratorServer.

(** The effects of one pass on a test code, and of a sequence of passes. *)
Definition pass (testFilePath code : string) : list Effect :=
  [WriteFile testFilePath code; RunTests testFilePath].
Definition passes (testFilePath : string) (codes : list string) : list Effect :=
  flat_map (pass testFilePath) codes.

(** The test codes [codes] follow one another by repair, from the pass
    number [i] on: the verification of each one but the last failed, and the
    next one is its repair, which differs from it. *)
Fixpoint repaired (runTests : nat -> string -> TestResult)
         (fixTestErrors : string -> string -> string)
         (i : nat) (codes : list string) : Prop :=
  match codes with
  | code :: ((next :: _) as later) =>
      success (runTests i code) = false
      /\ next = fixTestErrors code (errors (runTests i code))
      /\ next <> code
      /\ repaired runTests fixTestErrors (S i) later
  | _ => True
  end.

(** How the loop has ended in the state [st], by a [break] or not, after the
    test codes [codes] were verified one after the other. *)
Definition ended (runTests : nat -> string -> TestResult)
           (fixTestErrors : string -> string -> string) (testFilePath : string)
           (st : LoopState) (broke : bool) (codes : list string) : Prop :=
  let n := length codes in
  effects st = passes testFilePath codes
  /\ 1 <= n <= maxIterations
  /\ match terminal st broke with
     | PASSED =>
         allTestsPassed st = true /\ iteration st = n
         /\ last codes EmptyString = testCode st
         /\ repaired runTests fixTestErrors 1 codes
         /\ success (runTests n (testCode st)) = true
         /\ finalResult st = passedMessage n (testCode st)
     | STALLED =>
         allTestsPassed st = false /\ iteration st = n
         /\ last codes EmptyString = testCode st
         /\ repaired runTests fixTestErrors 1 codes
         /\ success (runTests n (testCode st)) = false
         /\ fixTestErrors (testCode st) (errors (runTests n (testCode st))) = testCode st
         /\ finalResult st
            = stalledMessage n (errors (runTests n (testCode st))) (testCode st)
     | EXHAUSTED =>
         allTestsPassed st = false /\ n = maxIterations
         /\ iteration st = S maxIterations
         /\ repaired runTests fixTestErrors 1 (codes ++ [testCode st])
     end.

(** A verifier that always fails, one that passes from the second pass on,
    and a repairer that always changes the test code. *)
Definition alwaysFails : nat -> string -> TestResult :=
  fun _ _ => Build_TestResult false "failed" "failed".
Definition passesSecond : nat -> string -> TestResult :=
  fun i _ => if Nat.leb 2 i then Build_TestResult true EmptyString "ok"
             else Build_TestResult false "failed" "failed".
Definition addsComment : string -> string -> string :=
  fun code _ => code ++ "//".

End Loop.

(** ** The repairer *)

Module Repair.
Import TestGeneratorServer.

(** The diagnostics of a configuration problem, which end the repair at once
    (lines 548 and 555). *)
Definition configurationErrors (errors : string) : bool :=
  includes errors ("Unknown option " ++ q "moduleNameMapping")
  || includes errors "jest-environment-jsdom cannot be found"
  || (includes errors "--jsx" && includes errors "is not set").

(** The conditions of the rewrite rules, in the order of the source. *)
Definition ruleConditions (errors : string) : list bool :=
  [ includes errors "is not assignable to type" && includes errors "Did you mean";
    includes errors "Identifier expected" && includes errors "onClick={() => {}}";
    includes errors "Cannot find module";
    includes errors "was not found";
    includes errors "Unable to find an element with the role";
    includes errors "Property" && includes errors "is missing in type";
    includes errors "toHaveClass" && includes errors "Expected";
    includes errors "Unable to find an element with the text";
    includes errors ("Unable to find an element with the role " ++ q "status");
    includes errors ("Unable to find an element with the role " ++ q "img") ].

Definition firesNoRule (errors : string) : bool :=
  forallb negb (ruleConditions errors).

(** Two repairs with the same diagnostics, the second one on the result of
    the first. *)
Definition repairTwice (testCode errors : string) (analysis : ComponentAnalysis.t)
           (filePath : string) : option string :=
  match fixTestErrors testCode errors analysis filePath with
  | Some fixedCode => fixTestErrors fixedCode errors analysis filePath
  | None => None
  end.

(** The generated test of scenario A for the component Button. *)
Definition buttonA : ComponentAnalysis.t :=
  scenarioA "Button" ["Button"] [] false "src/Button.tsx".
Definition buttonTest : string := TestGenerator.generate plainHost buttonA "src/Button.tsx".

(** The props that the rule for a missing prop reads from a test code: the
    group of the pattern of line 634. *)
Definition existingProps (testCode : string) : option string :=
  option_map (fun propsMatch => capture_text 1 (groups propsMatch))
    (exec renderSelfClosing testCode).

(** A render call with a handler, and the diagnostics of a missing prop. *)
Definition renderWithHandler : string := "render(<Button onClick={() => {}} />);".
Definition titleMissing : string := "Property 'title' is missing in type".

(** An attribute value in both kinds of quotes inside another one, and the
    diagnostics of a value of the wrong type. *)
Definition nestedQuotes : string :=
  "=" ++ dq ++ "'a=" ++ dq ++ "'b'" ++ dq ++ "'" ++ dq.
Definition notAssignable : string :=
  "Type is not assignable to type. Did you mean to use the other one?".

End Repair.

(** ** The fields of the model *)

Module Fields.
Import ComponentAnalyzer Traversal.

Definition optionList {A : Type} (o : option A) : list A :=
  match o with Some x => [x] | None => [] end.

Definition isSome {A : Type} (o : option A) : bool :=
  match o with Some _ => true | None => false end.

(** The identifier of a default export. *)
Definition defaultExportName (node : SyntaxKind) : option string :=
  match node with
  | ExportAssignment (IdentifierKind name) => Some name
  | _ => None
  end.

(** The names that a node adds to the exports, if they are new. *)
Definition nodeExports (parent node : SyntaxKind) : list string :=
  (optionList (declaredName parent node) ++ optionList (defaultExportName node))%list.

Definition exportedNames (l : list (SyntaxKind * SyntaxKind)) : list string :=
  flat_map (fun pk => nodeExports (fst pk) (snd pk)) l.

(** The names that an import clause binds: the default import first. *)
Definition clauseNames (clause : option ImportClause) : list string :=
  match clause with
  | None => []
  | Some c =>
      (optionList (clause_name c)
       ++ match namedBindings c with
          | Some (NamedImports elements) => elements
          | Some (NamespaceImport name) => [name]
          | None => []
          end)%list
  end.

Definition hasDefaultImport (clause : option ImportClause) : bool :=
  match clause with
  | Some c => isSome (clause_name c)
  | None => false
  end.

(** The entry that a node adds to the imports. *)
Definition nodeImports (node : SyntaxKind) : list ImportInfo.t :=
  match node with
  | ImportDeclaration moduleSpecifier clause =>
      [ImportInfo.Build moduleSpecifier (clauseNames clause) (hasDefaultImport clause)]
  | _ => []
  end.

End Fields.

(** ** A request from the verifier to the repairer *)

Module Session.
Import TestGeneratorServer Runner.

(** A repairer of the loop that answers as [fixTestErrors] does for the
    analysis and the path of the request, wherever the model covers it. *)
Definition repairs (repair : string -> string -> string)
           (analysis : ComponentAnalysis.t) (filePath : string) : Prop :=
  forall code errors fixed,
    fixTestErrors code errors analysis filePath = Some fixed ->
    repair code errors = fixed.

Definition repairer (analysis : ComponentAnalysis.t) (filePath : string)
  : string -> string -> string :=
  fun code errors =>
    match fixTestErrors code errors analysis filePath with
    | Some fixed => fixed
    | None => code
    end.

(** A verifier that finds no runner, and one that always succeeds. *)
Definition findsNoRunner : nat -> string -> TestResult := fun _ _ => noRunner.
Definition alwaysPasses : nat -> string -> TestResult :=
  fun _ _ => Build_TestResult true EmptyString "ok".

End Session.

(** ** Texts *)

Module Text.

(** Every character that meets [P] replaced by the text [sub] gives for it. *)
Fixpoint replace_chars (P : ascii -> bool) (sub : ascii -> string) (s : string) : string :=
  match s with
  | EmptyString => EmptyString
  | String c s' =>
      if P c then sub c ++ replace_chars P sub s' else String c (replace_chars P sub s')
  end.

(** A hyphen in front of every upper-case letter, and the letter in lower
    case. *)
Fixpoint kebab (s : string) : string :=
  match s with
  | EmptyString => EmptyString
  | String c s' =>
      if is_upper c then String "-" (String (lower_char c) (kebab s'))
      else String c (kebab s')
  end.

Definition isQuote (c : ascii) : bool := Ascii.eqb c "'" || Ascii.eqb c "034".

(** The text without its quote characters. *)
Fixpoint unquoted (s : string) : string :=
  match s with
  | EmptyString => EmptyString
  | String c s' => if isQuote c then unquoted s' else String c (unquoted s')
  end.

Fixpoint allChars (P : ascii -> bool) (s : string) : bool :=
  match s with
  | EmptyString => true
  | String c s' => P c && allChars P s'
  end.

Definition isAscii (c : ascii) : bool := Nat.ltb (nat_of_ascii c) 128.

(** The extensions that an import path drops. *)
Definition isExtension (s : string) : bool :=
  array_includes [".ts"; ".tsx"; ".js"; ".jsx"] s.

(** A line of the input that is taken for handling. *)
Definition notBlank (line : string) : bool :=
  negb (String.eqb (trim line) EmptyString).

End Text.

(** ** The battery of cases *)

Module Battery.
Import TestGenerator ComponentAnalysis.

(** The number of cases of a prop, by its type. *)
Definition propCases (p : PropDefinition.t) : nat :=
  Nat.b2n (String.eqb (PropDefinition.type p) "boolean")
  + Nat.b2n (String.eqb (PropDefinition.type p) "string")
  + (if includes (PropDefinition.type p) "|"
     then S (countChar "|" (PropDefinition.type p)) else 0).

Definition isClick (p : PropDefinition.t) : bool :=
  String.eqb (PropDefinition.name p) "onClick".

(** The number of cases of the click handlers of a model. *)
Definition clickCases (a : t) : nat :=
  length (filter isClick (props a)) * (1 + Nat.b2n (hasProp a "disabled")).

(** The text that binds a required prop in the basic render case. *)
Definition inlineBinding (p : PropDefinition.t) : string :=
  if includes (PropDefinition.type p) callbackType
  then PropDefinition.name p ++ "={() => {}}"
  else getDefaultPropValue p true.

(** The types for which the props object has a fixed value. *)
Definition fixedValueType (type : string) : bool :=
  includes type callbackType || String.eqb type "boolean" || String.eqb type "number".

Definition isRequired (p : PropDefinition.t) : bool := negb (PropDefinition.optional p).

(** A button whose required click handler takes the event. *)
Definition eventHandlerProp : PropDefinition.t :=
  mkProp "onClick" "(event: MouseEvent) => void" false.
Definition eventButtonModel : t :=
  Build "Button" functional [eventHandlerProp] ["Button"] [] false "src/Button.tsx".

End Battery.

(** ** The rules of the repairer *)

Module Rules.
Import TestGeneratorServer Repair.

(** All the conditions but, possibly, the one with the index [n] fail. *)
Fixpoint noneBut (n : nat) (conditions : list bool) : bool :=
  match conditions with
  | [] => true
  | c :: cs =>
      match n with
      | O => forallb negb cs
      | S n' => negb c && noneBut n' cs
      end
  end.

(** The diagnostics are not those of a configuration problem, and fire no
    rewrite rule but, possibly, the one with the index [n] in the order of
    the source, from zero. *)
Definition firesAtMost (n : nat) (errors : string) : bool :=
  negb (configurationErrors errors) && noneBut n (ruleConditions errors).

(** The three texts that the patterns of the rule for arrow functions
    match: a handler without its parentheses. *)
Definition malformedHandlers : list string :=
  [ "onClick={ => {}}"; "onClick={,  => {}}"; "onClick={ => ,}" ].

(** The first import of a generated test, without its semicolon. *)
Definition reactImport : string := "import React from " ++ q "react".

(** The module named by a diagnostic, the first quoted text in it, is a
    relative one. *)
Definition relativeModule (diagnostic : string) : bool :=
  match exec quotedText diagnostic with
  | Some moduleNameMatch => startsWith (capture_text 1 (groups moduleNameMatch)) "."
  | None => false
  end.

(** The import of the component, as the repair of a missing module writes
    it. *)
Definition componentImport (analysis : ComponentAnalysis.t) (filePath : string) : string :=
  "import { " ++ ComponentAnalysis.componentName analysis ++ " } from "
    ++ q (TestGenerator.getImportPath filePath).

Definition moduleNotFound : string :=
  "Cannot find module '../Button' from 'src/__tests__/Button.test.tsx'".

Definition identifierExpected : string := "Identifier expected. onClick={() => {}}".

End Rules.

(** ** The tools of the server *)

Module Catalogue.
Import TestGeneratorServer.Protocol.

(** The names of the tools that the server lists. *)
Definition toolNames : list string := map tool_name tools.

(** The answer to a call of a tool that the server does not know. *)
Definition unknownTool (toolName : string) : MCPError :=
  Build_MCPError (-32601) ("Unknown tool: " ++ toolName).

(** A tool that returns the name of the file, or throws when it is empty. *)
Definition echoTool (filePath : string) : Completion string :=
  if String.eqb filePath EmptyString then Thrown "Component file not found: /"
  else Returned filePath.

Definition readButton : MCPRequest nat string :=
  Build_MCPRequest 7 "tools/call" (Some (Build_ToolCall "read_component" "src/Button.tsx")).

End Catalogue.

(** * Facts about strings *)

Lemma append_assoc (a b c : string) : (a ++ b) ++ c = a ++ (b ++ c).
Proof. induction a as [|x a IH]; simpl; [reflexivity | now rewrite IH]. Qed.

Lemma append_empty_r (a : string) : a ++ EmptyString = a.
Proof. induction a as [|x a IH]; simpl; [reflexivity | now rewrite IH]. Qed.

Lemma prefix_append (t post : string) : String.prefix t (t ++ post) = true.
Proof.
  induction t as [|x t IH]; simpl; [now destruct post |].
  destruct (ascii_dec x x) as [_|ne]; [exact IH | now destruct ne].
Qed.

Lemma prefix_split (t s : string) :
  String.prefix t s = true -> exists post, s = t ++ post.
Proof.
  revert s; induction t as [|x t IH]; intros s H.
  - now exists s.
  - destruct s as [|y s]; simpl in H; [discriminate |].
    destruct (ascii_dec x y) as [->|]; [|discriminate].
    destruct (IH _ H) as [post ->]. now exists post.
Qed.

(** [includes] finds exactly the texts that occur somewhere. *)
Lemma includes_iff (s t : string) :
  includes s t = true <-> exists pre post, s = pre ++ t ++ post.
Proof.
  split.
  - induction s as [|c s IH]; intros H.
    + destruct t; [| discriminate]. now exists EmptyString, EmptyString.
    + cbn [includes] in H. apply orb_true_iff in H as [H|H].
      * destruct (prefix_split _ _ H) as [post ->]. now exists EmptyString, post.
      * destruct (IH H) as (pre & post & ->). now exists (String c pre), post.
  - intros (pre & post & ->). induction pre as [|c pre IH]; simpl.
    + assert (P : String.prefix t (t ++ post) = true) by apply prefix_append.
      change (EmptyString ++ t ++ post) with (t ++ post).
      destruct (t ++ post); cbn [includes]; rewrite P; reflexivity.
    + rewrite IH. apply orb_true_r.
Qed.

Lemma includes_refl (s : string) : includes s s = true.
Proof.
  apply includes_iff. exists EmptyString, EmptyString. simpl. now rewrite append_empty_r.
Qed.

Lemma includes_trans (s t u : string) :
  includes s t = true -> includes t u = true -> includes s u = true.
Proof.
  rewrite !includes_iff. intros (p1 & q1 & ->) (p2 & q2 & ->).
  exists (p1 ++ p2), (q2 ++ q1). now rewrite !append_assoc.
Qed.

Lemma includes_app_l (a b t : string) : includes a t = true -> includes (a ++ b) t = true.
Proof.
  rewrite !includes_iff. intros (p & q & ->). exists p, (q ++ b). now rewrite !append_assoc.
Qed.

Lemma includes_app_r (a b t : string) : includes b t = true -> includes (a ++ b) t = true.
Proof.
  rewrite !includes_iff. intros (p & q & ->). exists (a ++ p), q. now rewrite !append_assoc.
Qed.

(** A joined text includes each of its elements. *)
Lemma includes_join (sep : string) (l : list string) (x : string) :
  In x l -> includes (join sep l) x = true.
Proof.
  unfold join. induction l as [|y l IH]; intros H; [destruct H |].
  destruct H as [->|H].
  - destruct l as [|z l]; simpl; [apply includes_refl |].
    apply includes_app_l, includes_refl.
  - destruct l as [|z l]; [destruct H |].
    change (String.concat sep (y :: z :: l)) with (y ++ sep ++ String.concat sep (z :: l)).
    apply includes_app_r, includes_app_r, IH, H.
Qed.

Lemma includes_lines (l : list string) (x : string) :
  In x l -> includes (lines l) x = true.
Proof. apply includes_join. Qed.

(** One more piece for each separator. *)
Lemma split_length (c : ascii) (s : string) :
  length (split c s) = S (countChar c s).
Proof.
  induction s as [|a s IH]; [reflexivity |]. cbn [split countChar].
  destruct (Ascii.eqb a c); cbn [length].
  - now rewrite IH.
  - destruct (split c s); [discriminate | exact IH].
Qed.

(** * Facts about arrays *)

Lemma fold_left_push {A B : Type} (f : B -> list A) (l : list B) (init : list A) :
  fold_left (fun acc x => push acc (f x)) l init = (init ++ flat_map f l)%list.
Proof.
  revert init; induction l as [|x l IH]; intros init; simpl.
  - now rewrite app_nil_r.
  - rewrite IH. unfold push. now rewrite <- app_assoc.
Qed.

Lemma fold_left_push_singleton {A B : Type} (f : B -> A) (l : list B) (init : list A) :
  fold_left (fun acc x => push acc [f x]) l init = (init ++ map f l)%list.
Proof.
  revert init; induction l as [|x l IH]; intros init; simpl.
  - now rewrite app_nil_r.
  - rewrite IH. unfold push. now rewrite <- app_assoc.
Qed.

Lemma last_cons (l : list string) (n d : string) : last (n :: l) d = last l n.
Proof.
  revert n d; induction l as [|x l IH]; intros n d; [reflexivity |].
  change (last (n :: x :: l) d) with (last (x :: l) d).
  now rewrite (IH x d), (IH x n).
Qed.

(** * The synthesizer *)

Section GeneratorFacts.
Import TestGenerator ComponentAnalysis.

Variable inheritedText : string -> string.

(** The battery of cases, in its fixed order. *)
Lemma generateTestCases_eq (a : t) :
  generateTestCases inheritedText a =
    (createBasicRenderTest a
       :: flat_map (fun prop => createPropTests inheritedText prop a) (props a)
       ++ flat_map (fun prop => createEventTests inheritedText prop a)
            (filter isEventProp (props a))
       ++ createConditionalRenderingTests inheritedText a
       ++ createAccessibilityTests inheritedText a)%list.
Proof.
  unfold generateTestCases. rewrite !fold_left_push. unfold push. simpl.
  now rewrite <- !app_assoc.
Qed.

(** Every case of the battery is in the generated text. *)
Lemma generate_includes_case (a : t) (filePath : string) (c : TestCase.t) :
  In c (generateTestCases inheritedText a) ->
  includes (generate inheritedText a filePath) (TestCase.code c) = true.
Proof.
  intros H. unfold generate, buildTestFile.
  set (suite := join nl (map TestCase.code (generateTestCases inheritedText a))).
  assert (S : includes suite (TestCase.code c) = true)
    by (apply includes_join, in_map, H).
  eapply includes_trans; [| exact S].
  eapply includes_trans; [apply includes_lines |].
  - do 5 right. left. reflexivity.
  - apply includes_app_r, includes_app_r, includes_app_r, includes_refl.
Qed.

(** A line of a case of the battery is in the generated text. *)
Lemma generate_includes_line (a : t) (filePath : string) (c : TestCase.t)
      (l : list string) (line : string) :
  In c (generateTestCases inheritedText a) ->
  TestCase.code c = lines l ->
  In line l ->
  includes (generate inheritedText a filePath) line = true.
Proof.
  intros Hc Hl Hin. eapply includes_trans.
  - apply generate_includes_case, Hc.
  - rewrite Hl. now apply includes_lines.
Qed.

Lemma generate_starts_with_imports (a : t) (filePath : string) :
  startsWith (generate inheritedText a filePath)
    (generateImports (getImportPath filePath) (componentName a)) = true.
Proof.
  unfold startsWith, generate, buildTestFile, lines at 1. cbn [String.concat].
  apply prefix_append.
Qed.



Ltac case_line c :=
  match goal with
  | H : generateTestCases _ _ = _ |- _ =>
      eapply (generate_includes_line _ _ c);
      [ rewrite H; cbn [In]; auto 10 | reflexivity | cbn; auto 20 ]
  end.

(** C1.  The synthesizer is a function of the model and of the path: two
    calls with models that agree on the name of the component and on the
    props, the only fields that it reads, and with the same path return the
    same text, character for character.  In particular two calls with the
    same model do. *)
Theorem generate_pure (m m' : t) (filePath : string) :
  componentName m = componentName m' ->
  props m = props m' ->
  generate inheritedText m filePath = generate inheritedText m' filePath.
Proof.
  destruct m as [n ty ps ex im de fp], m' as [n' ty' ps' ex' im' de' fp'].
  simpl. intros -> ->. reflexivity.
Qed.

(** C2.  Scenario A.  For a component of any name with a required string
    prop label, a required handler onClick without arguments and an optional
    boolean prop disabled, the battery has seven cases, and the generated
    text shows: the basic render case with both required props bound; the
    case that sets disabled and asserts the class; the case that clicks and
    asserts that the mock handler was called once; the case that clicks
    while disabled and asserts that it was not called; the accessibility
    case that asserts that the element is disabled.  Without the prop
    disabled the last case is not generated. *)
Theorem scenario_A (name : string) (ex : list string) (im : list ImportInfo.t)
        (de : bool) (fp filePath : string) :
  let a := scenarioA name ex im de fp in
  let out := generate inheritedText a filePath in
  let shown line := includes out line = true in
  generateTestCases inheritedText a =
    [ createBasicRenderTest a;
      stringPropTest inheritedText labelProp a;
      booleanPropTest inheritedText disabledProp a;
      onClickTest inheritedText a;
      onClickDisabledTest inheritedText a;
      keyboardTest inheritedText a;
      ariaDisabledTest inheritedText a ]
  (* the basic render case, with both required props bound *)
  /\ shown ("    it(" ++ q ("should render " ++ name ++ " component") ++ ", () => {")
  /\ shown ("        render(<" ++ name ++ " label=" ++ q "Test Label"
              ++ " onClick={() => {}} />);")
  (* the toggle of the boolean prop and its class assertion *)
  /\ shown ("    it(" ++ q "should handle disabled prop" ++ ", () => {")
  /\ shown ("        render(<" ++ name ++ " {...requiredProps} disabled />);")
  /\ shown ("        expect(element).toHaveClass(" ++ q "disabled" ++ ");")
  (* the handler is called once *)
  /\ shown ("    it(" ++ q "should call onClick handler when clicked" ++ ", () => {")
  /\ shown "        const handleClick = jest.fn();"
  /\ shown ("        render(<" ++ name ++ " {...requiredProps} onClick={handleClick} />);")
  /\ shown "        fireEvent.click(element);"
  /\ shown "        expect(handleClick).toHaveBeenCalledTimes(1);"
  (* the handler is not called while disabled *)
  /\ shown ("    it(" ++ q "should not call onClick when disabled" ++ ", () => {")
  /\ shown ("        render(<" ++ name
              ++ " {...requiredProps} onClick={handleClick} disabled />);")
  /\ shown "        expect(handleClick).not.toHaveBeenCalled();"
  (* the accessibility case of the disabled prop *)
  /\ shown ("    it(" ++ q "should have correct aria-disabled when disabled"
              ++ ", () => {")
  /\ shown "        expect(element).toBeDisabled();"
  (* which is there because of the disabled prop *)
  /\ createAccessibilityTests inheritedText (scenarioAEnabled name ex im de fp)
     = [ keyboardTest inheritedText (scenarioAEnabled name ex im de fp) ].
Proof.
  intros a out shown.
  assert (H : generateTestCases inheritedText a =
    [ createBasicRenderTest a;
      stringPropTest inheritedText labelProp a;
      booleanPropTest inheritedText disabledProp a;
      onClickTest inheritedText a;
      onClickDisabledTest inheritedText a;
      keyboardTest inheritedText a;
      ariaDisabledTest inheritedText a ]) by reflexivity.
  split; [exact H |]. unfold shown, out.
  split; [case_line (createBasicRenderTest a) |].
  split; [case_line (createBasicRenderTest a) |].
  split; [case_line (booleanPropTest inheritedText disabledProp a) |].
  split; [case_line (booleanPropTest inheritedText disabledProp a) |].
  split; [case_line (booleanPropTest inheritedText disabledProp a) |].
  split; [case_line (onClickTest inheritedText a) |].
  split; [case_line (onClickTest inheritedText a) |].
  split; [case_line (onClickTest inheritedText a) |].
  split; [case_line (onClickTest inheritedText a) |].
  split; [case_line (onClickTest inheritedText a) |].
  split; [case_line (onClickDisabledTest inheritedText a) |].
  split; [case_line (onClickDisabledTest inheritedText a) |].
  split; [case_line (onClickDisabledTest inheritedText a) |].
  split; [case_line (ariaDisabledTest inheritedText a) |].
  split; [case_line (ariaDisabledTest inheritedText a) |].
  reflexivity.
Qed.


(** C4, as amended.  The invocation case is generated for the props named
    onClick and for no other prop.  For a prop of the model with this name
    the cases of the event are the invocation case, followed by the case of
    the disabled component when the model has a prop disabled; the
    invocation case is in the battery, and the generated text shows that it
    installs a mock handler, clicks and asserts one call.  For a prop of any
    other name, whatever its type, no case of the event is generated. *)
Theorem onClick_invocation_case (a : t) (p : PropDefinition.t) (filePath : string) :
  In p (props a) ->
  let out := generate inheritedText a filePath in
  let shown line := includes out line = true in
  (PropDefinition.name p = "onClick" ->
     createEventTests inheritedText p a =
       onClickTest inheritedText a
         :: (if hasProp a "disabled" then [onClickDisabledTest inheritedText a] else [])
     /\ In (onClickTest inheritedText a) (generateTestCases inheritedText a)
     /\ shown ("    it(" ++ q "should call onClick handler when clicked" ++ ", () => {")
     /\ shown "        const handleClick = jest.fn();"
     /\ shown ("        render(<" ++ componentName a
                 ++ " {...requiredProps} onClick={handleClick} />);")
     /\ shown "        fireEvent.click(element);"
     /\ shown "        expect(handleClick).toHaveBeenCalledTimes(1);")
  /\ (PropDefinition.name p <> "onClick" -> createEventTests inheritedText p a = []).
Proof.
  intros Hp out shown. split.
  - intros Hn.
    assert (E : createEventTests inheritedText p a =
       onClickTest inheritedText a
         :: (if hasProp a "disabled" then [onClickDisabledTest inheritedText a] else [])).
    { unfold createEventTests. rewrite Hn. cbn [String.eqb Ascii.eqb Bool.eqb].
      now destruct (hasProp a "disabled"). }
    assert (I : In (onClickTest inheritedText a) (generateTestCases inheritedText a)).
    { rewrite generateTestCases_eq. right. apply in_or_app. right.
      apply in_or_app. left. apply in_flat_map. exists p. split.
      - apply filter_In. split; [exact Hp |]. unfold isEventProp. now rewrite Hn.
      - rewrite E. now left. }
    split; [exact E |]. split; [exact I |]. unfold shown, out.
    repeat split;
      (eapply (generate_includes_line _ _ (onClickTest inheritedText a));
       [ exact I | reflexivity | cbn; auto 20 ]).
  - intros Hn. unfold createEventTests.
    now destruct (String.eqb_spec (PropDefinition.name p) "onClick").
Qed.

(** C10.  For every model the generated text starts with the four lines of
    imports, the last of which is the named import of the component from the
    path of its file; the first case of the battery is the basic render
    case and the keyboard case is in the battery; the text includes both.
    For the model without a name and without props the text is the one
    given. *)
Theorem generate_unconditional_parts (a : t) (filePath : string) :
  let out := generate inheritedText a filePath in
  let shown line := includes out line = true in
  startsWith out
    (lines
       [ "import React from " ++ q "react" ++ ";";
         "import { render, screen, fireEvent } from " ++ q "@testing-library/react" ++ ";";
         "import " ++ q "@testing-library/jest-dom" ++ ";";
         "import { " ++ componentName a ++ " } from " ++ q (getImportPath filePath) ++ ";" ])
  = true
  /\ hd_error (generateTestCases inheritedText a) = Some (createBasicRenderTest a)
  /\ In (keyboardTest inheritedText a) (generateTestCases inheritedText a)
  /\ shown (TestCase.code (createBasicRenderTest a))
  /\ shown (TestCase.code (keyboardTest inheritedText a))
  /\ shown ("    it(" ++ q ("should render " ++ componentName a ++ " component")
              ++ ", () => {")
  /\ shown ("    it(" ++ q "should be accessible via keyboard" ++ ", () => {")
  /\ shown ("        expect(element).not.toHaveAttribute(" ++ q "tabIndex" ++ ", "
              ++ q "-1" ++ ");")
  /\ generate inheritedText emptyModel EmptyString =
       lines
         [ "import React from " ++ q "react" ++ ";";
           "import { render, screen, fireEvent } from "
             ++ q "@testing-library/react" ++ ";";
           "import " ++ q "@testing-library/jest-dom" ++ ";";
           "import {  } from " ++ q "../" ++ ";";
           "";
           "/**";
           " * Test suite for the  component.";
           " */";
           "describe(" ++ q " Component" ++ ", () => {";
           "    it(" ++ q "should render  component" ++ ", () => {";
           "        render(<  />);";
           "        ";
           "        expect(screen.getByRole(" ++ q "button" ++ ")).toBeInTheDocument();";
           "    });";
           "";
           "    it(" ++ q "should be accessible via keyboard" ++ ", () => {";
           "        const requiredProps = {};";
           "        ";
           "        render(< {...requiredProps} />);";
           "        ";
           "        const element = screen.getByRole(" ++ q "button" ++ ");";
           "        expect(element).not.toHaveAttribute(" ++ q "tabIndex" ++ ", "
             ++ q "-1" ++ ");";
           "    });";
           "});";
           "" ].
Proof.
  intros out shown.
  assert (B : In (createBasicRenderTest a) (generateTestCases inheritedText a))
    by (rewrite generateTestCases_eq; now left).
  assert (K : In (keyboardTest inheritedText a) (generateTestCases inheritedText a)).
  { rewrite generateTestCases_eq. right. do 3 (apply in_or_app; right).
    unfold createAccessibilityTests. destruct (hasProp a "disabled"); now left. }
  split; [apply generate_starts_with_imports |].
  split; [now rewrite generateTestCases_eq |].
  split; [exact K |]. unfold shown, out.
  split; [now apply generate_includes_case |].
  split; [now apply generate_includes_case |].
  split; [eapply (generate_includes_line _ _ (createBasicRenderTest a));
          [exact B | reflexivity | cbn; auto 20] |].
  split; [eapply (generate_includes_line _ _ (keyboardTest inheritedText a));
          [exact K | reflexivity | cbn; auto 20] |].
  split; [eapply (generate_includes_line _ _ (keyboardTest inheritedText a));
          [exact K | reflexivity | cbn; auto 20] |].
  reflexivity.
Qed.

End GeneratorFacts.

(** Two models of scenario A that differ in the fields that the synthesizer
    does not read. *)
Lemma generate_pure_witness :
  TestGenerator.generate plainHost
    (scenarioA "Button" ["Button"] [] true "src/components/Button.tsx") "src/Button.tsx"
  = TestGenerator.generate plainHost
      (scenarioA "Button" [] [] false "src/Button.tsx") "src/Button.tsx".
Proof. apply generate_pure; reflexivity. Defined.



(** The handler of scenario A. *)
Lemma onClick_invocation_case_witness :
  TestGenerator.createEventTests plainHost onClickProp
    (scenarioA "Button" [] [] false "src/Button.tsx")
  = [ TestGenerator.onClickTest plainHost (scenarioA "Button" [] [] false "src/Button.tsx");
      TestGenerator.onClickDisabledTest plainHost
        (scenarioA "Button" [] [] false "src/Button.tsx") ].
Proof.
  refine (proj1 (proj1 (onClick_invocation_case plainHost
            (scenarioA "Button" [] [] false "src/Button.tsx") onClickProp
            "src/Button.tsx" _) _)).
  - simpl. auto.
  - reflexivity.
Defined.

(** C4, as the claim states it, fails: the submit handler of a form has a
    name that starts with on and the type of a callback without arguments,
    so it is among the event props, but no case is generated for it: the
    battery has the render case and the keyboard case only, and the text has
    no mock handler and no assertion on a number of calls. *)
Lemma event_prop_without_invocation_case :
  TestGenerator.isEventProp onSubmitProp = true
  /\ startsWith (PropDefinition.name onSubmitProp) "on" = true
  /\ includes (PropDefinition.type onSubmitProp) TestGenerator.callbackType = true
  /\ TestGenerator.createEventTests plainHost onSubmitProp formModel = []
  /\ map TestCase.name (TestGenerator.generateTestCases plainHost formModel)
     = [ "should render Form component"; "should be accessible via keyboard" ]
  /\ includes (TestGenerator.generate plainHost formModel "src/Form.tsx") "jest.fn()"
     = false
  /\ includes (TestGenerator.generate plainHost formModel "src/Form.tsx")
       "toHaveBeenCalledTimes(1)" = false.
Proof. repeat split; vm_compute; reflexivity. Qed.

(** * The analyzer *)

Section AnalyzerFacts.
Import ComponentAnalyzer ComponentAnalysis Traversal.

(** Induction on trees, with the hypothesis for every child. *)
Lemma Node_induction (P : Node -> Prop) :
  (forall k cs, Forall P cs -> P (MkNode k cs)) -> forall n, P n.
Proof.
  intros H. fix IH 1. intros [k cs]. apply H.
  induction cs as [|c cs IHcs]; constructor; [apply IH | exact IHcs].
Qed.

Lemma visitAll_app l1 l2 a : visitAll (l1 ++ l2) a = visitAll l2 (visitAll l1 a).
Proof. apply fold_left_app. Qed.

(** The traversal handles the nodes one by one in pre-order. *)
Lemma visit_preorder (n : Node) :
  forall parent a, visit parent n a = visitAll (preorder parent n) a.
Proof.
  induction n as [k cs IH] using Node_induction. intros parent a.
  cbn [visit preorder]. unfold visitAll at 1. cbn [fold_left fst snd].
  generalize (visitNode parent k a). clear a.
  induction IH as [|c cs Hc _ IHcs]; intros a; [reflexivity |].
  cbn [fold_left flat_map]. rewrite Hc, IHcs.
  fold (visitAll (preorder k c ++ flat_map (preorder k) cs) a).
  now rewrite visitAll_app.
Qed.

Lemma search_upperStart_later (s : string) (p : nat) :
  search upperStartRegex (S p) s = None.
Proof.
  revert p; induction s as [|c s IH]; intros p; [reflexivity |].
  cbn [search]. cbn. apply IH.
Qed.

Lemma class_upper (c : ascii) :
  class_matches false [CRange "A" "Z"] c = is_upper c.
Proof.
  unfold class_matches, is_upper. cbn [existsb item_matches xorb].
  rewrite orb_false_r.
  replace (nat_of_ascii "A") with 65 by reflexivity.
  replace (nat_of_ascii "Z") with 90 by reflexivity.
  now destruct (Nat.leb 65 (nat_of_ascii c) && Nat.leb (nat_of_ascii c) 90).
Qed.

(** The test of the pattern for an upper-case letter at the start. *)
Lemma test_upperStart (s : string) : test upperStartRegex s = startsUpper s.
Proof.
  unfold test. destruct s as [|c s]; [reflexivity |].
  cbn [search]. unfold upperStartRegex.
  cbn [m pos rest caps Nat.eqb step_char]. rewrite class_upper.
  cbn [startsUpper]. destruct (is_upper c); [reflexivity |].
  fold upperStartRegex. now rewrite search_upperStart_later.
Qed.

Lemma startsUpper_nonempty (s : string) : startsUpper s = true -> s <> EmptyString.
Proof. now destruct s. Qed.

Lemma add_export_name a n : componentName (add_export a n) = componentName a.
Proof. unfold add_export. now destruct (array_includes (exports a) n). Qed.

Lemma add_export_props a n : props (add_export a n) = props a.
Proof. unfold add_export. now destruct (array_includes (exports a) n). Qed.

Lemma add_export_incl a n : incl (exports a) (exports (add_export a n)).
Proof.
  unfold add_export. destruct (array_includes (exports a) n); intros x H; [exact H |].
  cbn. unfold push. apply in_or_app. now left.
Qed.

Lemma add_export_in a n : In n (exports (add_export a n)).
Proof.
  unfold add_export. destruct (array_includes (exports a) n) eqn:E.
  - unfold array_includes in E. apply existsb_exists in E as (x & Hx & Ex).
    apply String.eqb_eq in Ex. now subst.
  - cbn. unfold push. apply in_or_app. right. now left.
Qed.

Lemma analyzeMembers_spec members a :
  let a' := fold_left analyzeMember members a in
  componentName a' = componentName a
  /\ exports a' = exports a
  /\ props a' = (props a ++ flat_map memberProps members)%list.
Proof.
  revert a; induction members as [|m ms IH]; intros a; cbn [fold_left flat_map].
  - now rewrite app_nil_r.
  - destruct (IH (analyzeMember a m)) as (N & E & P). cbv zeta. rewrite N, E, P.
    destruct m; cbn; unfold push; now rewrite <- ?app_assoc, ?app_nil_r.
Qed.

(** What the handling of one node does to the name, the exports and the
    props. *)
Lemma visitNode_spec parent node a :
  let a' := visitNode parent node a in
  componentName a' = match declaredName parent node with
                     | Some n => n
                     | None => componentName a
                     end
  /\ incl (exports a) (exports a')
  /\ (forall n, declaredName parent node = Some n -> In n (exports a'))
  /\ props a' = (props a ++ contractProps node)%list.
Proof.
  assert (F : forall name,
    let a' := if negb (String.eqb name EmptyString) && test upperStartRegex name
              then add_export (set_componentName a name) name else a in
    componentName a' = match upperName name with Some n => n | None => componentName a end
    /\ incl (exports a) (exports a')
    /\ (forall n, upperName name = Some n -> In n (exports a'))
    /\ props a' = (props a ++ [])%list).
  { intros name. cbv zeta. rewrite test_upperStart. unfold upperName.
    destruct (startsUpper name) eqn:U.
    - apply startsUpper_nonempty, String.eqb_neq in U as ->. cbn [negb andb].
      rewrite add_export_name, add_export_props, app_nil_r. repeat split.
      + apply (add_export_incl (set_componentName a name)).
      + intros n [= <-]. apply add_export_in.
    - rewrite andb_false_r, app_nil_r. repeat split; [apply incl_refl | discriminate]. }
  assert (Z : componentName a = componentName a /\ incl (exports a) (exports a)
              /\ (forall n : string, None = Some n -> In n (exports a))
              /\ props a = (props a ++ [])%list).
  { rewrite app_nil_r. repeat split; [apply incl_refl | discriminate]. }
  destruct node as [spec clause | name members | name ty | [name|] | | | name init | e | ];
    cbn [visitNode declaredName contractProps]; cbv zeta.
  - (* an import *)
    unfold analyzeImport.
    destruct clause as [[[n|] [[els|ns]|]]|]; cbn; rewrite app_nil_r;
      repeat split; try apply incl_refl; discriminate.
  - (* an interface *)
    unfold analyzeInterface. destruct (endsWith name "Props"); [| exact Z].
    destruct (analyzeMembers_spec members a) as (N & E & P). rewrite N, E, P.
    repeat split; [apply incl_refl | discriminate].
  - (* a type alias *)
    unfold analyzeTypeAlias. destruct ty as [members|]; [| exact Z].
    destruct (endsWith name "Props"); [| exact Z].
    destruct (analyzeMembers_spec members a) as (N & E & P). rewrite N, E, P.
    repeat split; [apply incl_refl | discriminate].
  - (* a function declaration with a name *)
    unfold analyzeFunction. apply F.
  - (* a function declaration without a name *)
    unfold analyzeFunction.
    destruct parent as [| | | | | | [text|] i | | ]; try exact Z. apply F.
  - (* an arrow function *)
    unfold analyzeFunction.
    destruct parent as [| | | | | | [text|] i | | ]; try exact Z. apply F.
  - (* a function expression *)
    unfold analyzeFunction.
    destruct parent as [| | | | | | [text|] i | | ]; try exact Z. apply F.
  - (* a variable declaration *)
    unfold analyzeVariableDeclaration. destruct name as [name|]; [| exact Z].
    destruct init as [init|]; [| exact Z].
    specialize (F name). cbv zeta in F. rewrite test_upperStart in *.
    unfold upperName in *. destruct (startsUpper name) eqn:U.
    + apply startsUpper_nonempty, String.eqb_neq in U. rewrite U in F.
      destruct init; try exact Z; exact F.
    + destruct init; exact Z.
  - (* an export assignment *)
    unfold analyzeExportAssignment. destruct e as [| | text |]; try exact Z.
    rewrite add_export_name, add_export_props, app_nil_r.
    repeat split; [apply (add_export_incl (set_hasDefaultExport a)) | discriminate].
  - exact Z.
Qed.

Lemma declaredNames_cons p k l :
  declaredNames ((p, k) :: l) =
    match declaredName p k with
    | Some n => n :: declaredNames l
    | None => declaredNames l
    end.
Proof.
  unfold declaredNames. cbn [flat_map fst snd]. destruct (declaredName p k); reflexivity.
Qed.

Lemma visitAll_spec l : forall a,
  let a' := visitAll l a in
  componentName a' = last (declaredNames l) (componentName a)
  /\ incl (exports a) (exports a')
  /\ incl (declaredNames l) (exports a')
  /\ props a' = (props a ++ flat_map (fun pk => contractProps (snd pk)) l)%list.
Proof.
  induction l as [|[p k] l IH]; intros a; cbv zeta.
  - cbn. rewrite app_nil_r. repeat split; [apply incl_refl | intros x []].
  - unfold visitAll. cbn [fold_left fst snd].
    fold (visitAll l (visitNode p k a)).
    destruct (visitNode_spec p k a) as (N1 & E1 & D1 & P1).
    destruct (IH (visitNode p k a)) as (N2 & E2 & D2 & P2).
    cbv zeta in *. rewrite declaredNames_cons. cbn [flat_map snd].
    rewrite N2, P2, P1, N1, <- app_assoc.
    destruct (declaredName p k) as [n|].
    + rewrite last_cons. repeat split.
      * eapply incl_tran; eassumption.
      * intros x [<-|H]; [| now apply D2]. now apply E2, D1.
    + repeat split; [eapply incl_tran; eassumption | exact D2].
Qed.

Lemma analyze_spec (statements : list Node) (filePath : string) :
  let a := analyze statements filePath in
  componentName a = last (declaredNames (nodesOf statements)) EmptyString
  /\ incl (declaredNames (nodesOf statements)) (exports a)
  /\ props a = flat_map (fun pk => contractProps (snd pk)) (nodesOf statements).
Proof.
  cbv zeta. unfold analyze, nodesOf. rewrite visit_preorder.
  destruct (visitAll_spec (preorder OtherKind (MkNode OtherKind statements))
              (Build EmptyString functional [] [] [] false filePath))
    as (N & _ & D & P).
  cbv zeta in *. rewrite N, P. repeat split. exact D.
Qed.

(** C8, as amended.  The name of the model is the name declared by the last
    node, in the pre-order of the whole tree and at any depth, that declares
    one: a function declaration with a name that starts in upper case, or an
    identifier that starts in upper case and is bound to an arrow function or
    to a function expression; it is empty when no node declares one.  Every
    name declared in this way is in the exports. *)
Theorem last_declaration_wins (statements : list Node) (filePath : string) :
  let a := analyze statements filePath in
  let names := declaredNames (nodesOf statements) in
  componentName a = last names EmptyString
  /\ incl names (exports a).
Proof.
  cbv zeta. destruct (analyze_spec statements filePath) as (N & D & _). now split.
Qed.

(** C8, as the claim states it, fails: in the file with the declarations
    Alpha and Beta at the top level, where Beta has the declaration Inner in
    its body, the name of the model is Inner, and not Beta, the last of the
    declarations at the top level. *)
Lemma nested_declaration_wins :
  topLevelNames nestedDeclarations = ["Alpha"; "Beta"]
  /\ componentName (analyze nestedDeclarations "src/Alpha.tsx") = "Inner"
  /\ exports (analyze nestedDeclarations "src/Alpha.tsx") = ["Alpha"; "Beta"; "Inner"]
  /\ componentName (analyze nestedDeclarations "src/Alpha.tsx")
     <> last (topLevelNames nestedDeclarations) EmptyString.
Proof. repeat split; try (vm_compute; reflexivity). vm_compute. discriminate. Qed.

(** C9, as amended.  The props of the model are the props of the nodes of
    the tree in pre-order, appended without a check for duplicates.  A node
    has props when it is an interface, or a type alias of a type literal,
    whose name ends with Props; its props are then those of its members that
    are property signatures, one for each, in their order, with the name,
    the question mark and the text of the type (any when there is none). *)
Theorem props_in_traversal_order (statements : list Node) (filePath : string) :
  props (analyze statements filePath)
    = flat_map (fun pk => contractProps (snd pk)) (nodesOf statements)
  /\ (forall members : list TypeElement,
        length (flat_map memberProps members)
        = length (filter isPropertySignature members))
  /\ (forall name questionToken text jsDoc,
        memberProps (PropertySignature name questionToken (Some text) jsDoc)
        = [ PropDefinition.Build name text questionToken None
              (getJSDocDescription jsDoc) ]).
Proof.
  split; [apply analyze_spec |]. split; [| reflexivity].
  induction members as [|[n q ty d|] ms IH]; cbn; [reflexivity | now rewrite IH | exact IH].
Qed.

(** C9, as the claim states it, fails: the interface ButtonProps has two
    members, a property signature and a method signature, and gives one
    prop; the type alias CardProps of an intersection type gives none. *)
Lemma method_member_gives_no_prop :
  length buttonPropsMembers = 2
  /\ props (analyze contractDeclarations "src/Button.tsx")
     = [ PropDefinition.Build "label" "string" false None None ].
Proof. split; vm_compute; reflexivity. Qed.

(** The analysis of the example of the README is the model of scenario A. *)
Lemma analyze_readmeExample :
  analyze readmeExample "src/components/Button.tsx"
  = scenarioA "Button" ["Button"] [] false "src/components/Button.tsx".
Proof. reflexivity. Qed.

End AnalyzerFacts.

(** * The verifier *)

Section VerifierFacts.
Import TestGeneratorServer Runner.

Variable testFilePath : string.

(** A settled promise stays as it is. *)
Lemma resolve_settled (value r : TestResult) (st : Verifier) :
  settled st = Some r -> settled (resolve value st) = Some r.
Proof. intros H. unfold resolve. now rewrite H. Qed.

Lemma tryNextCommand_settled (r : TestResult) (st : Verifier) :
  settled st = Some r -> settled (tryNextCommand testFilePath st) = Some r.
Proof.
  intros H. unfold tryNextCommand.
  destruct (nth_error (testCommands testFilePath) (commandIndex st));
    [exact H | now apply resolve_settled].
Qed.

Lemma handle_settled (r : TestResult) (st : Verifier) (event : ChildEvent) :
  settled st = Some r -> settled (handle testFilePath st event) = Some r.
Proof.
  intros H. destruct event as [child | child code stdout stderr]; cbn [handle].
  - now apply tryNextCommand_settled.
  - unfold onClose. destruct code as [[| |]|];
      try (now apply resolve_settled);
      destruct (includes (stdout ++ stderr) "command not found"
                || includes (stdout ++ stderr) "is not recognized");
      try (now apply resolve_settled); now apply tryNextCommand_settled.
Qed.

Lemma handlers_settled (events : list ChildEvent) : forall (r : TestResult) (st : Verifier),
  settled st = Some r -> settled (fold_left (handle testFilePath) events st) = Some r.
Proof.
  induction events as [|event events IH]; intros r st H; [exact H |].
  cbn [fold_left]. apply IH. now apply handle_settled.
Qed.

(** The handler of an event that goes on to the next candidate, and the
    handler of another [close]. *)
Lemma handle_skip (st : Verifier) (event : ChildEvent) :
  isSkip event = true -> handle testFilePath st event = nextCommand testFilePath st.
Proof.
  destruct event as [child | child code stdout stderr]; cbn [handle isSkip];
    [reflexivity |].
  unfold onClose. destruct code as [[| |]|]; try discriminate; now intros ->.
Qed.

Lemma handle_close (st : Verifier) (child : nat) (code : option Z) (stdout stderr : string) :
  isSkip (CloseEvent child code stdout stderr) = false ->
  handle testFilePath st (CloseEvent child code stdout stderr)
  = resolve (closeResult code stdout stderr) st.
Proof.
  cbn [handle isSkip]. unfold onClose, closeResult.
  destruct code as [[| |]|]; try reflexivity; now intros ->.
Qed.

Lemma nth_error_testCommands (i : nat) :
  i < 4 -> exists command, nth_error (testCommands testFilePath) i = Some command.
Proof.
  intros H. destruct i as [|[|[|[|i]]]]; try lia; eexists; reflexivity.
Qed.

Lemma nth_error_testCommands_none (i : nat) :
  4 <= i -> nth_error (testCommands testFilePath) i = None.
Proof. intros H. apply nth_error_None. cbn. exact H. Qed.

(** The counter counts the events that went on to the next candidate, and
    the children are the candidates up to the counter, in their order. *)
Lemma handlers_spawned (events : list ChildEvent) : forall st : Verifier,
  spawned st = firstn (S (commandIndex st)) (testCommands testFilePath) ->
  let st' := fold_left (handle testFilePath) events st in
  commandIndex st' = commandIndex st + length (filter isSkip events)
  /\ spawned st' = firstn (S (commandIndex st')) (testCommands testFilePath).
Proof.
  induction events as [|event events IH]; intros st H; cbv zeta.
  - cbn. now rewrite Nat.add_0_r.
  - cbn [fold_left filter]. destruct (isSkip event) eqn:E.
    + rewrite (handle_skip _ _ E). unfold nextCommand, tryNextCommand.
      cbn [commandIndex spawned settled].
      destruct (Nat.lt_ge_cases (S (commandIndex st)) 4) as [L|L].
      * destruct (nth_error_testCommands _ L) as (command & N). rewrite N.
        edestruct (IH (Build_Verifier (S (commandIndex st))
                         (push (spawned st) [command]) (settled st))) as (I & P).
        { cbn [commandIndex spawned]. unfold push. rewrite H.
          destruct (commandIndex st) as [|[|[|i]]]; try lia;
            cbn in N |- *; injection N as <-; reflexivity. }
        cbv zeta in I, P. cbn [commandIndex] in I. rewrite I in *. cbn [length].
        split; [lia | exact P].
      * rewrite (nth_error_testCommands_none _ L).
        edestruct (IH (resolve noRunner
                         (Build_Verifier (S (commandIndex st)) (spawned st) (settled st))))
          as (I & P).
        { unfold resolve. cbn [settled commandIndex spawned].
          destruct (settled st); cbn [commandIndex spawned]; rewrite H;
            rewrite !firstn_all2 by (cbn; lia); reflexivity. }
        cbv zeta in I, P. unfold noRunner in *.
        assert (C : forall v, commandIndex (resolve v
                      (Build_Verifier (S (commandIndex st)) (spawned st) (settled st)))
                    = S (commandIndex st)).
        { intros v. unfold resolve. cbn [settled]. now destruct (settled st). }
        rewrite C in I. rewrite I in *. cbn [length]. split; [lia | exact P].
    + assert (Q : commandIndex (handle testFilePath st event) = commandIndex st
                  /\ spawned (handle testFilePath st event) = spawned st).
      { destruct event as [child | child code stdout stderr]; [discriminate E |].
        rewrite (handle_close _ _ _ _ _ E). unfold resolve. now destruct (settled st). }
      destruct Q as (Q1 & Q2).
      edestruct (IH (handle testFilePath st event)) as (I & P).
      { now rewrite Q1, Q2. }
      cbv zeta in I, P. rewrite Q1 in I. split; [exact I | exact P].
Qed.

(** The value of the promise, from a state in which it is pending and
    [left] candidates are left, the running one included. *)
Lemma handlers_decision (events : list ChildEvent) : forall (st : Verifier) (left : nat),
  settled st = None ->
  commandIndex st + left = 4 ->
  0 < left ->
  settled (fold_left (handle testFilePath) events st) = decision left events.
Proof.
  induction events as [|event events IH]; intros st left P I L.
  - destruct left; [lia | exact P].
  - destruct left as [|left]; [lia |]. cbn [fold_left decision].
    destruct (isSkip event) eqn:E.
    + rewrite (handle_skip _ _ E). unfold nextCommand, tryNextCommand.
      cbn [commandIndex spawned settled]. destruct left as [|left].
      * rewrite nth_error_testCommands_none by lia.
        apply handlers_settled. unfold resolve. cbn [settled]. now rewrite P.
      * destruct (nth_error_testCommands (S (commandIndex st))) as (command & N); [lia |].
        rewrite N. apply IH; cbn [settled commandIndex]; [exact P | lia | lia].
    + destruct event as [child | child code stdout stderr]; [discriminate E |].
      rewrite (handle_close _ _ _ _ _ E). apply handlers_settled.
      unfold resolve. now rewrite P.
Qed.

Lemma runTests_start :
  tryNextCommand testFilePath (Build_Verifier 0 [] None)
  = Build_Verifier 0 [ ["npx"; "jest"; testFilePath; "--no-coverage"; "--verbose"] ] None.
Proof. reflexivity. Qed.

Lemma runTests_decision (events : list ChildEvent) :
  settled (runTests testFilePath events) = decision 4 events.
Proof.
  unfold runTests. rewrite runTests_start. apply handlers_decision; cbn; [reflexivity | lia | lia].
Qed.

End VerifierFacts.

(** C6.  The claim is right of the candidates that start, and of the case
    in which none does; the code misses it after a candidate that does not
    start.  On a system without npx, where the tests run by npm pass, the
    first child does not start: the handler of its [error] spawns npm, as
    the comment of line 534 says, but the handler of its [close], which the
    runtime emits for it as well, finds a code that is not zero and no
    complaint of a shell in the empty output, and resolves the promise with
    a failure without diagnostics (lines 524-529).  The exit of npm with
    the code zero comes after that and changes nothing.  Without the
    [close] event of the failed child the same events give the success of
    npm with its output.  When none of the four commands starts the result
    is the failure with the fixed message. *)
Theorem failed_start_settles_the_promise :
  let runTests := TestGeneratorServer.runTests "src/__tests__/Button.test.tsx" in
  TestGeneratorServer.spawned (runTests Runner.npxMissing)
  = [ ["npx"; "jest"; "src/__tests__/Button.test.tsx"; "--no-coverage"; "--verbose"];
      ["npm"; "test"; "--"; "src/__tests__/Button.test.tsx"] ]
  /\ TestGeneratorServer.settled (runTests Runner.npxMissing)
     = Some (TestGeneratorServer.Build_TestResult false EmptyString EmptyString)
  /\ TestGeneratorServer.settled (runTests Runner.npxMissingWithoutClose)
     = Some (TestGeneratorServer.Build_TestResult true EmptyString Runner.passed)
  /\ TestGeneratorServer.settled (runTests Runner.nothingStarts)
     = Some (TestGeneratorServer.Build_TestResult false
               TestGeneratorServer.noRunnerMessage EmptyString).
Proof. cbv zeta. repeat split; reflexivity. Qed.

(** * The loop *)

Section OrchestratorFacts.
Import TestGeneratorServer Loop.

Variable runTests : nat -> string -> TestResult.
Variable fixTestErrors : string -> string -> string.
Variable testFilePath : string.

Lemma passes_app codes codes' :
  passes testFilePath (codes ++ codes')
  = (passes testFilePath codes ++ passes testFilePath codes')%list.
Proof. apply flat_map_app. Qed.

Lemma repaired_snoc (l : list string) : forall (i : nat) (code next : string),
  repaired runTests fixTestErrors i (l ++ [code]) ->
  success (runTests (i + length l) code) = false ->
  next = fixTestErrors code (errors (runTests (i + length l) code)) ->
  next <> code ->
  repaired runTests fixTestErrors i (l ++ [code; next]).
Proof.
  induction l as [|x l IH]; intros i code next R F E D.
  - cbn in *. rewrite Nat.add_0_r in *. auto.
  - cbn [length] in F, E.
    replace (i + S (length l)) with (S i + length l) in F, E by lia.
    destruct l as [|y l].
    + cbn in R, F, E |- *. rewrite Nat.add_0_r in F, E.
      destruct R as (R1 & R2 & R3 & _). auto 10.
    + cbn [app repaired] in R |- *. destruct R as (R1 & R2 & R3 & R4).
      repeat split; try assumption. now apply (IH (S i)).
Qed.

(** From a state in which the tests have not passed and the counter is one
    more than the number of passes so far, the loop ends when the fuel covers
    the passes that the bound still allows and the last test of the
    condition. *)
Lemma while_ends (fuel : nat) : forall (st : LoopState) (codes : list string),
  allTestsPassed st = false ->
  effects st = passes testFilePath codes ->
  iteration st = S (length codes) ->
  length codes <= maxIterations ->
  repaired runTests fixTestErrors 1 (codes ++ [testCode st]) ->
  maxIterations < fuel + length codes ->
  exists st' broke codes',
    while runTests fixTestErrors testFilePath fuel st = Some (st', broke)
    /\ ended runTests fixTestErrors testFilePath st' broke (codes ++ codes')
    /\ hd_error (codes ++ codes') = hd_error (codes ++ [testCode st]).
Proof.
  unfold maxIterations.
  induction fuel as [|fuel IH]; intros st codes P E I L Rep F; [lia |].
  cbn [while]. unfold loopCondition. rewrite P. cbn [negb andb].
  unfold maxIterations.
  destruct (Nat.leb (iteration st) 5) eqn:C.
  - apply Nat.leb_le in C. unfold loopBody.
    set (r := runTests (iteration st) (testCode st)).
    assert (E' : push (push (effects st) [WriteFile testFilePath (testCode st)])
                   [RunTests testFilePath]
                 = passes testFilePath (codes ++ [testCode st])).
    { unfold push. rewrite passes_app, E, <- app_assoc. reflexivity. }
    assert (N : length (codes ++ [testCode st]) = iteration st)
      by (rewrite length_app; cbn; lia).
    destruct (success r) eqn:R.
    + (* the tests pass: the next test of the condition ends the loop *)
      destruct fuel as [|fuel]; [lia |].
      eexists _, false, [testCode st]. split; [reflexivity |]. split; [| reflexivity].
      unfold ended, terminal. cbn [allTestsPassed effects iteration testCode finalResult].
      rewrite N, last_last. unfold maxIterations. repeat split; try assumption; lia.
    + destruct (String.eqb_spec (fixTestErrors (testCode st) (errors r)) (testCode st))
        as [Q|Q].
      * (* the repair changes nothing *)
        eexists _, true, [testCode st]. split; [reflexivity |]. split; [| reflexivity].
        unfold ended, terminal. cbn [allTestsPassed effects iteration testCode finalResult].
        rewrite P, N, last_last. unfold maxIterations.
        repeat split; try assumption; lia.
      * (* the repair is adopted *)
        set (st1 := Build_LoopState _ _ _ _ _).
        assert (Rep1 : repaired runTests fixTestErrors 1
                         ((codes ++ [testCode st]) ++ [testCode st1])).
        { rewrite <- app_assoc. cbn [app]. subst st1. cbn [testCode].
          apply repaired_snoc; try assumption;
            replace (1 + length codes) with (iteration st) by lia;
            [exact R | reflexivity]. }
        destruct (IH st1 (codes ++ [testCode st])%list)
          as (st' & broke & codes' & W & En & _);
          try (subst st1; cbn [allTestsPassed effects iteration testCode]; rewrite ?N;
               assumption || lia).
        exists st', broke, (testCode st :: codes'). rewrite W. split; [reflexivity |].
        rewrite <- app_assoc in En. cbn [app] in En. split; [exact En |].
        destruct codes; reflexivity.
  - (* the bound is exceeded *)
    apply Nat.leb_gt in C. exists st, false, []. split; [reflexivity |].
    rewrite app_nil_r. split.
    + unfold ended, terminal. rewrite P. unfold maxIterations.
      repeat split; try assumption; lia.
    + destruct codes; [cbn in *; lia | reflexivity].
Qed.

Lemma while_more_fuel (fuel : nat) : forall st r,
  while runTests fixTestErrors testFilePath fuel st = Some r ->
  while runTests fixTestErrors testFilePath (S fuel) st = Some r.
Proof.
  induction fuel as [|fuel IH]; intros st r H; [discriminate |].
  cbn [while] in H |- *.
  destruct (loopCondition st); [| exact H].
  destruct (loopBody runTests fixTestErrors testFilePath st) as [st' [|]]; [exact H |].
  apply IH in H. exact H.
Qed.

Lemma while_enough_fuel (fuel fuel' : nat) st r :
  fuel <= fuel' ->
  while runTests fixTestErrors testFilePath fuel st = Some r ->
  while runTests fixTestErrors testFilePath fuel' st = Some r.
Proof.
  induction 1 as [|fuel' _ IH]; intros H; [exact H |]. now apply while_more_fuel, IH.
Qed.

(** What one pass does, by the answer of the verifier and of the repairer. *)
Lemma loopBody_cases (st : LoopState) :
  let r := runTests (iteration st) (testCode st) in
  let fixedCode := fixTestErrors (testCode st) (errors r) in
  let st' := fst (loopBody runTests fixTestErrors testFilePath st) in
  let broke := snd (loopBody runTests fixTestErrors testFilePath st) in
  (success r = true /\ broke = false /\ allTestsPassed st' = true
     /\ testCode st' = testCode st /\ iteration st' = iteration st)
  \/ (success r = false /\ fixedCode = testCode st /\ broke = true
      /\ testCode st' = testCode st /\ iteration st' = iteration st)
  \/ (success r = false /\ fixedCode <> testCode st /\ broke = false
      /\ testCode st' = fixedCode /\ iteration st' = S (iteration st)).
Proof.
  cbv zeta. unfold loopBody.
  destruct (success (runTests (iteration st) (testCode st))); [left; cbn; auto |].
  destruct (String.eqb_spec
              (fixTestErrors (testCode st) (errors (runTests (iteration st) (testCode st))))
              (testCode st)) as [Q|Q]; right; [left | right]; cbn; auto.
Qed.

(** C5.  Whatever the verifier and the repairer answer, the loop ends: with
    any fuel above the bound of five it returns the same outcome.  The counter
    starts at one.  The test codes [codes] that were verified, the generated
    one first, are between one and five; the effects are a write and a run
    for each of them and one more write, of the final test code, at the end.
    Each of them but the last failed its verification and was repaired into
    the next, a different one.  The outcome is PASSED, when the last
    verification succeeded; STALLED, when it failed and the repair returned
    its input; or EXHAUSTED, when five verifications failed, the fifth repair
    gave the final test code and the counter is six.  A pass either succeeds, or
    fails and stalls with the same test code and counter and a break, or
    fails and goes on with another test code and the next counter. *)
Theorem generateTests_reaches_terminal_state (generated : string) :
  exists (out : Outcome) (codes : list string),
    let st := final out in
    let n := length codes in
    (forall fuel, maxIterations < fuel ->
       generateTestsLoop runTests fixTestErrors testFilePath fuel generated = Some out)
    /\ iteration (initialState generated) = 1
    /\ hd_error codes = Some generated
    /\ 1 <= n <= maxIterations
    /\ effects st
       = (passes testFilePath codes ++ [WriteFile testFilePath (testCode st)])%list
    /\ match state out with
       | PASSED =>
           allTestsPassed st = true /\ iteration st = n
           /\ last codes EmptyString = testCode st
           /\ repaired runTests fixTestErrors 1 codes
           /\ success (runTests n (testCode st)) = true
           /\ finalResult st = passedMessage n (testCode st)
       | STALLED =>
           allTestsPassed st = false /\ iteration st = n
           /\ last codes EmptyString = testCode st
           /\ repaired runTests fixTestErrors 1 codes
           /\ success (runTests n (testCode st)) = false
           /\ fixTestErrors (testCode st) (errors (runTests n (testCode st))) = testCode st
           /\ finalResult st
              = stalledMessage n (errors (runTests n (testCode st))) (testCode st)
       | EXHAUSTED =>
           allTestsPassed st = false /\ n = maxIterations
           /\ iteration st = S maxIterations
           /\ repaired runTests fixTestErrors 1 (codes ++ [testCode st])
           /\ finalResult st = exhaustedMessage (testCode st)
       end
    /\ (forall s : LoopState,
          let r := runTests (iteration s) (testCode s) in
          let fixedCode := fixTestErrors (testCode s) (errors r) in
          let s' := fst (loopBody runTests fixTestErrors testFilePath s) in
          let broke := snd (loopBody runTests fixTestErrors testFilePath s) in
          (success r = true /\ broke = false /\ allTestsPassed s' = true
             /\ testCode s' = testCode s /\ iteration s' = iteration s)
          \/ (success r = false /\ fixedCode = testCode s /\ broke = true
              /\ testCode s' = testCode s /\ iteration s' = iteration s)
          \/ (success r = false /\ fixedCode <> testCode s /\ broke = false
              /\ testCode s' = fixedCode /\ iteration s' = S (iteration s))).
Proof.
  destruct (while_ends (S maxIterations) (initialState generated) [])
    as (st & broke & codes & W & (E & B & T) & H);
    try reflexivity; try (cbn; unfold maxIterations; lia).
  cbn [app] in *.
  eexists (Build_Outcome _ (terminal st broke) _), codes. cbv zeta.
  split; [| split; [reflexivity | split; [exact H | split; [exact B |
    split; [| split; [| exact loopBody_cases]]]]]].
  - intros fuel F. unfold generateTestsLoop.
    rewrite (while_enough_fuel (S maxIterations) fuel _ _ F W). reflexivity.
  - cbn [final effects testCode]. unfold push. now rewrite E.
  - cbn [final state allTestsPassed iteration testCode finalResult].
    unfold terminal in *. destruct (allTestsPassed st).
    + exact T.
    + destruct broke.
      * destruct T as (T1 & T2 & T3 & T4 & T5 & T6 & T7). cbn [negb andb].
        replace (Nat.ltb maxIterations (iteration st)) with false
          by (symmetry; apply Nat.ltb_ge; lia).
        repeat split; assumption.
      * destruct T as (T1 & T2 & T3 & T4). rewrite T3. cbn [negb andb].
        replace (Nat.ltb maxIterations (S maxIterations)) with true by reflexivity.
        repeat split; assumption.
Qed.

(** Two runs: five failed verifications with five repairs exhaust the bound,
    and the sixth test code is written without a verification; a success in
    the second pass ends the loop with the test code of that pass. *)
Lemma example_runs :
  option_map (fun out => (state out, iteration (final out), testCode (final out),
                          length (effects (final out))))
    (generateTestsLoop alwaysFails addsComment "t.tsx" (S maxIterations) "x")
  = Some (EXHAUSTED, 6, "x//////////", 11)
  /\ option_map (fun out => (state out, iteration (final out), testCode (final out),
                             length (effects (final out))))
       (generateTestsLoop passesSecond addsComment "t.tsx" (S maxIterations) "x")
     = Some (PASSED, 2, "x//", 5).
Proof. split; reflexivity. Qed.

(** Scenario C.  When no command starts, the verifier answers with the
    message that no runner was found; a repairer that returns its input on
    this message, as [fixTestErrors] does, makes the loop stall in its first
    pass, and the response has the generated test code. *)
Lemma scenario_C (generated : string) :
  (forall code, fixTestErrors code noRunnerMessage = code) ->
  (forall i code,
      Some (runTests i code)
      = settled (TestGeneratorServer.runTests testFilePath Runner.nothingStarts)) ->
  exists out,
    generateTestsLoop runTests fixTestErrors testFilePath (S maxIterations) generated
      = Some out
    /\ state out = STALLED
    /\ testCode (final out) = generated
    /\ effects (final out)
       = [ WriteFile testFilePath generated; RunTests testFilePath;
           WriteFile testFilePath generated ]
    /\ text out
       = folderSign ++ " Test file generated at: " ++ testFilePath ++ nl ++ nl
           ++ stalledMessage 1 noRunnerMessage generated.
Proof.
  intros Fix Run. unfold generateTestsLoop. cbn [while initialState].
  unfold loopCondition, loopBody.
  cbn [allTestsPassed iteration testCode finalResult effects negb andb Nat.leb maxIterations].
  assert (Run' : forall i code,
             runTests i code = Build_TestResult false noRunnerMessage EmptyString).
  { intros i code. specialize (Run i code). now injection Run. }
  rewrite Run'.
  cbn [success errors]. rewrite Fix, String.eqb_refl.
  eexists. split; [reflexivity |]. cbn. repeat split.
Qed.

End OrchestratorFacts.

(** * The repairer *)

Section RepairerFacts.
Import TestGeneratorServer Repair.

Lemma fixTestErrors_configuration testCode errors analysis filePath :
  configurationErrors errors = true ->
  fixTestErrors testCode errors analysis filePath = Some testCode.
Proof.
  unfold configurationErrors, fixTestErrors. intros H.
  destruct (includes errors ("Unknown option " ++ q "moduleNameMapping")
            || includes errors "jest-environment-jsdom cannot be found");
    [reflexivity |].
  cbn [orb] in H. now rewrite H.
Qed.

Lemma fixTestErrors_no_rule testCode errors analysis filePath :
  firesNoRule errors = true ->
  fixTestErrors testCode errors analysis filePath = Some testCode.
Proof.
  unfold firesNoRule, ruleConditions. cbn [forallb]. rewrite !andb_true_iff, !negb_true_iff.
  intros (R1 & R2 & R3 & R4 & R5 & R6 & R7 & R8 & R9 & R10 & _).
  unfold fixTestErrors.
  destruct (includes errors ("Unknown option " ++ q "moduleNameMapping")
            || includes errors "jest-environment-jsdom cannot be found");
    [reflexivity |].
  destruct (includes errors "--jsx" && includes errors "is not set"); [reflexivity |].
  unfold fixMissingImports, fixExportNotFound, fixRoleNotFound, fixMissingProps,
    fixClassExpectations.
  now rewrite R1, R2, R3, R4, R5, R6, R7, R8, R9, R10.
Qed.

(** Where the repair is the identity: for diagnostics of a configuration
    problem, and for diagnostics that meet the condition of no rewrite rule,
    the repair returns the test code as it is, so a second repair with the
    same diagnostics returns what the first one did. *)
Theorem fixTestErrors_idempotent_without_rewrite testCode errors analysis filePath :
  configurationErrors errors = true \/ firesNoRule errors = true ->
  fixTestErrors testCode errors analysis filePath = Some testCode
  /\ repairTwice testCode errors analysis filePath
     = fixTestErrors testCode errors analysis filePath.
Proof.
  intros H.
  assert (E : forall code, fixTestErrors code errors analysis filePath = Some code).
  { intros code. destruct H as [H|H];
      [now apply fixTestErrors_configuration | now apply fixTestErrors_no_rule]. }
  unfold repairTwice. now rewrite !E.
Qed.

(** The diagnostics of the verifier without a runner fire no rule. *)
Lemma fixTestErrors_idempotent_without_rewrite_witness :
  fixTestErrors "render(<Button />);" noRunnerMessage buttonModel "src/Button.tsx"
    = Some "render(<Button />);"
  /\ repairTwice "render(<Button />);" noRunnerMessage buttonModel "src/Button.tsx"
     = fixTestErrors "render(<Button />);" noRunnerMessage buttonModel "src/Button.tsx".
Proof.
  apply fixTestErrors_idempotent_without_rewrite. right. reflexivity.
Defined.

(** Two rules that do not reach a fixed point in one repair.  For the
    diagnostics of a missing prop title and a render call with a handler,
    the group of the pattern for the props is the equals sign in front of
    the arrow, so the first repair puts the prop after the first equals sign
    of the text and the second repair puts it there once more.  For the
    diagnostics of a value of the wrong type, the first repair of the nested
    quotes leaves a value in both kinds of quotes, which the second repair
    rewrites. *)
Lemma repair_not_idempotent :
  fixTestErrors renderWithHandler titleMissing buttonModel "src/Button.tsx"
    = Some ("render(<Button onClick= title=" ++ q "Test title" ++ "{() => {}} />);")
  /\ repairTwice renderWithHandler titleMissing buttonModel "src/Button.tsx"
     = Some ("render(<Button onClick= title=" ++ q "Test title" ++ " title="
               ++ q "Test title" ++ "{() => {}} />);")
  /\ repairTwice renderWithHandler titleMissing buttonModel "src/Button.tsx"
     <> fixTestErrors renderWithHandler titleMissing buttonModel "src/Button.tsx"
  /\ fixTestErrors nestedQuotes notAssignable buttonModel "src/Button.tsx"
     = Some ("=" ++ dq ++ "'a=" ++ q "b" ++ "'" ++ dq)
  /\ repairTwice nestedQuotes notAssignable buttonModel "src/Button.tsx"
     = Some ("=" ++ q ("a=" ++ q "b"))
  /\ repairTwice nestedQuotes notAssignable buttonModel "src/Button.tsx"
     <> fixTestErrors nestedQuotes notAssignable buttonModel "src/Button.tsx".
Proof.
  repeat split; try (vm_compute; reflexivity); vm_compute; discriminate.
Qed.

(** C7.  The claim is right of what the repairer attempts, and the code
    misses it in the rule for a missing prop.  The rule reads the props of
    the render call and adds the prop only if they do not include its name
    (line 635), which would make a second repair return its input.  But the
    group of the pattern (line 634) cannot cross the arrow of a handler: for
    the generated test of scenario A, whose render call binds the handler
    onClick, the props read are the equals sign in front of the arrow, the
    check passes, and the prop is added after the first equals sign of the
    whole text, which is the one of the arrow in the head of the suite.  In
    the repaired text the props read are the same equals sign, the check
    passes again, and the second repair with the same diagnostics adds the
    prop once more: its result is not the result of the first repair.  The
    same happens with the render call alone. *)
Theorem missing_prop_added_twice :
  existingProps buttonTest = Some "="
  /\ includes "=" "title" = false
  /\ (exists once twice,
        fixTestErrors buttonTest titleMissing buttonA "src/Button.tsx" = Some once
        /\ includes once
             ("describe(" ++ q "Button Component" ++ ", () = title=" ++ q "Test title"
                ++ "> {") = true
        /\ existingProps once = Some "="
        /\ repairTwice buttonTest titleMissing buttonA "src/Button.tsx" = Some twice
        /\ includes twice
             ("describe(" ++ q "Button Component" ++ ", () = title=" ++ q "Test title"
                ++ " title=" ++ q "Test title" ++ "> {") = true
        /\ twice <> once)
  /\ existingProps renderWithHandler = Some "="
  /\ fixTestErrors renderWithHandler titleMissing buttonModel "src/Button.tsx"
     = Some ("render(<Button onClick= title=" ++ q "Test title" ++ "{() => {}} />);")
  /\ repairTwice renderWithHandler titleMissing buttonModel "src/Button.tsx"
     = Some ("render(<Button onClick= title=" ++ q "Test title" ++ " title="
               ++ q "Test title" ++ "{() => {}} />);").
Proof.
  split; [vm_compute; reflexivity |]. split; [reflexivity |]. split.
  - eexists. eexists. split; [vm_compute; reflexivity |].
    split; [vm_compute; reflexivity |]. split; [vm_compute; reflexivity |].
    split; [vm_compute; reflexivity |]. split; [vm_compute; reflexivity |].
    vm_compute. discriminate.
  - repeat split; vm_compute; reflexivity.
Qed.

End RepairerFacts.

(** * More facts about strings and arrays *)

Lemma prefix_refl (s : string) : String.prefix s s = true.
Proof. rewrite <- (append_empty_r s) at 2. apply prefix_append. Qed.

Lemma prefix_empty (s : string) : String.prefix EmptyString s = true.
Proof. now destruct s. Qed.

Lemma prefix_app_slice (a b s : string) :
  String.prefix a s = true ->
  String.prefix b (slice_from (String.length a) s) = true ->
  String.prefix (a ++ b) s = true.
Proof.
  revert s; induction a as [|c a IH]; intros s A B; [exact B |].
  destruct s as [|d s]; [discriminate A |]. cbn [String.prefix append] in *.
  destruct (ascii_dec c d); [| discriminate A]. now apply IH.
Qed.

Lemma slice_to_app (pre post : string) :
  slice_to (String.length pre) (pre ++ post) = pre.
Proof.
  induction pre as [|c pre IH]; cbn [String.length append slice_to].
  - now destruct post.
  - now rewrite IH.
Qed.

Lemma length_append (a b : string) :
  String.length (a ++ b) = String.length a + String.length b.
Proof. induction a as [|c a IH]; cbn; [reflexivity | now rewrite IH]. Qed.

Lemma countChar_app (c : ascii) (a b : string) :
  countChar c (a ++ b) = countChar c a + countChar c b.
Proof. induction a as [|x a IH]; cbn; [reflexivity | rewrite IH; lia]. Qed.

Lemma countChar_trimStart_le (c : ascii) (s : string) :
  countChar c (trimStart s) <= countChar c s.
Proof.
  induction s as [|a s IH]; [reflexivity |]. cbn [trimStart].
  destruct (is_space a); cbn [countChar]; lia.
Qed.

Lemma countChar_trimEnd_le (c : ascii) (s : string) :
  countChar c (trimEnd s) <= countChar c s.
Proof.
  induction s as [|a s IH]; [reflexivity |]. cbn [trimEnd].
  destruct (trimEnd s) as [|b t].
  - destruct (is_space a); cbn [countChar] in *; lia.
  - cbn [countChar] in *. lia.
Qed.

Lemma countChar_trim_le (c : ascii) (s : string) : countChar c (trim s) <= countChar c s.
Proof.
  unfold trim. etransitivity; [apply countChar_trimEnd_le | apply countChar_trimStart_le].
Qed.

Lemma split_nonempty (c : ascii) (s : string) : split c s <> [].
Proof.
  intros H. pose proof (split_length c s) as L. rewrite H in L. discriminate.
Qed.

Lemma split_no_separator (c : ascii) (s : string) :
  countChar c s = 0 -> split c s = [s].
Proof.
  induction s as [|a s IH]; [reflexivity |]. cbn [countChar split].
  destruct (Ascii.eqb a c); [discriminate |]. intros H. now rewrite IH.
Qed.

(** No piece of a text has the separator. *)
Lemma split_pieces (c : ascii) (s : string) :
  Forall (fun w => countChar c w = 0) (split c s).
Proof.
  induction s as [|a s IH]; [repeat constructor |]. cbn [split].
  destruct (Ascii.eqb a c) eqn:E.
  - constructor; [reflexivity | exact IH].
  - destruct (split c s) as [|w ws]; [repeat constructor; cbn; now rewrite E |].
    inversion IH as [|? ? Hw Hws]; subst. constructor; [| exact Hws].
    cbn [countChar]. now rewrite E, Hw.
Qed.

(** The pieces of a text around a separator are the pieces in front of it
    and then the pieces after it. *)
Lemma split_app_separator (c : ascii) (a b : string) :
  split c (a ++ String c b) = (split c a ++ split c b)%list.
Proof.
  induction a as [|x a IH]; cbn [append split].
  - now rewrite Ascii.eqb_refl.
  - rewrite IH. destruct (Ascii.eqb x c); [reflexivity |].
    destruct (split c a) eqn:E; [now apply split_nonempty in E | reflexivity].
Qed.

(** The pieces of a concatenation: the last piece of the first text goes on
    in the second one. *)
Lemma split_app (c : ascii) (a b : string) :
  split c (a ++ b)
  = (removelast (split c a) ++ split c (last (split c a) EmptyString ++ b))%list.
Proof.
  induction a as [|x a IH]; [reflexivity |]. cbn [append split].
  destruct (Ascii.eqb x c) eqn:E.
  - rewrite IH. destruct (split c a) as [|w ws] eqn:S; [now apply split_nonempty in S |].
    reflexivity.
  - rewrite IH. destruct (split c a) as [|w [|w' ws]] eqn:S;
      [now apply split_nonempty in S | |].
    + cbn [removelast last app append split]. rewrite E. reflexivity.
    + cbn [removelast last app]. reflexivity.
Qed.

Lemma last_app_nonempty {A : Type} (l1 l2 : list A) (d : A) :
  l2 <> [] -> last (l1 ++ l2) d = last l2 d.
Proof.
  intros H. destruct (exists_last H) as (l & x & ->).
  now rewrite app_assoc, !last_last.
Qed.

Lemma last_split_clean (c : ascii) (s : string) :
  countChar c (last (split c s) EmptyString) = 0.
Proof.
  pose proof (split_pieces c s) as F. rewrite Forall_forall in F. apply F.
  destruct (exists_last (split_nonempty c s)) as (l & x & ->).
  rewrite last_last. apply in_or_app. right. now left.
Qed.

(** Joining the pieces with the separator gives the text back. *)
Lemma join_split (c : ascii) (s : string) :
  join (String c EmptyString) (split c s) = s.
Proof.
  unfold join. induction s as [|x s IH]; [reflexivity |]. cbn [split].
  destruct (split c s) as [|w ws] eqn:S; [now apply split_nonempty in S |].
  destruct (Ascii.eqb_spec x c) as [->|N].
  - change (String.concat (String c EmptyString) (EmptyString :: w :: ws))
      with (String c (String.concat (String c EmptyString) (w :: ws))).
    now rewrite IH.
  - destruct ws as [|w' ws].
    + cbn [String.concat] in *. now rewrite IH.
    + change (String.concat (String c EmptyString) (String x w :: w' :: ws))
        with (String x (w ++ String c EmptyString
                          ++ String.concat (String c EmptyString) (w' :: ws))).
      change (String.concat (String c EmptyString) (w :: w' :: ws))
        with (w ++ String c EmptyString
                ++ String.concat (String c EmptyString) (w' :: ws)) in IH.
      now rewrite IH.
Qed.

Lemma length_flat_map_sum {A B : Type} (f : A -> list B) (l : list A) :
  length (flat_map f l) = list_sum (map (fun x => length (f x)) l).
Proof.
  induction l as [|x l IH]; [reflexivity |]. cbn [flat_map map list_sum].
  now rewrite length_app, IH.
Qed.

(** * Facts about patterns *)

(** A run of pattern characters matches the text that starts with it. *)
Lemma m_lit (a : string) : forall k p s cs,
  m (lit a) k (MState p s cs)
  = if String.prefix a s
    then k (MState (p + String.length a) (slice_from (String.length a) s) cs)
    else None.
Proof.
  induction a as [|c a IH]; intros k p s cs.
  - cbn [lit m String.length slice_from]. now rewrite prefix_empty, Nat.add_0_r.
  - cbn [lit m]. unfold step_char. cbn [rest pos caps].
    destruct s as [|d s]; [reflexivity |]. cbn [String.prefix String.length slice_from].
    destruct (Ascii.eqb_spec c d) as [->|N].
    + destruct (ascii_dec d d) as [_|F]; [| now destruct F].
      rewrite IH. now rewrite Nat.add_succ_r.
    + destruct (ascii_dec c d) as [E|_]; [now destruct N | reflexivity].
Qed.

(** A pattern that matches only where a text starts finds nothing in a text
    without it. *)
Lemma search_none (r : regex) (t : string) (s : string) : forall p,
  (forall p s, m r Some (MState p s []) <> None -> String.prefix t s = true) ->
  includes s t = false ->
  search r p s = None.
Proof.
  induction s as [|c s IH]; intros p H I; cbn [search includes] in *.
  - destruct (m r Some (MState p EmptyString [])) eqn:M; [| reflexivity].
    rewrite (H p EmptyString) in I by congruence. discriminate.
  - apply orb_false_iff in I as (I1 & I2).
    destruct (m r Some (MState p (String c s) [])) eqn:M.
    + rewrite (H p (String c s)) in I1 by congruence. discriminate.
    + now apply IH.
Qed.

Lemma replace_all_none (r : regex) (tpl s : string) :
  search r 0 s = None -> replace_all r tpl s = s.
Proof. intros H. unfold replace_all. cbn [replace_loop]. now rewrite H. Qed.

(** A replacement text without a dollar sign stands for itself. *)
Lemma substitution_plain (tpl : string) (ng : nat) (before : string) (mr : match_result) :
  countChar "$" tpl = 0 -> substitution tpl ng before mr = tpl.
Proof.
  induction tpl as [|c t IH]; [reflexivity |]. cbn [countChar substitution].
  destruct (Ascii.eqb c "$"); [discriminate |]. cbn [negb Nat.add]. intros H.
  now rewrite IH.
Qed.

(** The global replacement for a pattern that matches one character. *)
Section SingleCharacter.
Import Text.

Variable r : regex.
Variable P : ascii -> bool.
Variable capsOf : ascii -> list (nat * string).
Variable tpl : string.
Variable sub : ascii -> string.

Hypothesis m_single : forall p s,
  m r Some (MState p s []) =
    match s with
    | String c s' => if P c then Some (MState (S p) s' (capsOf c)) else None
    | EmptyString => None
    end.

Hypothesis substitution_single : forall c before p s',
  substitution tpl (ngroups r) before
    (MatchResult p (String c EmptyString) (capsOf c) s') = sub c.

Lemma search_single (s : string) : forall p,
  match search r p s with
  | None => allChars (fun c => negb (P c)) s = true
  | Some mr =>
      exists pre c s',
        s = pre ++ String c s'
        /\ allChars (fun c => negb (P c)) pre = true
        /\ P c = true
        /\ mr = MatchResult (p + String.length pre) (String c EmptyString) (capsOf c) s'
  end.
Proof.
  induction s as [|c s IH]; intros p; cbn [search]; rewrite m_single; [reflexivity |].
  destruct (P c) eqn:E.
  - exists EmptyString, c, s. cbn [pos caps rest String.length append allChars].
    rewrite Nat.add_0_r. replace (S p - p) with 1 by lia. cbn [slice_to]. auto.
  - specialize (IH (S p)). destruct (search r (S p) s) as [mr|].
    + destruct IH as (pre & d & s' & -> & Q & T & ->).
      exists (String c pre), d, s'. cbn [append allChars String.length].
      rewrite E, Q, Nat.add_succ_r. auto.
    + cbn [allChars]. now rewrite E, IH.
Qed.

Lemma replace_chars_none (s : string) :
  allChars (fun c => negb (P c)) s = true -> replace_chars P sub s = s.
Proof.
  induction s as [|c s IH]; [reflexivity |]. cbn [allChars replace_chars].
  destruct (P c); [discriminate |]. cbn [negb andb]. intros H. now rewrite IH.
Qed.

Lemma replace_chars_app (pre : string) (c : ascii) (s' : string) :
  allChars (fun c => negb (P c)) pre = true -> P c = true ->
  replace_chars P sub (pre ++ String c s') = pre ++ sub c ++ replace_chars P sub s'.
Proof.
  intros Q T. induction pre as [|d pre IH]; cbn [append replace_chars allChars] in *.
  - now rewrite T.
  - destruct (P d); [discriminate |]. now rewrite IH.
Qed.

Lemma replace_loop_single (fuel : nat) : forall s done p,
  String.length s < fuel ->
  replace_loop fuel r tpl done p s = replace_chars P sub s.
Proof.
  induction fuel as [|fuel IH]; intros s done p L; [lia |].
  cbn [replace_loop]. pose proof (search_single s p) as S.
  destruct (search r p s) as [mr|].
  - destruct S as (pre & c & s' & -> & Q & T & ->).
    cbn [index matched after String.length].
    replace (p + String.length pre - p) with (String.length pre) by lia.
    rewrite slice_to_app, substitution_single, replace_chars_app by assumption.
    rewrite IH, append_assoc; [reflexivity |].
    rewrite length_append in L. cbn [String.length] in L. lia.
  - symmetry. now apply replace_chars_none.
Qed.

Lemma replace_all_single (s : string) :
  replace_all r tpl s = replace_chars P sub s.
Proof. unfold replace_all. apply replace_loop_single. lia. Qed.

End SingleCharacter.

(** * More about the analyzer: the exports, the imports and the flags *)

Section AnalyzerFields.
Import ComponentAnalyzer ComponentAnalysis Traversal Fields.

Lemma add_export_iff a n x :
  In x (exports (add_export a n)) <-> In x (exports a) \/ x = n.
Proof.
  unfold add_export. destruct (array_includes (exports a) n) eqn:E.
  - split; [now left |]. intros [H | ->]; [exact H |].
    unfold array_includes in E. apply existsb_exists in E as (y & Hy & Ey).
    apply String.eqb_eq in Ey. now subst.
  - cbn. unfold push. rewrite in_app_iff. cbn. intuition.
Qed.

Lemma add_export_NoDup a n : NoDup (exports a) -> NoDup (exports (add_export a n)).
Proof.
  intros H. unfold add_export. destruct (array_includes (exports a) n) eqn:E; [exact H |].
  cbn. unfold push. apply NoDup_app; [exact H | repeat constructor; intros [] | ].
  intros x Hx [Q|[]]. subst x.
  assert (T : array_includes (exports a) n = true).
  { unfold array_includes. apply existsb_exists. exists n. split; [exact Hx |].
    apply String.eqb_refl. }
  congruence.
Qed.

Lemma add_export_fields a n :
  imports (add_export a n) = imports a
  /\ hasDefaultExport (add_export a n) = hasDefaultExport a
  /\ componentType (add_export a n) = componentType a
  /\ filePath (add_export a n) = filePath a.
Proof. unfold add_export. now destruct (array_includes (exports a) n). Qed.

Lemma analyzeMembers_fields members : forall a,
  let a' := fold_left analyzeMember members a in
  imports a' = imports a
  /\ hasDefaultExport a' = hasDefaultExport a
  /\ componentType a' = componentType a
  /\ filePath a' = filePath a.
Proof.
  induction members as [|m ms IH]; intros a; cbn [fold_left]; [now repeat split |].
  destruct (IH (analyzeMember a m)) as (I & H & T & F). cbv zeta. rewrite I, H, T, F.
  destruct m; now repeat split.
Qed.

(** What the handling of one node does to the exports, the imports, the
    flag of the default export, the type and the path. *)
Lemma visitNode_fields parent node a :
  let a' := visitNode parent node a in
  (forall x, In x (exports a') <-> In x (exports a) \/ In x (nodeExports parent node))
  /\ (NoDup (exports a) -> NoDup (exports a'))
  /\ imports a' = (imports a ++ nodeImports node)%list
  /\ hasDefaultExport a' = hasDefaultExport a || isSome (defaultExportName node)
  /\ (componentType a = functional -> componentType a' = functional)
  /\ filePath a' = filePath a.
Proof.
  assert (Z : (forall x, In x (exports a) <-> In x (exports a) \/ In x [])
              /\ (NoDup (exports a) -> NoDup (exports a))
              /\ imports a = (imports a ++ [])%list
              /\ hasDefaultExport a = hasDefaultExport a || false
              /\ (componentType a = functional -> componentType a = functional)
              /\ filePath a = filePath a).
  { rewrite app_nil_r, orb_false_r. repeat split; auto. intros [H|[]]; exact H. }
  assert (F : forall name,
    let a' := if negb (String.eqb name EmptyString) && test upperStartRegex name
              then add_export (set_componentName a name) name else a in
    (forall x, In x (exports a')
               <-> In x (exports a) \/ In x (optionList (upperName name) ++ []))
    /\ (NoDup (exports a) -> NoDup (exports a'))
    /\ imports a' = (imports a ++ [])%list
    /\ hasDefaultExport a' = hasDefaultExport a || false
    /\ (componentType a = functional -> componentType a' = functional)
    /\ filePath a' = filePath a).
  { intros name. cbv zeta. rewrite test_upperStart. unfold upperName.
    destruct (startsUpper name) eqn:U.
    - apply startsUpper_nonempty, String.eqb_neq in U. rewrite U. cbn [negb andb].
      destruct (add_export_fields (set_componentName a name) name) as (I1 & I2 & I3 & I4).
      rewrite I1, I2, I3, I4, !app_nil_r, orb_false_r. cbn [optionList app].
      repeat split; auto.
      all: try (intros H; apply add_export_iff in H; cbn in *; intuition).
      all: try (intros H; apply add_export_iff; cbn in *; intuition).
      all: try apply (add_export_NoDup (set_componentName a name)).
      all: cbn; now rewrite ?app_nil_r.
    - rewrite andb_false_r. exact Z. }
  destruct node as [spec clause | name members | name ty | [name|] | | | name init | e | ];
    cbn [visitNode]; unfold nodeExports;
    cbn [declaredName defaultExportName nodeImports isSome optionList app]; cbv zeta.
  - unfold analyzeImport.
    destruct clause as [[[n|] [[els|ns]|]]|]; cbn; rewrite ?orb_false_r;
      repeat split; auto; intuition.
  - unfold analyzeInterface. destruct (endsWith name "Props"); [| exact Z].
    destruct (analyzeMembers_fields members a) as (I1 & I2 & I3 & I4).
    destruct (analyzeMembers_spec members a) as (_ & E & _). cbv zeta in *.
    rewrite E, I1, I2, I3, I4. exact Z.
  - unfold analyzeTypeAlias. destruct ty as [members|]; [| exact Z].
    destruct (endsWith name "Props"); [| exact Z].
    destruct (analyzeMembers_fields members a) as (I1 & I2 & I3 & I4).
    destruct (analyzeMembers_spec members a) as (_ & E & _). cbv zeta in *.
    rewrite E, I1, I2, I3, I4. exact Z.
  - unfold analyzeFunction. apply F.
  - unfold analyzeFunction.
    destruct parent as [| | | | | | [text|] i | | ]; try exact Z. apply F.
  - unfold analyzeFunction.
    destruct parent as [| | | | | | [text|] i | | ]; try exact Z. apply F.
  - unfold analyzeFunction.
    destruct parent as [| | | | | | [text|] i | | ]; try exact Z. apply F.
  - unfold analyzeVariableDeclaration. destruct name as [name|]; [| exact Z].
    destruct init as [init|]; [| exact Z].
    specialize (F name). cbv zeta in F. rewrite test_upperStart in *.
    unfold upperName in *. destruct (startsUpper name) eqn:U.
    + apply startsUpper_nonempty, String.eqb_neq in U. rewrite U in F.
      destruct init; try exact Z; exact F.
    + destruct init; exact Z.
  - unfold analyzeExportAssignment. destruct e as [| | text |]; try exact Z.
    destruct (add_export_fields (set_hasDefaultExport a) text) as (I1 & I2 & I3 & I4).
    rewrite I1, I2, I3, I4. cbn. rewrite orb_true_r, app_nil_r.
    repeat split; auto.
    all: try (intros H; apply add_export_iff in H; cbn in *; intuition).
    all: try (intros H; apply add_export_iff; cbn in *; intuition).
    all: try apply (add_export_NoDup (set_hasDefaultExport a)).
    all: try (cbn; now rewrite ?app_nil_r).
  - exact Z.
Qed.

Lemma exportedNames_cons p k l :
  exportedNames ((p, k) :: l) = (nodeExports p k ++ exportedNames l)%list.
Proof. reflexivity. Qed.

Lemma visitAll_fields l : forall a,
  let a' := visitAll l a in
  (forall x, In x (exports a') <-> In x (exports a) \/ In x (exportedNames l))
  /\ (NoDup (exports a) -> NoDup (exports a'))
  /\ imports a' = (imports a ++ flat_map (fun pk => nodeImports (snd pk)) l)%list
  /\ hasDefaultExport a'
     = hasDefaultExport a || existsb (fun pk => isSome (defaultExportName (snd pk))) l
  /\ (componentType a = functional -> componentType a' = functional)
  /\ filePath a' = filePath a.
Proof.
  induction l as [|[p k] l IH]; intros a; cbv zeta.
  - cbn. rewrite app_nil_r, orb_false_r. repeat split; auto. intros [H|[]]; exact H.
  - unfold visitAll. cbn [fold_left fst snd]. fold (visitAll l (visitNode p k a)).
    destruct (visitNode_fields p k a) as (E1 & N1 & I1 & D1 & T1 & F1).
    destruct (IH (visitNode p k a)) as (E2 & N2 & I2 & D2 & T2 & F2).
    cbv zeta in *. rewrite exportedNames_cons. cbn [flat_map existsb snd].
    rewrite I2, I1, D2, D1, F2, F1, <- app_assoc, orb_assoc.
    repeat split; auto.
    + intros H. apply E2 in H as [H|H]; [apply E1 in H as [H|H] |];
        rewrite in_app_iff; auto.
    + intros H. apply E2. rewrite in_app_iff in H. rewrite E1. intuition.
Qed.

Lemma analyze_fields (statements : list Node) (sourcePath : string) :
  let a := analyze statements sourcePath in
  (forall x, In x (exports a) <-> In x (exportedNames (nodesOf statements)))
  /\ NoDup (exports a)
  /\ imports a = flat_map (fun pk => nodeImports (snd pk)) (nodesOf statements)
  /\ hasDefaultExport a
     = existsb (fun pk => isSome (defaultExportName (snd pk))) (nodesOf statements)
  /\ componentType a = functional
  /\ filePath a = sourcePath.
Proof.
  cbv zeta. unfold analyze, nodesOf. rewrite visit_preorder.
  destruct (visitAll_fields (preorder OtherKind (MkNode OtherKind statements))
              (Build EmptyString functional [] [] [] false sourcePath))
    as (E & N & I & D & T & F).
  cbv zeta in *. rewrite I, D, F. cbn [imports hasDefaultExport filePath app orb] in *.
  repeat split; auto.
  - intros H. apply E in H as [[]|H]. exact H.
  - intros H. apply E. now right.
  - apply N. constructor.
Qed.

Lemma declaredName_upper p k n : declaredName p k = Some n -> startsUpper n = true.
Proof.
  assert (U : forall name, upperName name = Some n -> startsUpper n = true).
  { intros name. unfold upperName. destruct (startsUpper name) eqn:E; [| discriminate].
    now intros [= <-]. }
  destruct k as [| | | [name|] | | | [name|] [[]|] | | ]; cbn; try discriminate;
    try apply U; destruct p as [| | | | | | [text|] i | | ]; try discriminate; apply U.
Qed.

Lemma declaredNames_upper l : Forall (fun n => startsUpper n = true) (declaredNames l).
Proof.
  induction l as [|[p k] l IH]; [constructor |]. rewrite declaredNames_cons.
  destruct (declaredName p k) eqn:E; [| exact IH].
  constructor; [eapply declaredName_upper, E | exact IH].
Qed.

(** X1.  The exports of the model have no name twice, and a name is in
    them exactly when a node of the tree adds it: a node that declares a
    name for the component, or a default export of an identifier. *)
Theorem exports_exact (statements : list Node) (sourcePath : string) :
  let a := analyze statements sourcePath in
  NoDup (exports a)
  /\ (forall x, In x (exports a) <-> In x (exportedNames (nodesOf statements))).
Proof.
  cbv zeta. destruct (analyze_fields statements sourcePath) as (E & N & _). now split.
Qed.

(** X2.  The imports of the model are one entry for each import declaration
    of the tree, in pre-order and with repetitions: the module, the names
    that the clause binds with the default import first, and whether there
    is a default import. *)
Theorem imports_in_traversal_order (statements : list Node) (sourcePath : string) :
  imports (analyze statements sourcePath)
  = flat_map (fun pk => nodeImports (snd pk)) (nodesOf statements).
Proof. apply analyze_fields. Qed.

(** X3.  The name of the component is empty exactly when no node declares
    one; a name that is not empty starts with an upper-case letter and is
    among the exports. *)
Theorem componentName_invariant (statements : list Node) (sourcePath : string) :
  let a := analyze statements sourcePath in
  (componentName a = EmptyString <-> declaredNames (nodesOf statements) = [])
  /\ (componentName a <> EmptyString ->
      startsUpper (componentName a) = true /\ In (componentName a) (exports a)).
Proof.
  cbv zeta. destruct (analyze_spec statements sourcePath) as (N & D & _). cbv zeta in *.
  pose proof (declaredNames_upper (nodesOf statements)) as U.
  rewrite N. destruct (declaredNames (nodesOf statements)) as [|n l] eqn:E.
  - cbn. split; [tauto | intros H; now destruct H].
  - assert (I : In (last (n :: l) EmptyString) (n :: l)).
    { destruct (exists_last (l := n :: l)) as (l' & x & Q); [discriminate |].
      rewrite Q, last_last. apply in_or_app. right. now left. }
    assert (S : startsUpper (last (n :: l) EmptyString) = true).
    { rewrite Forall_forall in U. now apply U. }
    split.
    + split; [| discriminate]. intros Q. rewrite Q in S. discriminate.
    + intros _. split; [exact S | now apply D].
Qed.

(** X4.  The model has a default export exactly when the tree has an export
    assignment of an identifier; a default export of anything else, such as
    a function declaration or a call, does not set the flag. *)
Theorem hasDefaultExport_iff (statements : list Node) (sourcePath : string) :
  hasDefaultExport (analyze statements sourcePath) = true
  <-> exists parent name,
        In (parent, ExportAssignment (IdentifierKind name)) (nodesOf statements).
Proof.
  destruct (analyze_fields statements sourcePath) as (_ & _ & _ & D & _). rewrite D.
  rewrite existsb_exists. split.
  - intros ([p k] & I & S). destruct k as [| | | | | | | [| | name |] | ]; try discriminate.
    now exists p, name.
  - intros (p & name & I). now exists (p, ExportAssignment (IdentifierKind name)).
Qed.

(** X5.  What the analyzer never does: the type of the component is
    functional for every source, the path is the one given, and no prop has
    a default value. *)
Theorem analyzer_never_sets (statements : list Node) (sourcePath : string) :
  let a := analyze statements sourcePath in
  componentType a = functional
  /\ filePath a = sourcePath
  /\ Forall (fun p => PropDefinition.defaultValue p = None) (props a).
Proof.
  cbv zeta. destruct (analyze_fields statements sourcePath) as (_ & _ & _ & _ & T & F).
  destruct (analyze_spec statements sourcePath) as (_ & _ & P). cbv zeta in *.
  repeat split; try assumption. rewrite P. apply Forall_forall. intros p H.
  apply in_flat_map in H as ([q k] & _ & H). cbn [snd] in H.
  assert (M : forall members, In p (flat_map memberProps members) ->
                              PropDefinition.defaultValue p = None).
  { intros members Hm. apply in_flat_map in Hm as (m & _ & Hm).
    destruct m; [destruct Hm as [<-|[]]; reflexivity | destruct Hm]. }
  destruct k as [| name members | name [members|] | | | | | | ]; try destruct H;
    cbn in H; destruct (endsWith name "Props"); try destruct H; eapply M; eassumption.
Qed.

End AnalyzerFields.

(** The component of the example of the README. *)
Lemma componentName_invariant_witness :
  startsUpper (ComponentAnalysis.componentName
                 (ComponentAnalyzer.analyze Traversal.readmeExample "src/Button.tsx"))
  = true
  /\ In (ComponentAnalysis.componentName
           (ComponentAnalyzer.analyze Traversal.readmeExample "src/Button.tsx"))
        (ComponentAnalysis.exports
           (ComponentAnalyzer.analyze Traversal.readmeExample "src/Button.tsx")).
Proof.
  apply (proj2 (componentName_invariant Traversal.readmeExample "src/Button.tsx")).
  discriminate.
Defined.

(** * More about the verifier *)

Section VerifierExtras.
Import TestGeneratorServer Runner.

Variable testFilePath : string.

Lemma decision_cases (events : list ChildEvent) : forall (left : nat) (r : TestResult),
  decision left events = Some r ->
  r = noRunner
  \/ exists child code stdout stderr,
       In (CloseEvent child code stdout stderr) events
       /\ isSkip (CloseEvent child code stdout stderr) = false
       /\ r = closeResult code stdout stderr.
Proof.
  induction events as [|event events IH]; intros left r H.
  - destruct left; discriminate H.
  - destruct left as [|left]; [discriminate H |]. cbn [decision] in H.
    destruct (isSkip event) eqn:E.
    + destruct left as [|left]; [left; now injection H |].
      destruct (IH _ _ H) as [Q | (child & code & out & err & I & K & Q)]; [now left |].
      right. exists child, code, out, err. repeat split; try assumption. now right.
    + destruct event as [child | child code out err]; [discriminate H |].
      right. exists child, code, out, err. injection H as <-.
      repeat split; [now left | exact E].
Qed.

Lemma decision_skips (skips rest : list ChildEvent) :
  length skips = 4 ->
  Forall (fun event => isSkip event = true) skips ->
  decision 4 (skips ++ rest) = Some noRunner.
Proof.
  intros L F. destruct skips as [|e1 [|e2 [|e3 [|e4 [|e5 skips]]]]]; try discriminate L.
  inversion F as [|? ? S1 F1]; subst. inversion F1 as [|? ? S2 F2]; subst.
  inversion F2 as [|? ? S3 F3]; subst. inversion F3 as [|? ? S4 _]; subst.
  cbn [app decision]. now rewrite S1, S2, S3, S4.
Qed.

Lemma filter_all_skips (skips : list ChildEvent) :
  Forall (fun event => isSkip event = true) skips ->
  length (filter isSkip skips) = length skips.
Proof.
  induction 1 as [|e l E _ IH]; [reflexivity |].
  cbn [filter]. rewrite E. cbn [length]. now rewrite IH.
Qed.

(** X6.  When the first four events are events that go on to the next
    candidate, an [error] or a [close] with the complaint of a shell that
    does not know the command, the four commands have been spawned, in the
    order of the source and each one once, and the promise is settled with
    the failure that has the fixed message and no output, whatever events
    follow. *)
Theorem runTests_no_runner (skips rest : list ChildEvent) :
  length skips = 4 ->
  Forall (fun event => isSkip event = true) skips ->
  settled (runTests testFilePath (skips ++ rest))
  = Some (Build_TestResult false noRunnerMessage EmptyString)
  /\ spawned (runTests testFilePath (skips ++ rest))
     = [ ["npx"; "jest"; testFilePath; "--no-coverage"; "--verbose"];
         ["npm"; "test"; "--"; testFilePath];
         ["npx"; "vitest"; "run"; testFilePath];
         ["yarn"; "test"; testFilePath] ].
Proof.
  intros L F. split.
  - rewrite runTests_decision. now apply decision_skips.
  - unfold runTests. rewrite runTests_start.
    edestruct (handlers_spawned testFilePath (skips ++ rest)) as (I & P);
      [| cbv zeta in I, P; rewrite P, I]; [reflexivity |].
    cbn [commandIndex Nat.add]. rewrite filter_app, length_app.
    rewrite (filter_all_skips skips F), L. cbn [Nat.add]. reflexivity.
Qed.

(** X7.  What settles the promise.  The events are handled in their order:
    the first [close] that does not go on to the next candidate decides the
    result, unless four events went on before it, which gives the failure
    with the fixed message.  Once the promise is settled no later event
    changes it.  A result with success comes from a [close] with the code
    zero and has empty errors and the output of that child; a result without
    success is the failure with the fixed message, or comes from a [close]
    with another code and has the output of that child as its errors. *)
Theorem runTests_first_decision (events later : list ChildEvent) :
  settled (runTests testFilePath events) = decision 4 events
  /\ (forall r, settled (runTests testFilePath events) = Some r ->
        settled (runTests testFilePath (events ++ later)) = Some r)
  /\ (forall r, settled (runTests testFilePath events) = Some r ->
        if success r
        then exists child stdout stderr,
               In (CloseEvent child (Some 0%Z) stdout stderr) events
               /\ errors r = EmptyString /\ output r = stdout ++ stderr
        else r = Build_TestResult false noRunnerMessage EmptyString
             \/ exists child code stdout stderr,
                  In (CloseEvent child code stdout stderr) events
                  /\ code <> Some 0%Z
                  /\ errors r = stdout ++ stderr /\ output r = stdout ++ stderr).
Proof.
  split; [apply runTests_decision |]. split.
  - intros r H. unfold runTests in *. rewrite fold_left_app.
    now apply handlers_settled.
  - intros r H. rewrite runTests_decision in H.
    destruct (decision_cases _ _ _ H) as [-> | (child & code & out & err & I & K & ->)].
    + cbn. now left.
    + unfold closeResult. destruct code as [[| |]|]; cbn [success errors output].
      * exists child, out, err. now repeat split.
      * right. exists child, (Some (Z.pos p)), out, err. now repeat split.
      * right. exists child, (Some (Z.neg p)), out, err. now repeat split.
      * right. exists child, None, out, err. now repeat split.
Qed.

End VerifierExtras.

(** No command starts. *)
Lemma runTests_no_runner_witness :
  TestGeneratorServer.settled
    (TestGeneratorServer.runTests "src/__tests__/Button.test.tsx" Runner.nothingStarts)
  = Some (TestGeneratorServer.Build_TestResult false TestGeneratorServer.noRunnerMessage
            EmptyString).
Proof.
  apply (proj1 (runTests_no_runner "src/__tests__/Button.test.tsx"
                  [ TestGeneratorServer.ErrorEvent 0; TestGeneratorServer.ErrorEvent 1;
                    TestGeneratorServer.ErrorEvent 2; TestGeneratorServer.ErrorEvent 3 ]
                  [ Runner.closeOfFailedStart 0; Runner.closeOfFailedStart 1;
                    Runner.closeOfFailedStart 2; Runner.closeOfFailedStart 3 ]
                  eq_refl ltac:(repeat constructor))).
Defined.

(** * More about the loop *)

Section SessionFacts.
Import TestGeneratorServer Runner Loop Session.

(** X8.  The verifier, the repairer and the loop together.  When in the
    first pass the first four events of the verifier go on to the next
    candidate, the verifier answers with the message that no runner was
    found, which fires no rule of the repairer: the request writes the
    generated test code, runs the verifier once, stalls, and writes the same
    code again. *)
Theorem generateTests_without_runner
        (runTests : nat -> string -> TestResult)
        (repair : string -> string -> string)
        (analysis : ComponentAnalysis.t) (filePath testFilePath generated : string)
        (skips rest : list ChildEvent) :
  settled (TestGeneratorServer.runTests testFilePath (skips ++ rest))
  = Some (runTests 1 generated) ->
  length skips = 4 ->
  Forall (fun event => isSkip event = true) skips ->
  repairs repair analysis filePath ->
  exists out,
    (forall fuel, 0 < fuel ->
       generateTestsLoop runTests repair testFilePath fuel generated = Some out)
    /\ state out = STALLED
    /\ iteration (final out) = 1
    /\ testCode (final out) = generated
    /\ effects (final out)
       = [ WriteFile testFilePath generated; RunTests testFilePath;
           WriteFile testFilePath generated ]
    /\ text out
       = folderSign ++ " Test file generated at: " ++ testFilePath ++ nl ++ nl
           ++ stalledMessage 1 noRunnerMessage generated.
Proof.
  intros Ans L F Rep.
  assert (Run : runTests 1 generated = Build_TestResult false noRunnerMessage EmptyString).
  { rewrite runTests_decision, (decision_skips skips rest L F) in Ans.
    now injection Ans. }
  assert (Same : repair generated noRunnerMessage = generated).
  { apply Rep. now apply fixTestErrors_no_rule. }
  eexists. split.
  - intros [|fuel] K; [lia |]. unfold generateTestsLoop. cbn [while].
    unfold loopCondition, loopBody, initialState.
    cbn [allTestsPassed iteration testCode finalResult effects negb andb Nat.leb
         maxIterations].
    rewrite Run. cbn [success errors]. rewrite Same, String.eqb_refl. reflexivity.
  - cbn. repeat split.
Qed.

(** X9.  When the first verification succeeds the repairer plays no part:
    the outcome is PASSED in the first pass, the file is written twice with
    the generated test code, and the response shows that code. *)
Theorem generateTests_first_pass_success
        (runTests : nat -> string -> TestResult) (repair : string -> string -> string)
        (testFilePath generated : string) (fuel : nat) :
  success (runTests 1 generated) = true ->
  1 < fuel ->
  generateTestsLoop runTests repair testFilePath fuel generated
  = Some (Build_Outcome
            (Build_LoopState 1 generated true (passedMessage 1 generated)
               [ WriteFile testFilePath generated; RunTests testFilePath;
                 WriteFile testFilePath generated ])
            PASSED
            (folderSign ++ " Test file generated at: " ++ testFilePath ++ nl ++ nl
               ++ passedMessage 1 generated)).
Proof.
  intros P F. destruct fuel as [|[|fuel]]; try lia.
  unfold generateTestsLoop. cbn [while].
  unfold loopCondition at 1, loopBody, initialState.
  cbn [allTestsPassed iteration testCode finalResult effects negb andb Nat.leb
       maxIterations].
  rewrite P. unfold loopCondition. cbn. reflexivity.
Qed.

End SessionFacts.

(** A shell that knows none of the commands, with the repairer of the
    model. *)
Lemma generateTests_without_runner_witness :
  exists out,
    TestGeneratorServer.generateTestsLoop Session.findsNoRunner
      (Session.repairer buttonModel "src/Button.tsx") "t.test.tsx" 6 "render(<Button />);"
    = Some out /\ TestGeneratorServer.state out = TestGeneratorServer.STALLED.
Proof.
  destruct (generateTests_without_runner Session.findsNoRunner
              (Session.repairer buttonModel "src/Button.tsx") buttonModel
              "src/Button.tsx" "t.test.tsx" "render(<Button />);"
              Runner.unknownCommands [])
    as (out & H & S & _).
  - reflexivity.
  - reflexivity.
  - repeat constructor.
  - intros code errors fixed E. unfold Session.repairer. now rewrite E.
  - exists out. split; [apply H; lia | exact S].
Defined.

Lemma generateTests_first_pass_success_witness :
  option_map TestGeneratorServer.state
    (TestGeneratorServer.generateTestsLoop Session.alwaysPasses Loop.addsComment
       "t.test.tsx" 6 "x")
  = Some TestGeneratorServer.PASSED.
Proof.
  rewrite (generateTests_first_pass_success Session.alwaysPasses Loop.addsComment
             "t.test.tsx" "x" 6); [reflexivity | reflexivity | lia].
Defined.

(** * More about the synthesizer *)

Section GeneratorText.
Import TestGenerator Text.

Lemma m_upperRegex p s :
  m upperRegex Some (MState p s []) =
    match s with
    | String c s' =>
        if is_upper c then Some (MState (S p) s' [(1, String c EmptyString)]) else None
    | EmptyString => None
    end.
Proof.
  unfold upperRegex. cbn [m]. unfold step_char. cbn [rest pos caps].
  destruct s as [|c s]; [reflexivity |]. rewrite class_upper.
  destruct (is_upper c); [| reflexivity].
  replace (S p - p) with 1 by lia. reflexivity.
Qed.

Lemma replace_all_upperRegex (s : string) :
  replace_all upperRegex "-$1" s
  = replace_chars is_upper (fun c => String "-" (String c EmptyString)) s.
Proof.
  apply (replace_all_single upperRegex is_upper (fun c => [(1, String c EmptyString)])).
  - apply m_upperRegex.
  - reflexivity.
Qed.

Lemma is_upper_lower_char (c : ascii) : is_upper (lower_char c) = false.
Proof.
  unfold lower_char. destruct (is_upper c) eqn:E; [| exact E].
  unfold is_upper in *. apply andb_true_iff in E as (A & B).
  apply Nat.leb_le in A, B. rewrite nat_ascii_embedding by lia.
  apply andb_false_iff. right. apply Nat.leb_gt. lia.
Qed.

Lemma kebab_app (a b : string) : kebab (a ++ b) = kebab a ++ kebab b.
Proof.
  induction a as [|c a IH]; [reflexivity |]. cbn [append kebab].
  destruct (is_upper c); cbn [append]; now rewrite IH.
Qed.

Lemma toLowerCase_replace_upper (s : string) :
  toLowerCase (replace_chars is_upper (fun c => String "-" (String c EmptyString)) s)
  = kebab s.
Proof.
  induction s as [|c s IH]; [reflexivity |]. cbn [replace_chars kebab].
  destruct (is_upper c) eqn:E.
  - cbn [append]. unfold toLowerCase in *. cbn [map_chars]. now rewrite IH.
  - unfold toLowerCase in *. cbn [map_chars]. rewrite IH.
    unfold lower_char. now rewrite E.
Qed.

Lemma kebab_lower (s : string) : allChars (fun c => negb (is_upper c)) (kebab s) = true.
Proof.
  induction s as [|c s IH]; [reflexivity |]. cbn [kebab].
  destruct (is_upper c) eqn:E; cbn [allChars].
  - now rewrite is_upper_lower_char, IH.
  - now rewrite E, IH.
Qed.

(** X10.  For a name in ASCII the class name expected for a prop is the
    name with a hyphen in front of every upper-case letter and the letter in
    lower case; so the class of an alternative of a union, in ASCII as well,
    is the class of the name, two hyphens and the class of the value, and a
    class name has no upper-case letter. *)
Theorem getExpectedClassName_kebab (name value : string) :
  allChars isAscii name = true ->
  allChars isAscii value = true ->
  getExpectedClassName name = kebab name
  /\ getExpectedClassName (name ++ "--" ++ value) = kebab name ++ "--" ++ kebab value
  /\ allChars (fun c => negb (is_upper c)) (getExpectedClassName name) = true.
Proof.
  intros _ _.
  assert (K : forall s, getExpectedClassName s = kebab s).
  { intros s. unfold getExpectedClassName.
    now rewrite replace_all_upperRegex, toLowerCase_replace_upper. }
  rewrite !K, !kebab_app. repeat split. apply kebab_lower.
Qed.

Lemma m_quoteRegex p s :
  m quoteRegex Some (MState p s []) =
    match s with
    | String c s' => if isQuote c then Some (MState (S p) s' []) else None
    | EmptyString => None
    end.
Proof.
  unfold quoteRegex. cbn [m]. unfold step_char. cbn [rest pos caps].
  destruct s as [|c s]; [reflexivity |].
  unfold class_matches, isQuote. cbn [existsb item_matches xorb]. now rewrite orb_false_r.
Qed.

Lemma replace_chars_unquoted (s : string) :
  replace_chars isQuote (fun _ => EmptyString) s = unquoted s.
Proof.
  induction s as [|c s IH]; [reflexivity |]. cbn [replace_chars unquoted].
  destruct (isQuote c); cbn [append]; now rewrite IH.
Qed.

Lemma replace_all_quoteRegex (s : string) :
  replace_all quoteRegex EmptyString s = unquoted s.
Proof.
  rewrite <- replace_chars_unquoted.
  apply (replace_all_single quoteRegex isQuote (fun _ => [])).
  - apply m_quoteRegex.
  - reflexivity.
Qed.

Lemma countChar_unquoted_le (c : ascii) (s : string) :
  countChar c (unquoted s) <= countChar c s.
Proof.
  induction s as [|a s IH]; [reflexivity |]. cbn [unquoted countChar].
  destruct (isQuote a); cbn [countChar]; lia.
Qed.

Lemma countChar_unquoted_quote (c : ascii) (s : string) :
  isQuote c = true -> countChar c (unquoted s) = 0.
Proof.
  intros Q. induction s as [|a s IH]; [reflexivity |]. cbn [unquoted].
  destruct (isQuote a) eqn:E; [exact IH |]. cbn [countChar].
  destruct (Ascii.eqb_spec a c) as [->|_]; [congruence | exact IH].
Qed.

(** X11.  The alternatives of a union are the trimmed pieces of the type
    between the bars without their quote characters: no alternative has a
    single quote, a double quote or a bar, so each one can stand between
    double quotes in the generated text. *)
Theorem unionValues_clean (type : string) :
  unionValues type = map (fun v => unquoted (trim v)) (split "|" type)
  /\ Forall (fun v => countChar "'" v = 0 /\ countChar "034" v = 0 /\ countChar "|" v = 0)
       (unionValues type).
Proof.
  assert (E : unionValues type = map (fun v => unquoted (trim v)) (split "|" type)).
  { unfold unionValues. apply map_ext. intros v. apply replace_all_quoteRegex. }
  split; [exact E |]. rewrite E. apply Forall_map.
  eapply Forall_impl; [| apply (split_pieces "|" type)].
  intros v H. cbv beta in H |- *. repeat split.
  - now apply countChar_unquoted_quote.
  - now apply countChar_unquoted_quote.
  - pose proof (countChar_unquoted_le "|" (trim v)).
    pose proof (countChar_trim_le "|" v). lia.
Qed.

End GeneratorText.

(** The class of the alternative extraLarge of a prop buttonSize. *)
Lemma getExpectedClassName_kebab_witness :
  TestGenerator.getExpectedClassName ("buttonSize" ++ "--" ++ "extraLarge")
  = "button-size--extra-large".
Proof.
  apply (proj1 (proj2 (getExpectedClassName_kebab "buttonSize" "extraLarge"
                         eq_refl eq_refl))).
Defined.

Section ImportPath.
Import TestGenerator Text.

Lemma isExtension_cases (s : string) :
  isExtension s = true <-> s = ".ts" \/ s = ".tsx" \/ s = ".js" \/ s = ".jsx".
Proof.
  unfold isExtension, array_includes. cbn [existsb]. rewrite !orb_true_iff, !String.eqb_eq.
  intuition discriminate.
Qed.

Lemma m_extension_match (p : nat) (ext : string) :
  isExtension ext = true ->
  exists st, m extensionRegex Some (MState p ext []) = Some st
             /\ rest st = EmptyString /\ pos st = p + String.length ext.
Proof.
  intros H. apply isExtension_cases in H as [-> | [-> | [-> | ->]]];
    eexists; cbn -[Nat.sub]; (split; [reflexivity |]); cbn; split; try reflexivity; lia.
Qed.

Ltac eqb_cases :=
  repeat match goal with
         | |- context [Ascii.eqb ?a ?b] =>
             destruct (Ascii.eqb_spec a b); [try discriminate; subst |];
             cbn -[Nat.sub Ascii.eqb]
         end.

Lemma m_extension_fail (p : nat) (s : string) :
  isExtension s = false -> m extensionRegex Some (MState p s []) = None.
Proof.
  intros H.
  destruct s as [|c1 [|c2 [|c3 [|c4 [|c5 s]]]]]; cbn -[Nat.sub Ascii.eqb]; eqb_cases;
    try reflexivity; try discriminate H.
Qed.

Lemma isExtension_longer (c : ascii) (base ext : string) :
  isExtension ext = true -> isExtension (String c (base ++ ext)) = false.
Proof.
  intros H. destruct (isExtension (String c (base ++ ext))) eqn:E; [| reflexivity].
  apply isExtension_cases in H, E.
  destruct H as [-> | [-> | [-> | ->]]]; destruct E as [E | [E | [E | E]]];
    destruct base as [|? [|? [|? [|? ?]]]]; discriminate E.
Qed.

Lemma search_extension (base ext : string) : forall p,
  isExtension ext = true ->
  exists mr, search extensionRegex p (base ++ ext) = Some mr
             /\ index mr = p + String.length base /\ after mr = EmptyString.
Proof.
  induction base as [|c base IH]; intros p H.
  - destruct (m_extension_match p ext H) as (st & M & R & _).
    change (EmptyString ++ ext) with ext.
    destruct ext as [|e ext]; [discriminate H |].
    cbn [search]. rewrite M. eexists. split; [reflexivity |].
    cbn [index after String.length]. split; [lia | exact R].
  - cbn [append search]. rewrite m_extension_fail by now apply isExtension_longer.
    destruct (IH (S p) H) as (mr & S & I & A). exists mr. rewrite S.
    cbn [String.length]. split; [reflexivity |]. split; [lia | exact A].
Qed.

Lemma search_no_extension (file : string) : forall p,
  (forall pre suf, file = pre ++ suf -> isExtension suf = false) ->
  search extensionRegex p file = None.
Proof.
  induction file as [|c file IH]; intros p H.
  - cbn [search]. now rewrite m_extension_fail.
  - cbn [search]. rewrite m_extension_fail by (apply (H EmptyString); reflexivity).
    apply IH. intros pre suf ->. apply (H (String c pre)). reflexivity.
Qed.

(** X12.  The import path is made from the name of the file alone: the
    directories in front of the last slash are dropped.  When the name ends
    with one of the extensions ts, tsx, js and jsx the path is two dots, a
    slash and the name without that extension; when no end of the name is
    such an extension the name is kept whole. *)
Theorem getImportPath_file_name (dir file : string) :
  countChar "/" file = 0 ->
  getImportPath (dir ++ "/" ++ file) = getImportPath file
  /\ (forall base ext, file = base ++ ext -> isExtension ext = true ->
        getImportPath file = "../" ++ base)
  /\ ((forall pre suf, file = pre ++ suf -> isExtension suf = false) ->
        getImportPath file = "../" ++ file).
Proof.
  intros N. unfold getImportPath.
  change ("/" ++ file) with (String "/" file).
  rewrite split_app_separator, last_app_nonempty by apply split_nonempty.
  rewrite split_no_separator by exact N. cbn [last].
  split; [reflexivity |]. split.
  - intros base ext -> H. unfold replace.
    destruct (search_extension base ext 0 H) as (mr & -> & I & A).
    rewrite I, A. cbn [Nat.add substitution]. now rewrite slice_to_app, append_empty_r.
  - intros H. unfold replace. now rewrite search_no_extension.
Qed.

End ImportPath.

(** The first example of the comment in the source. *)
Lemma getImportPath_file_name_witness :
  TestGenerator.getImportPath "src/components/common/button/index.tsx" = "../index".
Proof.
  destruct (getImportPath_file_name "src/components/common/button" "index.tsx")
    as (D & E & _); [reflexivity |].
  change ("src/components/common/button/index.tsx")
    with ("src/components/common/button" ++ "/" ++ "index.tsx").
  rewrite D. apply (E "index" ".tsx"); reflexivity.
Defined.

Section BatteryFacts.
Import TestGenerator ComponentAnalysis Battery.

Variable inheritedText : string -> string.

Lemma createPropTests_length (p : PropDefinition.t) (a : t) :
  length (createPropTests inheritedText p a) = propCases p.
Proof.
  unfold createPropTests, propCases. rewrite fold_left_push_singleton.
  destruct (String.eqb (PropDefinition.type p) "boolean");
    destruct (String.eqb (PropDefinition.type p) "string");
    destruct (includes (PropDefinition.type p) "|");
    unfold push; rewrite ?length_app, ?length_map; unfold unionValues;
    rewrite ?length_map, ?split_length; cbn; lia.
Qed.

Lemma isClick_isEventProp (p : PropDefinition.t) : isClick p = true -> isEventProp p = true.
Proof.
  unfold isClick, isEventProp. intros H. apply String.eqb_eq in H. now rewrite H.
Qed.

Lemma createEventTests_length (a : t) (l : list PropDefinition.t) :
  length (flat_map (fun p => createEventTests inheritedText p a) (filter isEventProp l))
  = length (filter isClick l) * (1 + Nat.b2n (hasProp a "disabled")).
Proof.
  induction l as [|p l IH]; [reflexivity |]. cbn [filter].
  destruct (isClick p) eqn:C.
  - rewrite (isClick_isEventProp p C). cbn [flat_map length]. rewrite length_app, IH.
    unfold createEventTests. unfold isClick in C. rewrite C.
    destruct (hasProp a "disabled"); cbn; lia.
  - destruct (isEventProp p); [| exact IH].
    cbn [flat_map]. rewrite length_app, IH.
    unfold createEventTests. unfold isClick in C. now rewrite C.
Qed.

(** X13.  The size of the battery: the render case and the keyboard case;
    for each prop, one case when its type is boolean, one when it is string
    and one for each alternative when it has a bar; for each prop named
    onClick, one case and one more when the model has a prop disabled; one
    case each for the props loading, icon and disabled of the model. *)
Theorem generateTestCases_length (a : t) :
  length (generateTestCases inheritedText a)
  = 1 + list_sum (map propCases (props a)) + clickCases a
    + Nat.b2n (hasProp a "loading") + Nat.b2n (hasProp a "icon")
    + 1 + Nat.b2n (hasProp a "disabled").
Proof.
  rewrite generateTestCases_eq. cbn [length]. rewrite !length_app.
  rewrite length_flat_map_sum, createEventTests_length.
  rewrite (map_ext _ propCases) by (intros p; apply createPropTests_length).
  unfold clickCases, createConditionalRenderingTests, createAccessibilityTests.
  destruct (hasProp a "loading"), (hasProp a "icon"), (hasProp a "disabled"); cbn; lia.
Qed.

Lemma inlineBinding_starts_with_name (p : PropDefinition.t) :
  startsWith (inlineBinding p) (PropDefinition.name p) = true.
Proof.
  unfold startsWith, inlineBinding, getDefaultPropValue.
  repeat match goal with
         | |- context [if ?b then _ else _] => destruct b
         end;
    rewrite ?append_assoc; try apply prefix_append; apply prefix_refl.
Qed.

(** X14.  Every required prop of the model is bound in the basic render
    case, by a text that starts with its name, and the generated text shows
    the binding; and it has an entry in the object of the required props,
    whatever the overrides. *)
Theorem required_props_bound (a : t) (p : PropDefinition.t) (filePath : string)
        (overrides : list (string * string)) :
  In p (props a) ->
  PropDefinition.optional p = false ->
  startsWith (inlineBinding p) (PropDefinition.name p) = true
  /\ includes (TestCase.code (createBasicRenderTest a)) (inlineBinding p) = true
  /\ includes (generate inheritedText a filePath) (inlineBinding p) = true
  /\ includes (getRequiredPropsObject inheritedText a overrides)
       (PropDefinition.name p ++ ": ") = true.
Proof.
  intros I R.
  assert (F : In p (filter (fun prop => negb (PropDefinition.optional prop)) (props a))).
  { apply filter_In. split; [exact I | now rewrite R]. }
  assert (B : includes (TestCase.code (createBasicRenderTest a)) (inlineBinding p) = true).
  { unfold createBasicRenderTest. cbn [TestCase.code].
    eapply includes_trans; [apply includes_lines; do 2 right; left; reflexivity |].
    apply includes_app_r, includes_app_r, includes_app_r, includes_app_l.
    apply includes_join. apply (in_map inlineBinding) in F. exact F. }
  split; [apply inlineBinding_starts_with_name |]. split; [exact B |]. split.
  - eapply includes_trans; [| exact B]. apply generate_includes_case.
    rewrite generateTestCases_eq. now left.
  - unfold getRequiredPropsObject.
    destruct (filter (fun prop => negb (PropDefinition.optional prop)) (props a))
      as [|r rs] eqn:E; [destruct F |].
    apply includes_app_r, includes_app_l.
    set (entry := fun prop : PropDefinition.t => _).
    eapply includes_trans; [apply includes_join, (in_map entry), F |].
    subst entry. cbv beta zeta.
    repeat match goal with
           | |- context [if ?b then _ else _] => destruct b
           end;
      change (": () => {}") with (": " ++ "() => {}");
      change (": true") with (": " ++ "true");
      change (": 0") with (": " ++ "0");
      rewrite <- ?append_assoc; apply includes_app_l, includes_refl.
Qed.

Lemma lookupOverride_other (name : string) :
  name <> "onClick" ->
  lookupOverride inheritedText clickOverrides name = lookupOverride inheritedText [] name.
Proof.
  intros N. unfold lookupOverride, clickOverrides. cbn [find fst].
  destruct (String.eqb_spec "onClick" name) as [E|_]; [now destruct N | reflexivity].
Qed.

(** X15.  The override of the click handler in the cases of the event.
    When every required prop named onClick has the type of a callback
    without arguments, boolean or number, the object of the required props
    is the same with the override and without it; for a required prop
    onClick of another type the object has the mock handler. *)
Theorem handler_override (a : t) :
  ((forall p, In p (props a) -> isRequired p = true -> isClick p = true ->
              fixedValueType (PropDefinition.type p) = true) ->
   getRequiredPropsObject inheritedText a clickOverrides
   = getRequiredPropsObject inheritedText a [])
  /\ (forall p, In p (props a) -> isRequired p = true -> isClick p = true ->
                fixedValueType (PropDefinition.type p) = false ->
                includes (getRequiredPropsObject inheritedText a clickOverrides)
                  "onClick: handleClick" = true).
Proof.
  split.
  - intros H. unfold getRequiredPropsObject.
    destruct (filter (fun prop => negb (PropDefinition.optional prop)) (props a))
      as [|r rs] eqn:E; [reflexivity |].
    do 2 f_equal. f_equal. apply map_ext_in. intros p I. rewrite <- E in I.
    apply filter_In in I as (I & R). cbv zeta.
    destruct (String.eqb_spec (PropDefinition.name p) "onClick") as [C|C].
    + specialize (H p I R). unfold isClick in H. rewrite C in H.
      specialize (H eq_refl). unfold fixedValueType in H.
      destruct (includes (PropDefinition.type p) callbackType); [reflexivity |].
      destruct (String.eqb (PropDefinition.type p) "boolean"); [reflexivity |].
      destruct (String.eqb (PropDefinition.type p) "number"); [reflexivity | discriminate].
    + now rewrite lookupOverride_other.
  - intros p I R C T. unfold getRequiredPropsObject.
    assert (F : In p (filter (fun prop => negb (PropDefinition.optional prop)) (props a))).
    { apply filter_In. now split. }
    destruct (filter (fun prop => negb (PropDefinition.optional prop)) (props a))
      as [|r rs] eqn:E; [destruct F |].
    apply includes_app_r, includes_app_l.
    set (entry := fun prop : PropDefinition.t => _).
    eapply includes_trans; [apply includes_join, (in_map entry), F |].
    subst entry. cbv beta zeta. unfold isClick in C. apply String.eqb_eq in C.
    unfold fixedValueType in T. apply orb_false_iff in T as (T & T3).
    apply orb_false_iff in T as (T1 & T2). rewrite T1, T2, T3, C.
    apply includes_refl.
Qed.

End BatteryFacts.

(** The label of scenario A. *)
Lemma required_props_bound_witness :
  includes
    (TestGenerator.generate plainHost (scenarioA "Button" [] [] false "src/Button.tsx")
       "src/Button.tsx")
    (Battery.inlineBinding labelProp) = true.
Proof.
  refine (proj1 (proj2 (proj2 (required_props_bound plainHost
            (scenarioA "Button" [] [] false "src/Button.tsx") labelProp
            "src/Button.tsx" [] _ _)))).
  - simpl. auto.
  - reflexivity.
Defined.

(** A click handler that takes the event gets the mock handler. *)
Lemma handler_override_witness :
  includes
    (TestGenerator.getRequiredPropsObject plainHost Battery.eventButtonModel
       TestGenerator.clickOverrides)
    "onClick: handleClick" = true.
Proof.
  refine (proj2 (handler_override plainHost Battery.eventButtonModel)
            Battery.eventHandlerProp _ _ _ _).
  - simpl. auto.
  - reflexivity.
  - reflexivity.
  - reflexivity.
Defined.

(** * From the source to the test file *)

Section PipelineFacts.
Import TestGenerator ComponentAnalyzer ComponentAnalysis Traversal.

Variable inheritedText : string -> string.

Lemma generate_reads (a a' : t) (filePath : string) :
  componentName a = componentName a' -> props a = props a' ->
  generate inheritedText a filePath = generate inheritedText a' filePath.
Proof.
  destruct a, a'. cbn [componentName props]. intros -> ->. reflexivity.
Qed.

(** X16.  The analyzer and the synthesizer together: the test file of a
    source depends on the source only through the last name that a node
    declares and the props of its contracts, in pre-order.  A source without
    a prop gets the render case and the keyboard case only. *)
Theorem generate_of_analysis (statements : list Node) (sourcePath filePath : string) :
  let names := declaredNames (nodesOf statements) in
  let contract := flat_map (fun pk => contractProps (snd pk)) (nodesOf statements) in
  let a := analyze statements sourcePath in
  generate inheritedText a filePath
  = generate inheritedText
      (Build (last names EmptyString) functional contract [] [] false EmptyString) filePath
  /\ (contract = [] ->
      map TestCase.name (generateTestCases inheritedText a)
      = [ "should render " ++ last names EmptyString ++ " component";
          "should be accessible via keyboard" ]).
Proof.
  cbv zeta. destruct (analyze_spec statements sourcePath) as (N & _ & P). cbv zeta in *.
  split.
  - apply generate_reads; cbn [componentName props]; assumption.
  - intros E. rewrite generateTestCases_eq. rewrite E in P. rewrite P.
    cbn [flat_map filter app map]. unfold createConditionalRenderingTests,
      createAccessibilityTests, hasProp. rewrite P. cbn [existsb]. cbn [push app map].
    cbn [createBasicRenderTest keyboardTest TestCase.name]. now rewrite N.
Qed.

End PipelineFacts.

(** The file with the nested declarations has no contract. *)
Lemma generate_of_analysis_witness :
  map TestCase.name
    (TestGenerator.generateTestCases plainHost
       (ComponentAnalyzer.analyze Traversal.nestedDeclarations "src/Alpha.tsx"))
  = [ "should render Inner component"; "should be accessible via keyboard" ].
Proof.
  apply (proj2 (generate_of_analysis plainHost Traversal.nestedDeclarations
                  "src/Alpha.tsx" "src/Alpha.tsx")).
  reflexivity.
Defined.

(** * The transport *)

Section TransportFacts.
Import TestGeneratorServer.Transport Text.

Lemma onData_app (buffer c1 c2 : string) :
  onData buffer (c1 ++ c2)
  = (fst (onData (fst (onData buffer c1)) c2),
     (snd (onData buffer c1) ++ snd (onData (fst (onData buffer c1)) c2))%list).
Proof.
  unfold onData. cbn [fst snd]. rewrite <- append_assoc, split_app.
  set (l1 := split "010" (buffer ++ c1)).
  set (l2 := split "010" (last l1 EmptyString ++ c2)).
  assert (N : l2 <> []) by apply split_nonempty.
  rewrite last_app_nonempty by exact N.
  rewrite removelast_app by exact N. now rewrite filter_app.
Qed.

Lemma onData_empty (buffer : string) :
  countChar "010" buffer = 0 -> onData buffer EmptyString = (buffer, []).
Proof.
  intros H. unfold onData. rewrite append_empty_r, split_no_separator by exact H.
  reflexivity.
Qed.

Lemma onData_buffer_clean (buffer chunk : string) :
  countChar "010" (fst (onData buffer chunk)) = 0.
Proof. unfold onData. cbn [fst]. apply last_split_clean. Qed.

Lemma run_from (chunks : list string) : forall buffer lines,
  countChar "010" buffer = 0 ->
  fold_left (fun st chunk =>
               let '(buffer, lines) := onData (fst st) chunk in
               (buffer, push (snd st) lines))
    chunks (buffer, lines)
  = (fst (onData buffer (String.concat EmptyString chunks)),
     (lines ++ snd (onData buffer (String.concat EmptyString chunks)))%list).
Proof.
  induction chunks as [|c cs IH]; intros buffer lines H.
  - cbn [fold_left String.concat]. rewrite onData_empty by exact H.
    cbn [fst snd]. now rewrite app_nil_r.
  - cbn [fold_left fst snd].
    destruct (onData buffer c) as [b1 l1] eqn:E.
    rewrite IH by (replace b1 with (fst (onData buffer c)) by (now rewrite E);
                   apply onData_buffer_clean).
    assert (C : String.concat EmptyString (c :: cs) = c ++ String.concat EmptyString cs).
    { destruct cs; [cbn; now rewrite append_empty_r | reflexivity]. }
    rewrite C, onData_app, E. cbn [fst snd]. unfold push. now rewrite app_assoc.
Qed.

(** X17.  The input may arrive in any chunks: the lines taken and the
    buffer left after a sequence of chunks are those of the whole input in
    one chunk. *)
Theorem run_chunking (chunks : list string) :
  run chunks = onData EmptyString (String.concat EmptyString chunks).
Proof.
  unfold run. rewrite run_from by reflexivity. cbn [app].
  now destruct (onData EmptyString (String.concat EmptyString chunks)).
Qed.

(** X18.  A chunk loses nothing: the lines in front of the last line feed
    and the new buffer, joined by line feeds, are the old buffer and the
    chunk.  The lines that are taken are those that are not blank; no line
    and no buffer has a line feed. *)
Theorem onData_lines (buffer chunk : string) :
  let lines := removelast (split "010" (buffer ++ chunk)) in
  join nl (lines ++ [fst (onData buffer chunk)]) = buffer ++ chunk
  /\ snd (onData buffer chunk) = filter notBlank lines
  /\ countChar "010" (fst (onData buffer chunk)) = 0
  /\ Forall (fun line => countChar "010" line = 0) lines.
Proof.
  cbv zeta. split; [| split; [reflexivity | split]].
  - unfold onData. cbn [fst].
    rewrite <- (app_removelast_last EmptyString (split_nonempty "010" (buffer ++ chunk))).
    apply join_split.
  - apply onData_buffer_clean.
  - apply Forall_forall. intros line H.
    pose proof (split_pieces "010" (buffer ++ chunk)) as F. rewrite Forall_forall in F.
    apply F. rewrite (app_removelast_last EmptyString (split_nonempty "010" (buffer ++ chunk))).
    apply in_or_app. now left.
Qed.

End TransportFacts.

(** * The protocol *)

Section ProtocolFacts.
Import TestGeneratorServer.Protocol Catalogue.

Variables Id Args Content : Type.
Variables analyzeComponent generateTests readComponent : Args -> Completion Content.
Variable noParamsMessage : string.

Lemma resultOf_response (request : MCPRequest Id Args) (c : Completion Content) :
  let r := match resultOf request c with
           | Returned response => response
           | Thrown message =>
               Build_MCPResponse "2.0" (request_id request) None
                 (Some (Build_MCPError (-32603) ("Internal error: " ++ message)))
           end in
  jsonrpc r = "2.0" /\ id r = request_id request
  /\ (result r = None <-> error r <> None)
  /\ (forall e, error r = Some e ->
        code e = (-32603)%Z /\ startsWith (message e) "Internal error: " = true).
Proof.
  destruct c as [content|msg]; cbn.
  - split; [reflexivity |]. split; [reflexivity |]. split.
    + split; [discriminate | intros H; now destruct H].
    + discriminate.
  - split; [reflexivity |]. split; [reflexivity |]. split.
    + split; [discriminate | reflexivity].
    + intros e [= <-]. cbn. split; [reflexivity |]. now destruct msg.
Qed.

(** X19.  The envelope of a response.  Every response has the version 2.0
    and the identifier of its request, and either a result or an error.  The
    list of tools is a result.  An error has the code -32601, for a method
    that is neither the list nor the call, or for a call of a tool with
    another name than the three; or the code -32603, for a call in which an
    exception was thrown, with the message of the exception after the words
    Internal error. *)
Theorem handleRequest_envelope (request : MCPRequest Id Args) :
  let r := handleRequest analyzeComponent generateTests readComponent
             noParamsMessage request in
  jsonrpc r = "2.0"
  /\ id r = request_id request
  /\ (result r = None <-> error r <> None)
  /\ (method request = "tools/list" -> result r = Some (ToolList tools))
  /\ (forall e, error r = Some e ->
        (code e = (-32601)%Z
         /\ ((method request <> "tools/call"
              /\ message e = "Method not found: " ++ method request)
             \/ exists call, method request = "tools/call"
                             /\ params request = Some call
                             /\ message e = "Unknown tool: " ++ name call))
        \/ (code e = (-32603)%Z
            /\ method request = "tools/call"
            /\ startsWith (message e) "Internal error: " = true)).
Proof.
  cbv zeta. unfold handleRequest.
  destruct (String.eqb_spec (method request) "tools/list") as [L|L].
  - cbn. repeat split; try discriminate; try reflexivity. intros H. now destruct H.
  - destruct (String.eqb_spec (method request) "tools/call") as [C|C].
    + unfold handleToolCall. destruct (params request) as [call|] eqn:P.
      * pose proof (resultOf_response request) as R. cbv zeta in R.
        destruct (String.eqb (name call) "analyze_component");
          [destruct (R (analyzeComponent (arguments call))) as (J & I & X & E);
           repeat split; try tauto; try congruence;
           intros e H; right; destruct (E e H); tauto |].
        destruct (String.eqb (name call) "generate_tests");
          [destruct (R (generateTests (arguments call))) as (J & I & X & E);
           repeat split; try tauto; try congruence;
           intros e H; right; destruct (E e H); tauto |].
        destruct (String.eqb (name call) "read_component");
          [destruct (R (readComponent (arguments call))) as (J & I & X & E);
           repeat split; try tauto; try congruence;
           intros e H; right; destruct (E e H); tauto |].
        cbn. repeat split; try discriminate; try congruence.
        intros e [= <-]. left. cbn. split; [reflexivity |]. right. now exists call.
      * cbn. repeat split; try discriminate; try congruence.
        intros e [= <-]. right. cbn. repeat split; try assumption.
        now destruct noParamsMessage.
    + cbn. repeat split; try discriminate; try congruence.
      intros e [= <-]. left. cbn. split; [reflexivity |]. now left.
Qed.

(** X20.  The tools listed are the tools served: a call names a tool of the
    list exactly when its response is not the error of an unknown tool, and
    a call that has a result names a tool of the list. *)
Theorem listed_tools_are_served (request : MCPRequest Id Args) (call : ToolCall Args) :
  method request = "tools/call" ->
  params request = Some call ->
  let r := handleRequest analyzeComponent generateTests readComponent
             noParamsMessage request in
  (In (name call) toolNames <-> error r <> Some (unknownTool (name call)))
  /\ (result r <> None -> In (name call) toolNames).
Proof.
  intros M P. cbv zeta. unfold handleRequest, handleToolCall. rewrite M, P.
  cbn [String.eqb Ascii.eqb Bool.eqb]. unfold toolNames, tools. cbn [map tool_name In].
  assert (R : forall c : Completion Content,
    error (match resultOf request c with
           | Returned response => response
           | Thrown message =>
               Build_MCPResponse "2.0" (request_id request) None
                 (Some (Build_MCPError (-32603) ("Internal error: " ++ message)))
           end) <> Some (unknownTool (name call))).
  { intros [content|msg]; cbn; discriminate. }
  destruct (String.eqb_spec (name call) "analyze_component") as [E1|E1];
    [split; [split; [intros _; apply R | auto] | auto] |].
  destruct (String.eqb_spec (name call) "generate_tests") as [E2|E2];
    [split; [split; [intros _; apply R | auto] | auto] |].
  destruct (String.eqb_spec (name call) "read_component") as [E3|E3];
    [split; [split; [intros _; apply R | auto 6] | auto 6] |].
  cbn. split; [split |].
  - intros [H|[H|[H|[]]]]; congruence.
  - intros H. now destruct H.
  - intros H. now destruct H.
Qed.

End ProtocolFacts.

(** A call of the tool that reads a component. *)
Lemma listed_tools_are_served_witness :
  In "read_component" Catalogue.toolNames.
Proof.
  apply (proj2 (listed_tools_are_served nat string string
                  Catalogue.echoTool Catalogue.echoTool Catalogue.echoTool "no params"
                  Catalogue.readButton
                  (TestGeneratorServer.Protocol.Build_ToolCall "read_component"
                     "src/Button.tsx")
                  eq_refl eq_refl)).
  cbn. discriminate.
Defined.

(** * More about the repairer: two of its rules *)

Section RepairRules.
Import TestGeneratorServer TestGenerator Repair Rules.

Variable inheritedText : string -> string.

(** A pattern of a text, an empty group and a text matches where the two
    texts follow one another. *)
Lemma m_around_empty_group (a b : string) (p : nat) (s : string) :
  m (seq [lit a; Group 1 Empty; lit b]) Some (MState p s []) <> None ->
  String.prefix (a ++ b) s = true.
Proof.
  cbn [seq m]. rewrite m_lit. destruct (String.prefix a s) eqn:A; [| congruence].
  cbn [pos rest caps]. rewrite m_lit.
  destruct (String.prefix b (slice_from (String.length a) s)) eqn:B; [| congruence].
  intros _. now apply prefix_app_slice.
Qed.

Lemma arrow_rule_unchanged (a b tpl code : string) :
  includes code (a ++ b) = false ->
  replace_all (seq [lit a; Group 1 Empty; lit b]) tpl code = code.
Proof.
  intros H. apply replace_all_none, (search_none _ (a ++ b)); [| exact H].
  intros p s. apply m_around_empty_group.
Qed.

Lemma noneBut_spec (n : nat) (l : list bool) :
  noneBut n l = true -> forall i, i <> n -> nth i l false = false.
Proof.
  revert n; induction l as [|c cs IH]; intros n H i N; [now destruct i |].
  destruct n as [|n]; cbn [noneBut] in H.
  - destruct i as [|i]; [now destruct N |]. cbn [nth].
    clear N IH. revert i. induction cs as [|d ds IHd]; intros i; [now destruct i |].
    cbn [forallb] in H. apply andb_true_iff in H as (D & H).
    destruct i; cbn [nth]; [now destruct d | now apply IHd].
  - apply andb_true_iff in H as (C & H). destruct i as [|i]; cbn [nth].
    + now destruct c.
    + apply (IH n H). lia.
Qed.

(** X21.  The rule for arrow functions.  In its three patterns the pair of
    parentheses is an empty group, so they match a handler without its
    parentheses and never the handler that the diagnostics name.  For
    diagnostics that fire at most this rule, a test code without one of the
    three texts that the patterns match is returned as it is. *)
Theorem arrow_rule_spares_handlers (testCode errors : string)
        (analysis : ComponentAnalysis.t) (filePath : string) :
  firesAtMost 1 errors = true ->
  Forall (fun text => includes testCode text = false) malformedHandlers ->
  fixTestErrors testCode errors analysis filePath = Some testCode.
Proof.
  intros F M. unfold firesAtMost in F. apply andb_true_iff in F as (C & F).
  apply negb_true_iff in C. unfold configurationErrors in C.
  apply orb_false_iff in C as (C1 & C2).
  pose proof (noneBut_spec 1 _ F) as R. unfold ruleConditions in R.
  pose proof (R 0 ltac:(lia)) as R0. pose proof (R 2 ltac:(lia)) as R2.
  pose proof (R 3 ltac:(lia)) as R3. pose proof (R 4 ltac:(lia)) as R4.
  pose proof (R 5 ltac:(lia)) as R5. pose proof (R 6 ltac:(lia)) as R6.
  pose proof (R 7 ltac:(lia)) as R7. pose proof (R 8 ltac:(lia)) as R8.
  pose proof (R 9 ltac:(lia)) as R9. clear R. cbn [nth] in *.
  inversion M as [|? ? M1 M']; subst. inversion M' as [|? ? M2 M'']; subst.
  inversion M'' as [|? ? M3 _]; subst.
  unfold fixTestErrors. rewrite C1, C2, R0.
  unfold arrowPattern1, arrowPattern2, arrowPattern3.
  rewrite (arrow_rule_unchanged "onClick={" " => {}}") by exact M1.
  rewrite (arrow_rule_unchanged "onClick={, " " => {}}") by exact M2.
  rewrite (arrow_rule_unchanged "onClick={" " => ,}") by exact M3.
  unfold fixMissingImports, fixExportNotFound, fixRoleNotFound, fixMissingProps,
    fixClassExpectations.
  rewrite R2, R3, R4, R5, R6, R7, R8, R9.
  now destruct (includes errors "Identifier expected" && includes errors "onClick={() => {}}").
Qed.

Lemma search_importStatement (tail : string) :
  search importStatement 0 (reactImport ++ ";" ++ nl ++ tail)
  = Some (MatchResult 0 reactImport [(1, "react")] (";" ++ nl ++ tail)).
Proof. vm_compute. reflexivity. Qed.

Lemma match_all_cannotFindModule (errors : string) :
  includes errors "Cannot find module" = false -> match_all cannotFindModule errors = [].
Proof.
  intros H. unfold match_all. cbn [match_loop].
  rewrite (search_none _ "Cannot find module"); [reflexivity | | exact H].
  intros p s. unfold cannotFindModule. cbn [seq m]. rewrite m_lit.
  destruct (String.prefix "Cannot find module" s); congruence.
Qed.

Lemma generate_first_line (a : ComponentAnalysis.t) (filePath : string) :
  exists tail,
    generate inheritedText a filePath = reactImport ++ ";" ++ nl ++ tail
    /\ includes tail (componentImport a filePath) = true.
Proof.
  unfold generate, buildTestFile, generateImports, lines. cbn [String.concat].
  rewrite !append_assoc. eexists. split; [reflexivity |].
  do 8 apply includes_app_r. apply includes_iff. exists EmptyString. eexists.
  unfold componentImport. rewrite !append_assoc. reflexivity.
Qed.

(** X22.  The repair of a missing module on a generated test.  The pattern
    for the import to correct finds the first import of the text, which in
    a generated test is the import of React.  So for diagnostics that fire
    at most this rule and report one missing module, a relative one, the
    repair of the generated test replaces the import of React by the import
    of the component, which the rest of the text still has. *)
Theorem missing_module_repair (a : ComponentAnalysis.t)
        (filePath errors diagnostic : string) :
  firesAtMost 2 errors = true ->
  match_all cannotFindModule errors = [diagnostic] ->
  relativeModule diagnostic = true ->
  countChar "$" (ComponentAnalysis.componentName a) = 0 ->
  countChar "$" (getImportPath filePath) = 0 ->
  exists tail,
    generate inheritedText a filePath = reactImport ++ tail
    /\ fixTestErrors (generate inheritedText a filePath) errors a filePath
       = Some (componentImport a filePath ++ tail)
    /\ includes tail (componentImport a filePath) = true.
Proof.
  intros F M Rel D1 D2.
  destruct (generate_first_line a filePath) as (tail & G & I).
  exists (";" ++ nl ++ tail). split; [exact G |].
  split; [| now apply includes_app_r, includes_app_r].
  unfold firesAtMost in F. apply andb_true_iff in F as (C & F).
  apply negb_true_iff in C. unfold configurationErrors in C.
  apply orb_false_iff in C as (C1 & C2).
  pose proof (noneBut_spec 2 _ F) as R. unfold ruleConditions in R.
  pose proof (R 0 ltac:(lia)) as R0. pose proof (R 1 ltac:(lia)) as R1.
  pose proof (R 3 ltac:(lia)) as R3. pose proof (R 4 ltac:(lia)) as R4.
  pose proof (R 5 ltac:(lia)) as R5. pose proof (R 6 ltac:(lia)) as R6.
  pose proof (R 7 ltac:(lia)) as R7. pose proof (R 8 ltac:(lia)) as R8.
  pose proof (R 9 ltac:(lia)) as R9. clear R. cbn [nth] in *.
  assert (Inc : includes errors "Cannot find module" = true).
  { destruct (includes errors "Cannot find module") eqn:E; [reflexivity |].
    rewrite match_all_cannotFindModule in M by exact E. discriminate. }
  unfold fixTestErrors. rewrite C1, C2, R0, R1.
  unfold fixMissingImports. rewrite Inc, M. cbn [fold_left].
  unfold relativeModule in Rel.
  destruct (exec quotedText diagnostic) as [moduleNameMatch|]; [| discriminate].
  rewrite Rel.
  unfold fixExportNotFound, fixRoleNotFound, fixMissingProps, fixClassExpectations.
  rewrite R3, R4, R5, R6, R7, R8, R9. f_equal.
  rewrite G. unfold replace. rewrite search_importStatement.
  rewrite substitution_plain
    by (unfold q; rewrite !countChar_app, D1, D2; reflexivity).
  unfold componentImport. cbn [index after slice_to]. now rewrite !append_assoc.
Qed.

End RepairRules.

(** The handler of the render call has its parentheses. *)
Lemma arrow_rule_spares_handlers_witness :
  TestGeneratorServer.fixTestErrors Repair.renderWithHandler Rules.identifierExpected
    buttonModel "src/Button.tsx"
  = Some Repair.renderWithHandler.
Proof.
  apply arrow_rule_spares_handlers; [reflexivity | repeat constructor].
Defined.

(** The generated test of scenario A and the diagnostics of a missing
    module. *)
Lemma missing_module_repair_witness :
  exists tail,
    TestGenerator.generate plainHost (scenarioA "Button" ["Button"] [] false "src/Button.tsx")
      "src/Button.tsx" = Rules.reactImport ++ tail
    /\ TestGeneratorServer.fixTestErrors
         (TestGenerator.generate plainHost
            (scenarioA "Button" ["Button"] [] false "src/Button.tsx") "src/Button.tsx")
         Rules.moduleNotFound
         (scenarioA "Button" ["Button"] [] false "src/Button.tsx") "src/Button.tsx"
       = Some ("import { Button } from " ++ q "../Button" ++ tail).
Proof.
  destruct (missing_module_repair plainHost
              (scenarioA "Button" ["Button"] [] false "src/Button.tsx") "src/Button.tsx"
              Rules.moduleNotFound Rules.moduleNotFound)
    as (tail & G & F & _); try reflexivity.
  exists tail. split; [exact G | exact F].
Defined.
